(** * MSR tuning controller and crash-recovery frame of junocash

    A shallow embedding of [src/crypto/msr_item.h], [src/crypto/msr.cpp],
    [src/crypto/randomx_msr.cpp] and [src/crypto/randomx_fix.cpp].

    Fixed-width integers are [Z] with the wrap-around written out, the
    register device of the operating system is an explicit [World] that
    is threaded through every call, and the process-wide statics of the
    C++ classes are a record that is threaded alongside it. *)

From Stdlib Require Import ZArith List Bool Lia.
Import ListNotations.
Open Scope Z_scope.

(** ** Fixed-width words *)

Definition u32_mod : Z := 2 ^ 32.
Definition u64_mod : Z := 2 ^ 64.

Definition is_u32 (x : Z) : Prop := 0 <= x < u32_mod.
Definition is_u64 (x : Z) : Prop := 0 <= x < u64_mod.

(** [~x] on a [uint64_t]. *)
Definition not64 (x : Z) : Z := Z.lnot x mod u64_mod.

(** [a + b] on a [uint32_t]. *)
Definition add32 (a b : Z) : Z := (a + b) mod u32_mod.

(** [1ULL << 32]. *)
Definition one_shl_32 : Z := Z.shiftl 1 32.

(** ** msr_item.h *)

Module MsrItem.

(** [std::numeric_limits<uint64_t>::max()] *)
Definition kNoMask : Z := u64_mod - 1.

Record t : Type := Build
  { m_reg : Z;      (* uint32_t *)
    m_value : Z;    (* uint64_t *)
    m_mask : Z      (* uint64_t *) }.

(** [MsrItem() = default]: the member initialisers. *)
Definition empty : t := Build 0 0 kNoMask.

(** [MsrItem(reg, value, mask = kNoMask)] *)
Definition make (reg value : Z) : t := Build reg value kNoMask.
Definition make_masked (reg value mask : Z) : t := Build reg value mask.

Definition isValid (i : t) : bool := 0 <? m_reg i.
Definition reg (i : t) : Z := m_reg i.
Definition value (i : t) : Z := m_value i.
Definition mask (i : t) : Z := m_mask i.

Definition maskedValue (old_value new_value mask : Z) : Z :=
  Z.lor (Z.land new_value mask) (Z.land old_value (not64 mask)).

End MsrItem.

Definition MsrItems : Type := list MsrItem.t.

(** ** The host: build configuration and identification instruction *)

Record CpuidRegs : Type := MkCpuid
  { r_eax : Z; r_ebx : Z; r_ecx : Z; r_edx : Z }.

Record Host : Type := MkHost
  { x86_64 : bool;                     (* #ifdef __x86_64__ *)
    linux : bool;                      (* #ifdef __linux__ *)
    cpuid : Z -> Z -> CpuidRegs;       (* leaf, sub-leaf *)
    hardware_concurrency : nat         (* std::thread::hardware_concurrency() *) }.

(** ** randomx_msr.cpp: detection *)

Inductive CPUVendor : Type :=
| CPU_VENDOR_UNKNOWN | CPU_VENDOR_AMD | CPU_VENDOR_INTEL.

Inductive AMDFamily : Type :=
| AMD_UNKNOWN
| AMD_RYZEN_17H    (* Zen/Zen+/Zen2 *)
| AMD_RYZEN_19H    (* Zen3 *)
| AMD_RYZEN_ZEN4
| AMD_RYZEN_ZEN5.

Inductive MsrMod : Type :=
| MSR_MOD_NONE | MSR_MOD_RYZEN_17H | MSR_MOD_RYZEN_19H | MSR_MOD_RYZEN_ZEN4
| MSR_MOD_RYZEN_ZEN5 | MSR_MOD_INTEL | MSR_MOD_CUSTOM | MSR_MOD_MAX.

Definition MsrMod_index (m : MsrMod) : nat :=
  match m with
  | MSR_MOD_NONE => 0 | MSR_MOD_RYZEN_17H => 1 | MSR_MOD_RYZEN_19H => 2
  | MSR_MOD_RYZEN_ZEN4 => 3 | MSR_MOD_RYZEN_ZEN5 => 4 | MSR_MOD_INTEL => 5
  | MSR_MOD_CUSTOM => 6 | MSR_MOD_MAX => 7
  end%nat.

Definition msrPresets : list MsrItems :=
  [ (* MSR_MOD_NONE *)
    [];
    (* MSR_MOD_RYZEN_17H *)
    [ MsrItem.make 0xC0011020 0;
      MsrItem.make_masked 0xC0011021 0x40 (not64 0x20);
      MsrItem.make 0xC0011022 0x1510000;
      MsrItem.make 0xC001102b 0x2000cc16 ];
    (* MSR_MOD_RYZEN_19H *)
    [ MsrItem.make 0xC0011020 0x0004480000000000;
      MsrItem.make_masked 0xC0011021 0x001c000200000040 (not64 0x20);
      MsrItem.make 0xC0011022 0xc000000401570000;
      MsrItem.make 0xC001102b 0x2000cc10 ];
    (* MSR_MOD_RYZEN_ZEN4 *)
    [ MsrItem.make 0xC0011020 0x0004400000000000;
      MsrItem.make_masked 0xC0011021 0x0004000000000040 (not64 0x20);
      MsrItem.make 0xC0011022 0x8680000401570000;
      MsrItem.make 0xC001102b 0x2040cc10 ];
    (* MSR_MOD_RYZEN_ZEN5 *)
    [ MsrItem.make 0xC0011020 0x0004400000000000;
      MsrItem.make_masked 0xC0011021 0x0004000000000040 (not64 0x20);
      MsrItem.make 0xC0011022 0x8680000401570000;
      MsrItem.make 0xC001102b 0x2040cc10 ];
    (* MSR_MOD_INTEL *)
    [ MsrItem.make 0x1a4 0xf ];
    (* MSR_MOD_CUSTOM *)
    [] ].

(** [msrPresets[mod]] *)
Definition preset_of (m : MsrMod) : MsrItems :=
  nth (MsrMod_index m) msrPresets [].

(** The four bytes [memcpy] takes out of a 32-bit register (little endian). *)
Definition le_bytes4 (x : Z) : list Z :=
  [ x mod 256; (x / 2 ^ 8) mod 256; (x / 2 ^ 16) mod 256; (x / 2 ^ 24) mod 256 ].

(** [strcmp(a, b) == 0] on NUL-terminated byte strings. *)
Fixpoint c_str (l : list Z) : list Z :=
  match l with
  | [] => []
  | c :: l' => if c =? 0 then [] else c :: c_str l'
  end.

Definition strcmp_eq (a b : list Z) : bool :=
  if list_eq_dec Z.eq_dec (c_str a) (c_str b) then true else false.

(** "AuthenticAMD" and "GenuineIntel" as bytes. *)
Definition str_AuthenticAMD : list Z :=
  [65; 117; 116; 104; 101; 110; 116; 105; 99; 65; 77; 68; 0].
Definition str_GenuineIntel : list Z :=
  [71; 101; 110; 117; 105; 110; 101; 73; 110; 116; 101; 108; 0].

(** The source leaves the sub-leaf register unset for leaves 0 and 1, which
    do not depend on it; the model asks for sub-leaf 0. *)
Definition DetectCPUVendor (h : Host) : CPUVendor :=
  if x86_64 h then
    let r := cpuid h 0 0 in
    let vendor := le_bytes4 (r_ebx r) ++ le_bytes4 (r_edx r)
                    ++ le_bytes4 (r_ecx r) ++ [0] in
    if strcmp_eq vendor str_AuthenticAMD then CPU_VENDOR_AMD
    else if strcmp_eq vendor str_GenuineIntel then CPU_VENDOR_INTEL
    else CPU_VENDOR_UNKNOWN
  else CPU_VENDOR_UNKNOWN.

Definition amd_family_code (eax : Z) : Z :=
  add32 (Z.land (Z.shiftr eax 8) 0xF) (Z.land (Z.shiftr eax 20) 0xFF).

Definition amd_model_code (eax : Z) : Z :=
  Z.lor (Z.land (Z.shiftr eax 4) 0xF) (Z.land (Z.shiftr eax 12) 0xF0).

Definition DetectAMDFamily (h : Host) : AMDFamily :=
  if x86_64 h then
    let eax := r_eax (cpuid h 1 0) in
    let family := amd_family_code eax in
    let model := amd_model_code eax in
    if family =? 0x17 then AMD_RYZEN_17H
    else if family =? 0x19 then
      if (0x10 <=? model) && (model <? 0x70) then AMD_RYZEN_ZEN4
      else if 0x70 <=? model then AMD_RYZEN_ZEN5
      else AMD_RYZEN_19H
    else AMD_UNKNOWN
  else AMD_UNKNOWN.

Definition HasCatL3 (h : Host) : bool :=
  if x86_64 h then negb (Z.land (r_ebx (cpuid h 0x10 0)) 0x2 =? 0)
  else false.

(** The preset index [DetectMsrMod] returns, without its log lines. *)
Definition detected_mod (h : Host) : MsrMod :=
  match DetectCPUVendor h with
  | CPU_VENDOR_AMD =>
      match DetectAMDFamily h with
      | AMD_RYZEN_17H => MSR_MOD_RYZEN_17H
      | AMD_RYZEN_19H => MSR_MOD_RYZEN_19H
      | AMD_RYZEN_ZEN4 => MSR_MOD_RYZEN_ZEN4
      | AMD_RYZEN_ZEN5 => MSR_MOD_RYZEN_ZEN5
      | AMD_UNKNOWN => MSR_MOD_NONE
      end
  | CPU_VENDOR_INTEL => MSR_MOD_INTEL
  | CPU_VENDOR_UNKNOWN => MSR_MOD_NONE
  end.

(** ** A small state monad

    The C++ code mutates process-wide statics and the register device as
    it goes; both are threaded as explicit state. *)

Definition St (S A : Type) : Type := S -> A * S.

Definition ret {S A : Type} (a : A) : St S A := fun s => (a, s).

Definition bind {S A B : Type} (m : St S A) (f : A -> St S B) : St S B :=
  fun s => let r := m s in f (fst r) (snd r).

Notation "x <- m ;; k" := (bind m (fun x => k))
  (at level 61, m at next level, right associativity).
Notation "m ;; k" := (bind m (fun _ => k))
  (at level 61, right associativity).

Definition when {S : Type} (b : bool) (m : St S unit) : St S unit :=
  if b then m else ret tt.

(** [for (x : l) { if (!f(x)) return false; } return true;] *)
Fixpoint all_st {S A : Type} (f : A -> St S bool) (l : list A) : St S bool :=
  match l with
  | [] => ret true
  | x :: l' => b <- f x ;; if b then all_st f l' else ret false
  end.

(** ** The register device of the operating system *)

Inductive OpenFlag : Type := O_RDONLY | O_WRONLY.

Inductive Event : Type :=
| EvAllowWrites                       (* "on" to /sys/module/msr/parameters/allow_writes *)
| EvModprobe                          (* system("/sbin/modprobe msr allow_writes=on ...") *)
| EvOpen (cpu : Z) (fl : OpenFlag)    (* open("/dev/cpu/<cpu>/msr", fl) *)
| EvPread (cpu reg : Z)               (* pread(fd, &value, 8, reg) *)
| EvPwrite (cpu reg value : Z).       (* pwrite(fd, &value, 8, reg) *)

(** The [LogPrintf] lines of msr.cpp and randomx_msr.cpp (the line
    [DetectAMDFamily] prints under the debug category is left out). *)
Inductive LogMsg : Type :=
| LogModuleUnavailable
| LogMaskReadFailed (reg : Z)
| LogMasked (reg old new : Z)
| LogRead (reg value : Z)
| LogDetected (m : MsrMod)
| LogUnknownAMD
| LogUnknownVendor
| LogNoPreset
| LogPresetEmpty
| LogApplying (m : MsrMod) (n : nat) (qos : bool)
| LogQosNeedsAffinity
| LogApplied (m : MsrMod)
| LogQosEnabled (n : nat)
| LogApplyFailed
| LogNeedRoot
| LogRunModprobe
| LogBackupReadFailed (reg : Z)
| LogNoCatL3
| LogRestoring
| LogCannotRestore
| LogRestored
| LogRestoreFailed.

(** How the operating system answers the calls of the moment. *)
Record Device : Type := MkDevice
  { open_ok : Z -> OpenFlag -> bool;    (* does open() give a descriptor *)
    pread_ok : Z -> Z -> bool;          (* does pread() transfer 8 bytes *)
    pwrite_ok : Z -> Z -> Z -> bool;    (* does pwrite() transfer 8 bytes *)
    allow_writes_ok : bool;             (* is the stream good() after "on" *)
    modprobe_ok : bool                  (* does system() return 0 *) }.

Record World : Type := MkWorld
  { device : Device;
    regs : Z -> Z -> Z;                 (* logical CPU, register index *)
    trace : list Event;                 (* device calls made, oldest first *)
    log : list LogMsg                   (* lines logged, oldest first *) }.

Definition add_event (e : Event) (w : World) : World :=
  MkWorld (device w) (regs w) (trace w ++ [e]) (log w).

Definition add_log (m : LogMsg) (w : World) : World :=
  MkWorld (device w) (regs w) (trace w) (log w ++ [m]).

Definition set_reg (cpu reg value : Z) (w : World) : World :=
  MkWorld (device w)
          (fun c r => if (c =? cpu) && (r =? reg) then value else regs w c r)
          (trace w) (log w).

Definition emit (e : Event) : St World unit := fun w => (tt, add_event e w).

Definition LogPrintf (m : LogMsg) : St World unit := fun w => (tt, add_log m w).

Definition store (cpu reg value : Z) : St World unit :=
  fun w => (tt, set_reg cpu reg value w).

Definition ask {S A : Type} (f : S -> A) : St S A := fun s => (f s, s).

(** ** msr.cpp *)

Definition GetNumCPUs (h : Host) : nat := hardware_concurrency h.

Definition GetCPUList (h : Host) : list Z :=
  map Z.of_nat (seq 0 (GetNumCPUs h)).

Module Msr.

(** The accessor object; [d_ptr->m_available] is its only datum. *)
Record t : Type := Build { m_available : bool }.

Definition msr_allow_writes : St World bool :=
  emit EvAllowWrites ;; ask (fun w => allow_writes_ok (device w)).

Definition msr_modprobe : St World bool :=
  emit EvModprobe ;; ask (fun w => modprobe_ok (device w)).

(** [MsrPrivate() : m_available(msr_allow_writes() || msr_modprobe())] *)
Definition MsrPrivate_new (h : Host) : St World bool :=
  if linux h then
    a <- msr_allow_writes ;;
    if a then ret true else msr_modprobe
  else ret false.

(** [Msr::Msr()] *)
Definition new (h : Host) : St World t :=
  a <- MsrPrivate_new h ;;
  when (negb a) (LogPrintf LogModuleUnavailable) ;;
  ret (Build a).

Definition isAvailable (m : t) : bool := m_available m.

(** [msr_open]: the descriptor is identified with the logical CPU whose
    device node it refers to; [None] is a negative descriptor. *)
Definition msr_open (h : Host) (cpu : Z) (fl : OpenFlag) : St World (option Z) :=
  if linux h then
    let cpu := if cpu <? 0
               then match GetCPUList h with [] => 0 | c :: _ => c end
               else cpu in
    emit (EvOpen cpu fl) ;;
    ok <- ask (fun w => open_ok (device w) cpu fl) ;;
    ret (if ok then Some cpu else None)
  else ret None.

Definition pread (fd reg : Z) : St World (option Z) :=
  emit (EvPread fd reg) ;;
  ok <- ask (fun w => pread_ok (device w) fd reg) ;;
  if ok then v <- ask (fun w => regs w fd reg) ;; ret (Some v)
  else ret None.

Definition pwrite (fd reg value : Z) : St World bool :=
  emit (EvPwrite fd reg value) ;;
  ok <- ask (fun w => pwrite_ok (device w) fd reg value) ;;
  if ok then store fd reg value ;; ret true
  else ret false.

(** [rdmsr(reg, cpu, value)]: [Some v] is [true] with [value = v]. *)
Definition rdmsr (h : Host) (reg cpu : Z) : St World (option Z) :=
  if linux h then
    fd <- msr_open h cpu O_RDONLY ;;
    match fd with
    | None => ret None
    | Some fd => pread fd reg
    end
  else ret None.

Definition wrmsr (h : Host) (reg value cpu : Z) : St World bool :=
  if linux h then
    fd <- msr_open h cpu O_WRONLY ;;
    match fd with
    | None => ret false
    | Some fd => pwrite fd reg value
    end
  else ret false.

(** [write(reg, value, cpu, mask, verbose)] *)
Definition write (h : Host) (m : t) (reg value cpu mask : Z) (verbose : bool)
  : St World bool :=
  if negb (isAvailable m) then ret false
  else if negb (mask =? MsrItem.kNoMask) then
    old <- rdmsr h reg cpu ;;
    match old with
    | None =>
        when verbose (LogPrintf (LogMaskReadFailed reg)) ;;
        ret false
    | Some old_value =>
        let value := MsrItem.maskedValue old_value value mask in
        when verbose (LogPrintf (LogMasked reg old_value value)) ;;
        wrmsr h reg value cpu
    end
  else wrmsr h reg value cpu.

(** [write(item, cpu, verbose)] *)
Definition write_item (h : Host) (m : t) (item : MsrItem.t) (cpu : Z)
           (verbose : bool) : St World bool :=
  write h m (MsrItem.reg item) (MsrItem.value item) cpu (MsrItem.mask item)
        verbose.

(** [write(Callback &&)] *)
Definition write_each {S : Type} (h : Host) (callback : Z -> St S bool)
  : St S bool :=
  all_st callback (GetCPUList h).

(** [read(reg, cpu, verbose)] *)
Definition read (h : Host) (m : t) (reg cpu : Z) (verbose : bool)
  : St World MsrItem.t :=
  o <- rdmsr h reg cpu ;;
  match o with
  | Some value =>
      when verbose (LogPrintf (LogRead reg value)) ;;
      ret (MsrItem.make reg value)
  | None => ret MsrItem.empty
  end.

End Msr.

(** ** randomx_msr.cpp: the tuning controller *)

Definition DetectMsrMod (h : Host) : St World MsrMod :=
  match DetectCPUVendor h with
  | CPU_VENDOR_AMD =>
      match DetectAMDFamily h with
      | AMD_RYZEN_17H =>
          LogPrintf (LogDetected MSR_MOD_RYZEN_17H) ;; ret MSR_MOD_RYZEN_17H
      | AMD_RYZEN_19H =>
          LogPrintf (LogDetected MSR_MOD_RYZEN_19H) ;; ret MSR_MOD_RYZEN_19H
      | AMD_RYZEN_ZEN4 =>
          LogPrintf (LogDetected MSR_MOD_RYZEN_ZEN4) ;; ret MSR_MOD_RYZEN_ZEN4
      | AMD_RYZEN_ZEN5 =>
          LogPrintf (LogDetected MSR_MOD_RYZEN_ZEN5) ;; ret MSR_MOD_RYZEN_ZEN5
      | AMD_UNKNOWN =>
          LogPrintf LogUnknownAMD ;; ret MSR_MOD_NONE
      end
  | CPU_VENDOR_INTEL =>
      LogPrintf (LogDetected MSR_MOD_INTEL) ;; ret MSR_MOD_INTEL
  | CPU_VENDOR_UNKNOWN =>
      LogPrintf LogUnknownVendor ;; ret MSR_MOD_NONE
  end.

(** The statics of [RandomX_Msr], the file-level [original_msrs] and the
    accessor singleton [msr_instance] of msr.cpp. *)
Record Statics : Type := MkStatics
  { m_enabled : bool;
    m_initialized : bool;
    m_cache_qos : bool;
    original_msrs : MsrItems;
    msr_instance : option Msr.t }.

Definition initial_statics : Statics :=
  MkStatics false false false [] None.

Definition Proc : Type := Statics * World.

Definition liftW {A : Type} (m : St World A) : St Proc A :=
  fun p => let r := m (snd p) in (fst r, (fst p, snd r)).

Definition modify (f : Statics -> Statics) : St Proc unit :=
  fun p => (tt, (f (fst p), snd p)).

Definition set_enabled (b : bool) (s : Statics) : Statics :=
  MkStatics b (m_initialized s) (m_cache_qos s) (original_msrs s) (msr_instance s).
Definition set_initialized (b : bool) (s : Statics) : Statics :=
  MkStatics (m_enabled s) b (m_cache_qos s) (original_msrs s) (msr_instance s).
Definition set_cache_qos (b : bool) (s : Statics) : Statics :=
  MkStatics (m_enabled s) (m_initialized s) b (original_msrs s) (msr_instance s).
Definition set_original_msrs (l : MsrItems) (s : Statics) : Statics :=
  MkStatics (m_enabled s) (m_initialized s) (m_cache_qos s) l (msr_instance s).
Definition set_msr_instance (m : option Msr.t) (s : Statics) : Statics :=
  MkStatics (m_enabled s) (m_initialized s) (m_cache_qos s) (original_msrs s) m.

Definition is_empty {A : Type} (l : list A) : bool :=
  match l with [] => true | _ => false end.

(** [Msr::get()] *)
Definition Msr_get (h : Host) : St Proc Msr.t :=
  inst <- ask (fun p => msr_instance (fst p)) ;;
  match inst with
  | Some m => ret m
  | None =>
      m <- liftW (Msr.new h) ;;
      modify (set_msr_instance (Some m)) ;;
      ret m
  end.

(** The backup loop of [ApplyMsrPreset]. *)
Fixpoint backup_loop (h : Host) (msr : Msr.t) (preset : MsrItems) : St Proc bool :=
  match preset with
  | [] => ret true
  | item :: rest =>
      orig <- liftW (Msr.read h msr (MsrItem.reg item) (-1) true) ;;
      if negb (MsrItem.isValid orig) then
        liftW (LogPrintf (LogBackupReadFailed (MsrItem.reg item))) ;;
        modify (set_original_msrs []) ;;
        ret false
      else
        modify (fun s => set_original_msrs (original_msrs s ++ [orig]) s) ;;
        backup_loop h msr rest
  end.

(** The cache QoS part of the callback of [ApplyMsrPreset]. *)
Definition apply_cache_qos (h : Host) (msr : Msr.t) (cache_enabled : list Z)
           (cpu : Z) : St World bool :=
  if existsb (Z.eqb cpu) cache_enabled then
    (* Class Of Service 0 to mining cores *)
    b <- Msr.write h msr 0xC8F 0 cpu MsrItem.kNoMask false ;;
    if negb b then ret false else ret true
  else
    b0 <- Msr.write h msr 0xC91 0 cpu MsrItem.kNoMask false ;;
    b1 <- (if negb b0
           then Msr.write h msr 0xC91 1 cpu MsrItem.kNoMask false
           else ret true) ;;
    if negb b1 then ret false
    else
      b2 <- Msr.write h msr 0xC8F one_shl_32 cpu MsrItem.kNoMask false ;;
      if negb b2 then ret false else ret true.

(** The callback [ApplyMsrPreset] hands to [Msr::write]. *)
Definition apply_callback (h : Host) (msr : Msr.t) (preset : MsrItems)
           (cache_enabled : list Z) (cache_qos cache_qos_disabled : bool)
           (cpu : Z) : St World bool :=
  ok <- all_st (fun item => Msr.write_item h msr item cpu false) preset ;;
  if negb ok then ret false
  else if cache_qos && negb cache_qos_disabled
       then apply_cache_qos h msr cache_enabled cpu
       else ret true.

Definition ApplyMsrPreset (h : Host) (preset : MsrItems)
           (thread_affinities : list Z) (cache_qos : bool) : St Proc bool :=
  msr <- Msr_get h ;;
  if negb (Msr.isAvailable msr) then ret false
  else
    modify (set_original_msrs []) ;;
    saved <- backup_loop h msr preset ;;
    if negb saved then ret false
    else
      let cache_enabled := thread_affinities in
      let cache_qos_disabled := is_empty thread_affinities in
      cache_qos <- (if cache_qos && negb cache_qos_disabled && negb (HasCatL3 h)
                    then liftW (LogPrintf LogNoCatL3) ;; ret false
                    else ret cache_qos) ;;
      liftW (Msr.write_each h
               (apply_callback h msr preset cache_enabled cache_qos
                               cache_qos_disabled)).

Definition mod_unusable (m : MsrMod) : bool :=
  match m with
  | MSR_MOD_NONE => true          (* mod == MSR_MOD_NONE *)
  | MSR_MOD_MAX => true           (* mod >= MSR_MOD_MAX *)
  | _ => false
  end.

Module RandomX_Msr.

Definition Init (h : Host) (thread_affinities : list Z)
           (enable_cache_qos : bool) : St Proc bool :=
  initialized <- ask (fun p => m_initialized (fst p)) ;;
  if initialized then ask (fun p => m_enabled (fst p))
  else
    modify (set_initialized true) ;;
    modify (set_enabled false) ;;
    modify (set_cache_qos enable_cache_qos) ;;
    md <- liftW (DetectMsrMod h) ;;
    if mod_unusable md then
      liftW (LogPrintf LogNoPreset) ;; ret false
    else
      let preset := preset_of md in
      if is_empty preset then
        liftW (LogPrintf LogPresetEmpty) ;; ret false
      else
        qos <- ask (fun p => m_cache_qos (fst p)) ;;
        liftW (LogPrintf (LogApplying md (length preset) qos)) ;;
        when (qos && is_empty thread_affinities)
             (liftW (LogPrintf LogQosNeedsAffinity)) ;;
        applied <- ApplyMsrPreset h preset thread_affinities qos ;;
        modify (set_enabled applied) ;;
        (if applied then
           liftW (LogPrintf (LogApplied md)) ;;
           when (qos && negb (is_empty thread_affinities))
                (liftW (LogPrintf (LogQosEnabled (length thread_affinities))))
         else
           liftW (LogPrintf LogApplyFailed) ;;
           liftW (LogPrintf LogNeedRoot) ;;
           liftW (LogPrintf LogRunModprobe)) ;;
        ask (fun p => m_enabled (fst p)).

Definition Destroy (h : Host) : St Proc unit :=
  initialized <- ask (fun p => m_initialized (fst p)) ;;
  backup <- ask (fun p => original_msrs (fst p)) ;;
  if negb initialized || is_empty backup then ret tt
  else
    liftW (LogPrintf LogRestoring) ;;
    msr <- Msr_get h ;;
    if negb (Msr.isAvailable msr) then
      liftW (LogPrintf LogCannotRestore) ;; ret tt
    else
      success <- liftW (Msr.write_each h (fun cpu =>
                   all_st (fun item => Msr.write_item h msr item cpu false)
                          backup)) ;;
      liftW (LogPrintf (if success then LogRestored else LogRestoreFailed)) ;;
      modify (set_original_msrs []) ;;
      modify (set_initialized false) ;;
      modify (set_enabled false).

Definition IsEnabled : St Proc bool :=
  ask (fun p => m_enabled (fst p)).

End RandomX_Msr.

(** ** randomx_fix.cpp: the crash-recovery frame *)

Module RandomX_Fix.

Inductive Signal : Type := SIGSEGV | SIGILL.

Inductive Disposition : Type :=
| SIG_DFL
| SA_MainLoopHandler.    (* act.sa_sigaction = MainLoopHandler *)

(** The [thread_local] statics of one thread.  [exception_env] is
    [None] until a [sigsetjmp] fills it. *)
Record ThreadLocal : Type := MkTls
  { exception_frame_active : bool;
    exception_env : option nat }.

Definition fresh_thread : ThreadLocal := MkTls false None.

Inductive FixLog : Type :=
| LogHandlersInstalled | LogInstallFailed | LogNotAvailable
| LogHandlersRemoved | LogCaught (sig : Signal).

Record FixProc : Type := MkFix
  { fx_initialized : bool;                  (* RandomX_Fix::m_initialized *)
    disposition : Signal -> Disposition;
    tls : Z -> ThreadLocal;                 (* per thread id *)
    sigaction_ok : Signal -> bool;          (* does sigaction() return 0 *)
    fx_log : list FixLog }.

Definition initial (ok : Signal -> bool) : FixProc :=
  MkFix false (fun _ => SIG_DFL) (fun _ => fresh_thread) ok [].

Definition Signal_eqb (a b : Signal) : bool :=
  match a, b with
  | SIGSEGV, SIGSEGV | SIGILL, SIGILL => true
  | _, _ => false
  end.

Definition set_disposition (sig : Signal) (d : Disposition) (p : FixProc)
  : FixProc :=
  MkFix (fx_initialized p)
        (fun s => if Signal_eqb s sig then d else disposition p s)
        (tls p) (sigaction_ok p) (fx_log p).

Definition set_fx_initialized (b : bool) (p : FixProc) : FixProc :=
  MkFix b (disposition p) (tls p) (sigaction_ok p) (fx_log p).

Definition fx_LogPrintf (m : FixLog) (p : FixProc) : FixProc :=
  MkFix (fx_initialized p) (disposition p) (tls p) (sigaction_ok p)
        (fx_log p ++ [m]).

(** [sigaction(sig, &act, nullptr) == 0] *)
Definition sigaction (sig : Signal) : St FixProc bool :=
  fun p => if sigaction_ok p sig
           then (true, set_disposition sig SA_MainLoopHandler p)
           else (false, p).

(** [signal(sig, SIG_DFL)] *)
Definition signal_dfl (sig : Signal) : St FixProc unit :=
  fun p => (tt, set_disposition sig SIG_DFL p).

(** How a run of the handler ends. *)
Inductive HandlerExit : Type :=
| Reraised (sig : Signal)        (* signal(sig, SIG_DFL); raise(sig); *)
| Resumed (env : option nat).    (* siglongjmp(exception_env, 1) *)

(** [MainLoopHandler], run on thread [tid]. *)
Definition MainLoopHandler (tid : Z) (sig : Signal) : St FixProc HandlerExit :=
  active <- ask (fun p => exception_frame_active (tls p tid)) ;;
  if negb active then
    signal_dfl sig ;;
    ret (Reraised sig)
  else
    (fun p => (tt, fx_LogPrintf (LogCaught sig) p)) ;;
    env <- ask (fun p => exception_env (tls p tid)) ;;
    ret (Resumed env).

(** [SetupMainLoopExceptionFrame], called on thread [tid]. *)
Definition SetupMainLoopExceptionFrame (h : Host) (tid : Z) : St FixProc unit :=
  initialized <- ask fx_initialized ;;
  if initialized then ret tt
  else if linux h then
    a <- sigaction SIGSEGV ;;
    b <- (if a then sigaction SIGILL else ret false) ;;
    if a && b then
      (fun p => (tt, fx_LogPrintf LogHandlersInstalled p)) ;;
      (fun p => (tt, set_fx_initialized true p))
    else
      (fun p => (tt, fx_LogPrintf LogInstallFailed p))
  else
    (fun p => (tt, fx_LogPrintf LogNotAvailable p)).

(** [RemoveMainLoopExceptionFrame] *)
Definition RemoveMainLoopExceptionFrame (h : Host) : St FixProc unit :=
  initialized <- ask fx_initialized ;;
  if negb initialized then ret tt
  else if linux h then
    signal_dfl SIGSEGV ;;
    signal_dfl SIGILL ;;
    (fun p => (tt, fx_LogPrintf LogHandlersRemoved p)) ;;
    (fun p => (tt, set_fx_initialized false p))
  else ret tt.

End RandomX_Fix.


(** ** cpu_features.cpp *)

Module CPUFeatures.

(** "Unknown CPU" and "Non-x86_64 CPU" as NUL-terminated bytes. *)
Definition str_Unknown_CPU : list Z :=
  [85; 110; 107; 110; 111; 119; 110; 32; 67; 80; 85; 0].
Definition str_Non_x86_64_CPU : list Z :=
  [78; 111; 110; 45; 120; 56; 54; 95; 54; 52; 32; 67; 80; 85; 0].

Inductive FeatLog : Type :=
| LogCpu (brand : list Z)                       (* "CPU: %s" *)
| LogFeatures (aes avx2 avx512f bmi2 : bool)    (* "CPU Features: ..." *)
| LogCpuNoDetection (brand : list Z).           (* "CPU: %s (feature detection not available)" *)

(** The statics of [CPUFeatures]; [m_brand] is the 64-byte buffer. *)
Record t : Type := Build
  { m_detected : bool;
    m_has_aes : bool;
    m_has_avx2 : bool;
    m_has_avx512f : bool;
    m_has_bmi2 : bool;
    m_brand : list Z;
    feat_log : list FeatLog }.

(** The static initialisers. *)
Definition initial : t :=
  Build false false false false false (repeat 0 64) [].

(** [memcpy(buf, bytes, length bytes)] and [strcpy(buf, bytes)]: the first
    bytes of the buffer are replaced. *)
Definition write_front (bytes buf : list Z) : list Z :=
  bytes ++ skipn (length bytes) buf.

(** [buf[i] = v] *)
Definition set_byte (i : nat) (v : Z) (buf : list Z) : list Z :=
  firstn i buf ++ v :: skipn (S i) buf.

(** The loop that advances [p] while it points to a space (byte 32):
    what [p] points to afterwards. *)
Fixpoint skip_spaces (l : list Z) : list Z :=
  match l with
  | [] => []
  | c :: l' => if c =? 32 then skip_spaces l' else l
  end.

(** [strlen(p)] *)
Definition strlen (p : list Z) : nat := length (c_str p).

(** The sixteen bytes the four registers of one leaf occupy in memory. *)
Definition leaf_bytes (r : CpuidRegs) : list Z :=
  le_bytes4 (r_eax r) ++ le_bytes4 (r_ebx r)
  ++ le_bytes4 (r_ecx r) ++ le_bytes4 (r_edx r).

(** The brand part of [Detect] on x86-64. *)
Definition detect_brand (h : Host) (brand : list Z) : list Z :=
  let max_ext_level := r_eax (cpuid h 0x80000000 0) in
  if 0x80000004 <=? max_ext_level then
    let brand := write_front (leaf_bytes (cpuid h 0x80000002 0)
                              ++ leaf_bytes (cpuid h 0x80000003 0)
                              ++ leaf_bytes (cpuid h 0x80000004 0)) brand in
    let brand := set_byte 63 0 brand in
    (* Trim leading spaces *)
    let p := skip_spaces brand in
    if negb (length p =? length brand)%nat
    then write_front (firstn (strlen p + 1) p) brand
    else brand
  else write_front str_Unknown_CPU brand.

(** [(x & (1 << n)) != 0] *)
Definition has_bit (x : Z) (n : Z) : bool :=
  negb (Z.land x (Z.shiftl 1 n) =? 0).

Definition Detect (h : Host) : St t unit :=
  fun s =>
    if m_detected s then (tt, s)
    else if x86_64 h then
      let brand := detect_brand h (m_brand s) in
      let aes := has_bit (r_ecx (cpuid h 1 0)) 25 in
      let ebx := r_ebx (cpuid h 7 0) in
      let avx2 := has_bit ebx 5 in
      let avx512f := has_bit ebx 16 in
      let bmi2 := has_bit ebx 8 in
      (tt, Build true aes avx2 avx512f bmi2 brand
                 (feat_log s ++ [LogCpu (c_str brand);
                                 LogFeatures aes avx2 avx512f bmi2]))
    else
      let brand := write_front str_Non_x86_64_CPU (m_brand s) in
      (tt, Build true (m_has_aes s) (m_has_avx2 s) (m_has_avx512f s)
                 (m_has_bmi2 s) brand
                 (feat_log s ++ [LogCpuNoDetection (c_str brand)])).

Definition ensure_detected (h : Host) : St t unit :=
  fun s => if negb (m_detected s) then Detect h s else (tt, s).

Definition HasAES (h : Host) : St t bool :=
  ensure_detected h ;; ask m_has_aes.

Definition HasAVX2 (h : Host) : St t bool :=
  ensure_detected h ;; ask m_has_avx2.

Definition HasAVX512F (h : Host) : St t bool :=
  ensure_detected h ;; ask m_has_avx512f.

Definition HasBMI2 (h : Host) : St t bool :=
  ensure_detected h ;; ask m_has_bmi2.

(** [GetBrand]: the buffer the returned pointer refers to. *)
Definition GetBrand (h : Host) : St t (list Z) :=
  ensure_detected h ;; ask m_brand.

End CPUFeatures.
(** * Specification-side definitions and concrete inputs *)

(** The fields of the feature leaf, by position. *)
Definition base_family (eax : Z) : Z := (eax / 2 ^ 8) mod 2 ^ 4.
Definition extended_family (eax : Z) : Z := (eax / 2 ^ 20) mod 2 ^ 8.
Definition base_model (eax : Z) : Z := (eax / 2 ^ 4) mod 2 ^ 4.
Definition extended_model (eax : Z) : Z := (eax / 2 ^ 16) mod 2 ^ 4.

(** The classification the specification gives for a family code and a
    model number. *)
Definition classify_family (family model : Z) : AMDFamily :=
  if family =? 0x17 then AMD_RYZEN_17H
  else if family =? 0x19 then
    if model <? 0x10 then AMD_RYZEN_19H
    else if model <=? 0x6F then AMD_RYZEN_ZEN4
    else AMD_RYZEN_ZEN5
  else AMD_UNKNOWN.

(** A host whose feature leaf reads [eax]. *)
Definition host_with_leaf1 (eax : Z) : Host :=
  MkHost true true (fun _ _ => MkCpuid eax 0 0 0) 1.


Definition is_some {A : Type} (o : option A) : bool :=
  match o with Some _ => true | None => false end.

(** Device calls that belong to a register write: opening a device node
    for writing, and the positioned write itself. *)
Definition is_write_event (e : Event) : bool :=
  match e with
  | EvOpen _ O_WRONLY | EvPwrite _ _ _ => true
  | _ => false
  end.

Definition writes_of (t : list Event) : list Event := filter is_write_event t.

(** [w'] comes from [w] without a register write: same answers of the
    operating system, same register contents, no write among the device
    calls added. *)
Definition no_write (w w' : World) : Prop :=
  device w' = device w /\ regs w' = regs w
  /\ writes_of (trace w') = writes_of (trace w).

(** [w'] differs from [w] in the log only. *)
Definition log_only (w w' : World) : Prop :=
  device w' = device w /\ regs w' = regs w /\ trace w' = trace w.

(** The logical CPU whose device node [msr_open] opens. *)
Definition opened_cpu (cpu : Z) : Z := if cpu <? 0 then 0 else cpu.

(** Does [rdmsr(reg, cpu, _)] succeed on this device. *)
Definition rdmsr_ok (h : Host) (d : Device) (reg cpu : Z) : bool :=
  linux h && open_ok d (opened_cpu cpu) O_RDONLY
  && pread_ok d (opened_cpu cpu) reg.

(** Does [wrmsr(reg, value, cpu)] succeed on this device. *)
Definition wrmsr_ok (h : Host) (d : Device) (reg value cpu : Z) : bool :=
  linux h && open_ok d (opened_cpu cpu) O_WRONLY
  && pwrite_ok d (opened_cpu cpu) reg value.

(** Is the accessor [Msr::get()] returns available. *)
Definition accessor_available (h : Host) (s : Statics) (d : Device) : bool :=
  match msr_instance s with
  | Some m => Msr.isAvailable m
  | None => linux h && (allow_writes_ok d || modprobe_ok d)
  end.

(** The backup item a successful read of [item]'s register gives. *)
Definition backup_item (rf : Z -> Z -> Z) (item : MsrItem.t) : MsrItem.t :=
  MsrItem.make (MsrItem.reg item) (rf 0 (MsrItem.reg item)).

(** Does the backup loop get a valid item for [item]. *)
Definition backup_ok (h : Host) (d : Device) (item : MsrItem.t) : bool :=
  rdmsr_ok h d (MsrItem.reg item) (-1) && (0 <? MsrItem.reg item).

(** The three states of the controller. *)
Definition Uninitialized (s : Statics) : Prop := m_initialized s = false.
Definition Disabled (s : Statics) : Prop :=
  m_initialized s = true /\ m_enabled s = false.
Definition Enabled (s : Statics) : Prop :=
  m_initialized s = true /\ m_enabled s = true.

(** A device on which every device call succeeds. *)
Definition all_reads_and_writes_succeed (d : Device) : Prop :=
  (forall c f, open_ok d c f = true)
  /\ (forall c r, pread_ok d c r = true)
  /\ (forall c r v, pwrite_ok d c r v = true).

Definition device_all_ok : Device :=
  MkDevice (fun _ _ => true) (fun _ _ => true) (fun _ _ _ => true) true true.

(** A Linux x86-64 host that identifies as "GenuineIntel". *)
Definition host_intel (ncpus : nat) : Host :=
  MkHost true true
         (fun leaf _ =>
            if leaf =? 0 then MkCpuid 0 0x756E6547 0x6C65746E 0x49656E69
            else MkCpuid 0 0 0 0)
         ncpus.

(** A fresh world over device [d] with register contents [rf]. *)
Definition fresh_world (d : Device) (rf : Z -> Z -> Z) : World :=
  MkWorld d rf [] [].

(** The part of [ApplyMsrPreset] that follows the backup loop: the runtime
    check for cache QoS and the broadcast of the preset. *)
Definition apply_broadcast (h : Host) (msr : Msr.t) (preset : MsrItems)
           (thread_affinities : list Z) (cache_qos : bool) : St Proc bool :=
  cache_qos <- (if cache_qos && negb (is_empty thread_affinities)
                   && negb (HasCatL3 h)
                then liftW (LogPrintf LogNoCatL3) ;; ret false
                else ret cache_qos) ;;
  liftW (Msr.write_each h
           (apply_callback h msr preset thread_affinities cache_qos
                           (is_empty thread_affinities))).

(** The statics [Init] sets before it detects the CPU. *)
Definition init_statics (qos : bool) (s : Statics) : Statics :=
  set_cache_qos qos (set_enabled false (set_initialized true s)).

(** The lines [Init] logs before and after [ApplyMsrPreset]. *)
Definition init_announce (md : MsrMod) (aff : list Z) (qos : bool) (w : World)
  : World :=
  let w1 := add_log (LogApplying md (length (preset_of md)) qos) w in
  if qos && is_empty aff then add_log LogQosNeedsAffinity w1 else w1.

Definition init_report (md : MsrMod) (aff : list Z) (qos applied : bool)
           (w : World) : World :=
  if applied then
    let w1 := add_log (LogApplied md) w in
    if qos && negb (is_empty aff)
    then add_log (LogQosEnabled (length aff)) w1 else w1
  else
    add_log LogRunModprobe (add_log LogNeedRoot (add_log LogApplyFailed w)).

(** The environment changes between two calls: the operating system now
    answers as [d]. *)
Definition set_device (d : Device) (w : World) : World :=
  MkWorld d (regs w) (trace w) (log w).

(** The device calls made between [w] and [w']. *)
Definition events_since (w w' : World) : list Event :=
  skipn (length (trace w)) (trace w').

(** The callback [Destroy] hands to [Msr::write]. *)
Definition restore_callback (h : Host) (msr : Msr.t) (backup : MsrItems)
           (cpu : Z) : St World bool :=
  all_st (fun item => Msr.write_item h msr item cpu false) backup.

(** The statics [Destroy] leaves behind. *)
Definition destroyed_statics (s : Statics) : Statics :=
  set_enabled false (set_initialized false (set_original_msrs [] s)).

(** A device on which every positioned read fails. *)
Definition device_reads_fail : Device :=
  MkDevice (fun _ _ => true) (fun _ _ => false) (fun _ _ _ => true) true true.

(** A device on which only logical CPU 0 can be written. *)
Definition device_cpu0_only : Device :=
  MkDevice (fun _ _ => true) (fun _ _ => true) (fun c _ _ => c =? 0) true true.

(** A device whose logical CPU 0 accepts no value but 0xf. *)
Definition device_cpu0_rejects : Device :=
  MkDevice (fun _ _ => true) (fun _ _ => true)
           (fun c _ v => negb (c =? 0) || (v =? 0xf)) true true.

(** Register contents: zero everywhere. *)
Definition regs_zero : Z -> Z -> Z := fun _ _ => 0.

(** Register contents: logical CPU 1 holds 7, every other CPU 0. *)
Definition regs_cpu1_differs : Z -> Z -> Z :=
  fun c _ => if c =? 1 then 7 else 0.

(** The reading of claim C4: after an [Init] that failed on a backup read,
    a later [Init], made when every device call succeeds, returns true. *)
Definition retry_recovers (h : Host) (aff : list Z) (qos : bool)
           (st : Statics) (w : World) (d' : Device) : Prop :=
  let p1 := snd (RandomX_Msr.Init h aff qos (st, w)) in
  fst (RandomX_Msr.Init h aff qos (fst p1, set_device d' (snd p1))) = true.

(** The reading of claim C3: [Destroy] makes no device call that belongs
    to a register write. *)
Definition destroy_writes_nothing (h : Host) (p : Proc) : Prop :=
  writes_of (events_since (snd p) (snd (snd (RandomX_Msr.Destroy h p)))) = [].

(** The order in which [Destroy] attempts its restore writes: logical CPUs
    in ascending order, and for each the backup items in order. *)
Definition restore_schedule (h : Host) (backup : MsrItems) : list (Z * MsrItem.t) :=
  flat_map (fun cpu => map (pair cpu) backup) (GetCPUList h).

(** One restore write. *)
Definition restore_step (h : Host) (msr : Msr.t) (ci : Z * MsrItem.t)
  : St World bool :=
  Msr.write_item h msr (snd ci) (fst ci) false.

(** The reading of claim C2: during [Destroy] a restore write is attempted
    (the device node opened for writing) on every logical CPU. *)
Definition restore_is_best_effort (h : Host) (p : Proc) : Prop :=
  forall cpu item,
    In cpu (GetCPUList h) -> In item (original_msrs (fst p)) ->
    In (EvOpen cpu O_WRONLY)
       (events_since (snd p) (snd (snd (RandomX_Msr.Destroy h p)))).

(** A device on which neither access-enablement path succeeds while the
    device nodes can be opened, read and written. *)
Definition device_no_enablement : Device :=
  MkDevice (fun _ _ => true) (fun _ _ => true) (fun _ _ _ => true) false false.

(** Register contents: 5 everywhere. *)
Definition regs_five : Z -> Z -> Z := fun _ _ => 5.

(** The world [Init] followed by [Destroy] leaves behind. *)
Definition after_round_trip (h : Host) (aff : list Z) (qos : bool)
           (st : Statics) (w : World) : World :=
  snd (snd (RandomX_Msr.Destroy h (snd (RandomX_Msr.Init h aff qos (st, w))))).

(** The reading of claim C7: after [Init] and [Destroy] every register the
    preset touches, on every logical CPU, holds its value from before. *)
Definition round_trip_exact (h : Host) (aff : list Z) (qos : bool)
           (w : World) : Prop :=
  forall cpu item,
    In cpu (GetCPUList h) -> In item (preset_of (detected_mod h)) ->
    regs (after_round_trip h aff qos initial_statics w) cpu (MsrItem.reg item)
    = regs w cpu (MsrItem.reg item).

(** Every item of [backup] is unmasked and holds [f] of its register. *)
Definition backup_holds (f : Z -> Z) (backup : MsrItems) : Prop :=
  forall it, In it backup ->
             MsrItem.mask it = MsrItem.kNoMask
             /\ MsrItem.value it = f (MsrItem.reg it).

(** What holds of the statics between calls: an uninitialized controller
    has no backup. *)
Definition backup_invariant (s : Statics) : Prop :=
  m_initialized s = false -> original_msrs s = [].

(** * Further definitions for the remaining code *)

(** A host that is not built for x86-64. *)
Definition host_other_arch (ncpus : nat) : Host :=
  MkHost false true (fun _ _ => MkCpuid 0 0 0 0) ncpus.

(** The value a write of [it] leaves in a register that held [old]. *)
Definition written_value (old : Z) (it : MsrItem.t) : Z :=
  if MsrItem.mask it =? MsrItem.kNoMask then MsrItem.value it
  else MsrItem.maskedValue old (MsrItem.value it) (MsrItem.mask it).

(** The registers of one logical CPU, with register [r] set to [v]. *)
Definition upd (row : Z -> Z) (r v : Z) : Z -> Z :=
  fun r' => if r' =? r then v else row r'.

(** The registers of one logical CPU after the items of a preset were
    written to it in order, every write succeeding. *)
Definition apply_items_row (preset : MsrItems) (row : Z -> Z) : Z -> Z :=
  fold_left (fun row it =>
               upd row (MsrItem.reg it) (written_value (row (MsrItem.reg it)) it))
            preset row.

(** The registers of one logical CPU after the cache QoS writes: class of
    service 0 for a mining CPU; for any other CPU an empty capacity mask
    and class of service 1. *)
Definition qos_row (mining : bool) (row : Z -> Z) : Z -> Z :=
  if mining then upd row 0xC8F 0
  else upd (upd row 0xC91 0) 0xC8F one_shl_32.

(** Is cache QoS applied: requested, with a non-empty affinity list, on a
    CPU that reports L3 cache allocation. *)
Definition qos_active (h : Host) (aff : list Z) (qos : bool) : bool :=
  qos && negb (is_empty aff) && HasCatL3 h.

(** The registers of logical CPU [cpu] after its callback ran without a
    failure. *)
Definition tuned_row (preset : MsrItems) (aff : list Z) (active : bool)
           (cpu : Z) (row : Z -> Z) : Z -> Z :=
  let row1 := apply_items_row preset row in
  if active then qos_row (existsb (Z.eqb cpu) aff) row1 else row1.

(** No two items of the list name the same register. *)
Fixpoint regs_distinct (l : MsrItems) : bool :=
  match l with
  | [] => true
  | it :: l' =>
      negb (existsb (fun it' => MsrItem.reg it' =? MsrItem.reg it) l')
      && regs_distinct l'
  end.

(** Does some item of the list name register [r]. *)
Definition names_reg (l : MsrItems) (r : Z) : bool :=
  existsb (fun it => MsrItem.reg it =? r) l.

(** A device that rejects an all-zero capacity mask in register 0xC91. *)
Definition device_rejects_zero_mask : Device :=
  MkDevice (fun _ _ => true) (fun _ _ => true)
           (fun _ r v => negb ((r =? 0xC91) && (v =? 0))) true true.

(** The 32-bit value whose little-endian bytes are [a], [b], [c], [d]. *)
Definition of_le_bytes4 (a b c d : Z) : Z :=
  a + 2 ^ 8 * b + 2 ^ 16 * c + 2 ^ 24 * d.

(** A Linux x86-64 host that identifies as "AuthenticAMD" with feature
    leaf [eax]. *)
Definition host_amd (eax : Z) (ncpus : nat) : Host :=
  MkHost true true
         (fun leaf _ =>
            if leaf =? 0 then MkCpuid 0 0x68747541 0x444D4163 0x69746E65
            else MkCpuid eax 0 0 0)
         ncpus.

(** The 48 bytes of the processor brand string as the three brand leaves
    deliver them. *)
Definition raw_brand (h : Host) : list Z :=
  CPUFeatures.leaf_bytes (cpuid h 0x80000002 0)
  ++ CPUFeatures.leaf_bytes (cpuid h 0x80000003 0)
  ++ CPUFeatures.leaf_bytes (cpuid h 0x80000004 0).

(** A host whose brand leaves read ["  Ab"] followed by NULs, with AES-NI
    and AVX2 reported. *)
Definition host_with_brand : Host :=
  MkHost true true
         (fun leaf _ =>
            if leaf =? 0x80000000 then MkCpuid 0x80000004 0 0 0
            else if leaf =? 0x80000002 then MkCpuid 0x62412020 0 0 0
            else if leaf =? 1 then MkCpuid 0 0 (2 ^ 25) 0
            else if leaf =? 7 then MkCpuid 0 (2 ^ 5) 0 0
            else MkCpuid 0 0 0 0)
         1.
(** * Properties *)

(** ** Masked merge *)

Lemma not64_bits (x i : Z) :
  0 <= i -> Z.testbit (not64 x) i = (i <? 64) && negb (Z.testbit x i).
Proof.
  intros Hi. unfold not64, u64_mod.
  destruct (Z.ltb_spec i 64) as [Hlt | Hge]; cbn [andb].
  - rewrite Z.mod_pow2_bits_low by lia. now rewrite Z.lnot_spec.
  - now rewrite Z.mod_pow2_bits_high by lia.
Qed.

Lemma not64_u64 (x : Z) : is_u64 x -> not64 x = u64_mod - 1 - x.
Proof.
  unfold is_u64, not64, Z.lnot. intros Hx.
  replace (Z.pred (- x)) with (u64_mod - 1 - x + (-1) * u64_mod) by lia.
  rewrite Z.mod_add by (unfold u64_mod; lia).
  apply Z.mod_small. lia.
Qed.

Lemma u64_high_bits (x i : Z) : is_u64 x -> 64 <= i -> Z.testbit x i = false.
Proof.
  intros [Hlo Hhi] Hi.
  destruct (Z.eq_dec x 0) as [-> | Hnz]; [apply Z.bits_0 |].
  apply Z.bits_above_log2; [lia |].
  apply Z.log2_lt_pow2; [lia |].
  apply Z.lt_le_trans with (2 ^ 64); [exact Hhi |].
  apply Z.pow_le_mono_r; lia.
Qed.

Lemma maskedValue_bits (old new mask i : Z) :
  is_u64 old -> 0 <= i ->
  Z.testbit (MsrItem.maskedValue old new mask) i
  = if Z.testbit mask i then Z.testbit new i else Z.testbit old i.
Proof.
  intros Hold Hi. unfold MsrItem.maskedValue.
  rewrite Z.lor_spec, !Z.land_spec, not64_bits by exact Hi.
  destruct (Z.ltb_spec i 64) as [Hlt | Hge].
  - destruct (Z.testbit mask i), (Z.testbit new i), (Z.testbit old i); reflexivity.
  - rewrite (u64_high_bits old i Hold Hge).
    destruct (Z.testbit mask i), (Z.testbit new i); reflexivity.
Qed.

Lemma maskedValue_noMask (old new : Z) :
  is_u64 new -> MsrItem.maskedValue old new MsrItem.kNoMask = new.
Proof.
  intros Hnew. unfold MsrItem.maskedValue.
  assert (Hn : not64 MsrItem.kNoMask = 0) by reflexivity.
  rewrite Hn, Z.land_0_r, Z.lor_0_r.
  change MsrItem.kNoMask with (Z.ones 64).
  rewrite Z.land_ones by lia. apply Z.mod_small. exact Hnew.
Qed.

(** C9: on 64-bit values, [maskedValue old new mask] is
    [(new & mask) | (old & ~mask)], where [~mask] is the 64-bit complement
    [2^64 - 1 - mask]: every bit of the result is the bit of [new] where the
    mask is set and the bit of [old] where it is clear, the result is again a
    64-bit value, and with the all-ones mask the result is [new]. *)
Theorem maskedValue_is_masked_merge (old new mask : Z) :
  is_u64 old -> is_u64 new -> is_u64 mask ->
  MsrItem.maskedValue old new mask
    = Z.lor (Z.land new mask) (Z.land old (u64_mod - 1 - mask))
  /\ (forall i, 0 <= i ->
        Z.testbit (MsrItem.maskedValue old new mask) i
        = if Z.testbit mask i then Z.testbit new i else Z.testbit old i)
  /\ is_u64 (MsrItem.maskedValue old new mask)
  /\ MsrItem.maskedValue old new (u64_mod - 1) = new.
Proof.
  intros Hold Hnew Hmask. repeat split.
  - unfold MsrItem.maskedValue. now rewrite not64_u64.
  - intros i Hi. now apply maskedValue_bits.
  - unfold MsrItem.maskedValue.
    apply Z.lor_nonneg. split; apply Z.land_nonneg; left; apply Hnew || apply Hold.
  - assert (Hb : forall i, 64 <= i ->
                Z.testbit (MsrItem.maskedValue old new mask) i = false).
    { intros i Hi. rewrite maskedValue_bits by (assumption || lia).
      rewrite (u64_high_bits new i), (u64_high_bits old i) by assumption.
      now destruct (Z.testbit mask i). }
    set (v := MsrItem.maskedValue old new mask) in *.
    assert (Hv : 0 <= v).
    { unfold v, MsrItem.maskedValue.
      apply Z.lor_nonneg. split; apply Z.land_nonneg; left; apply Hnew || apply Hold. }
    destruct (Z.eq_dec v 0) as [-> | Hnz]; [reflexivity |].
    unfold u64_mod. apply Z.log2_lt_pow2; [lia |].
    destruct (Z.lt_ge_cases (Z.log2 v) 64) as [Hl | Hl]; [exact Hl |].
    specialize (Hb (Z.log2 v) Hl).
    rewrite Z.bit_log2 in Hb by lia. discriminate.
  - now apply maskedValue_noMask.
Qed.

Lemma maskedValue_is_masked_merge_witness :
  MsrItem.maskedValue 0xF0 0x0F 0x3C = 0xCC
  /\ MsrItem.maskedValue 0xF0 0x0F (u64_mod - 1) = 0x0F.
Proof.
  assert (H0 : is_u64 0xF0) by (unfold is_u64, u64_mod; lia).
  assert (H1 : is_u64 0x0F) by (unfold is_u64, u64_mod; lia).
  assert (H2 : is_u64 0x3C) by (unfold is_u64, u64_mod; lia).
  destruct (maskedValue_is_masked_merge 0xF0 0x0F 0x3C H0 H1 H2)
    as [Heq [_ [_ Hall]]].
  split; [rewrite Heq; reflexivity | exact Hall].
Defined.

(** ** AMD family classification *)

Lemma land_shiftr_ones (x s n : Z) :
  0 <= s -> 0 <= n -> Z.land (Z.shiftr x s) (Z.ones n) = (x / 2 ^ s) mod 2 ^ n.
Proof.
  intros Hs Hn. rewrite Z.land_ones by exact Hn.
  now rewrite Z.shiftr_div_pow2 by exact Hs.
Qed.

Lemma amd_family_code_fields (eax : Z) :
  amd_family_code eax = base_family eax + extended_family eax.
Proof.
  unfold amd_family_code, add32, base_family, extended_family.
  change 0xF with (Z.ones 4). change 0xFF with (Z.ones 8).
  rewrite !land_shiftr_ones by lia.
  apply Z.mod_small.
  pose proof (Z.mod_pos_bound (eax / 2 ^ 8) (2 ^ 4) ltac:(lia)).
  pose proof (Z.mod_pos_bound (eax / 2 ^ 20) (2 ^ 8) ltac:(lia)).
  unfold u32_mod. lia.
Qed.

Lemma extended_model_shifted (eax : Z) :
  Z.land (Z.shiftr eax 12) 0xF0
  = Z.shiftl (Z.land (Z.shiftr eax 16) (Z.ones 4)) 4.
Proof.
  apply Z.bits_inj'. intros n Hn.
  rewrite Z.land_spec, Z.shiftl_spec, Z.land_spec by exact Hn.
  change 0xF0 with (Z.shiftl (Z.ones 4) 4).
  rewrite Z.shiftl_spec by exact Hn.
  destruct (Z.ltb_spec n 4) as [Hlt | Hge].
  - rewrite (Z.testbit_neg_r (Z.ones 4)) by lia.
    now rewrite !andb_false_r.
  - rewrite !Z.shiftr_spec by lia.
    replace (n - 4 + 16) with (n + 12) by lia. reflexivity.
Qed.

Lemma amd_model_code_fields (eax : Z) :
  amd_model_code eax = extended_model eax * 16 + base_model eax.
Proof.
  unfold amd_model_code. rewrite extended_model_shifted.
  change 0xF with (Z.ones 4).
  set (a := Z.land (Z.shiftr eax 4) (Z.ones 4)).
  set (b := Z.land (Z.shiftr eax 16) (Z.ones 4)).
  assert (Hdisj : Z.land a (Z.shiftl b 4) = 0).
  { apply Z.bits_inj'. intros n Hn.
    rewrite Z.land_spec, Z.bits_0. unfold a.
    rewrite Z.land_spec, Z.testbit_ones_nonneg by lia.
    destruct (Z.ltb_spec n 4) as [Hlt | Hge].
    - rewrite Z.shiftl_spec_low by lia. now rewrite andb_false_r.
    - now rewrite andb_false_r. }
  rewrite <- (Z.lxor_lor _ _ Hdisj), <- (Z.add_nocarry_lxor _ _ Hdisj).
  unfold a, b. rewrite !land_shiftr_ones by lia.
  rewrite Z.shiftl_mul_pow2 by lia.
  unfold extended_model, base_model. lia.
Qed.

Lemma DetectAMDFamily_classify (h : Host) :
  x86_64 h = true ->
  DetectAMDFamily h
  = classify_family (amd_family_code (r_eax (cpuid h 1 0)))
                    (amd_model_code (r_eax (cpuid h 1 0))).
Proof.
  intros Hx. unfold DetectAMDFamily, classify_family. rewrite Hx.
  set (f := amd_family_code _). set (m := amd_model_code _).
  destruct (f =? 23); [reflexivity |].
  destruct (f =? 25); [| reflexivity].
  destruct (Z.leb_spec 16 m), (Z.ltb_spec m 112), (Z.ltb_spec m 16),
    (Z.leb_spec m 111), (Z.leb_spec 112 m); cbn; try reflexivity; lia.
Qed.

(** C8: on an x86-64 build, for every value [eax] of the feature leaf, the
    family code is the base family (bits 11..8) plus the extended family
    (bits 27..20), the model number is the extended model (bits 19..16) in
    the high nibble over the base model (bits 7..4), and [DetectAMDFamily]
    returns Zen1/Zen2 for family 0x17, and for family 0x19 Zen3 when the
    model is below 0x10, Zen4 from 0x10 to 0x6F and Zen5 from 0x70 on;
    every other family is unknown. *)
Theorem DetectAMDFamily_spec (h : Host) :
  x86_64 h = true ->
  let eax := r_eax (cpuid h 1 0) in
  let family := base_family eax + extended_family eax in
  let model := extended_model eax * 16 + base_model eax in
  amd_family_code eax = family
  /\ amd_model_code eax = model
  /\ DetectAMDFamily h = classify_family family model
  /\ (family = 0x17 -> DetectAMDFamily h = AMD_RYZEN_17H)
  /\ (family = 0x19 -> model < 0x10 -> DetectAMDFamily h = AMD_RYZEN_19H)
  /\ (family = 0x19 -> 0x10 <= model <= 0x6F ->
      DetectAMDFamily h = AMD_RYZEN_ZEN4)
  /\ (family = 0x19 -> 0x70 <= model -> DetectAMDFamily h = AMD_RYZEN_ZEN5)
  /\ (family <> 0x17 -> family <> 0x19 -> DetectAMDFamily h = AMD_UNKNOWN).
Proof.
  intros Hx eax family model.
  assert (Hf : amd_family_code eax = family) by apply amd_family_code_fields.
  assert (Hm : amd_model_code eax = model) by apply amd_model_code_fields.
  assert (Hc : DetectAMDFamily h = classify_family family model).
  { rewrite DetectAMDFamily_classify by exact Hx. fold eax. now rewrite Hf, Hm. }
  repeat split; try assumption; rewrite Hc; unfold classify_family.
  - intros ->. reflexivity.
  - intros -> Hlt. cbn.
    destruct (Z.ltb_spec model 16); [reflexivity | lia].
  - intros -> [Hlo Hhi]. cbn.
    destruct (Z.ltb_spec model 16); [lia |].
    destruct (Z.leb_spec model 111); [reflexivity | lia].
  - intros -> Hge. cbn.
    destruct (Z.ltb_spec model 16); [lia |].
    destruct (Z.leb_spec model 111); [lia | reflexivity].
  - intros H17 H19.
    destruct (Z.eqb_spec family 23); [contradiction |].
    destruct (Z.eqb_spec family 25); [contradiction | reflexivity].
Qed.

(** The boundaries between Zen3, Zen4 and Zen5: family 0x19 with models
    0x0F, 0x10, 0x6F and 0x70. *)
Lemma DetectAMDFamily_spec_witness :
  DetectAMDFamily (host_with_leaf1 0x00A00FF0) = AMD_RYZEN_19H
  /\ DetectAMDFamily (host_with_leaf1 0x00A10F00) = AMD_RYZEN_ZEN4
  /\ DetectAMDFamily (host_with_leaf1 0x00A60FF0) = AMD_RYZEN_ZEN4
  /\ DetectAMDFamily (host_with_leaf1 0x00A70F00) = AMD_RYZEN_ZEN5.
Proof.
  split; [| split; [| split]].
  - destruct (DetectAMDFamily_spec (host_with_leaf1 0x00A00FF0) eq_refl)
      as (_ & _ & _ & _ & Hzen3 & _).
    apply Hzen3; vm_compute; reflexivity.
  - destruct (DetectAMDFamily_spec (host_with_leaf1 0x00A10F00) eq_refl)
      as (_ & _ & _ & _ & _ & Hzen4 & _).
    apply Hzen4; vm_compute; [reflexivity | split; discriminate].
  - destruct (DetectAMDFamily_spec (host_with_leaf1 0x00A60FF0) eq_refl)
      as (_ & _ & _ & _ & _ & Hzen4 & _).
    apply Hzen4; vm_compute; [reflexivity | split; discriminate].
  - destruct (DetectAMDFamily_spec (host_with_leaf1 0x00A70F00) eq_refl)
      as (_ & _ & _ & _ & _ & _ & Hzen5 & _).
    apply Hzen5; vm_compute; [reflexivity | discriminate].
Defined.


(** ** Running the state monad *)

Ltac run_st :=
  unfold when;
  unfold bind, ret, ask, emit, LogPrintf, store, liftW, modify;
  cbn [fst snd].

Lemma no_write_refl (w : World) : no_write w w.
Proof. repeat split. Qed.

Lemma no_write_trans (w1 w2 w3 : World) :
  no_write w1 w2 -> no_write w2 w3 -> no_write w1 w3.
Proof.
  intros (Hd1 & Hr1 & Ht1) (Hd2 & Hr2 & Ht2).
  repeat split; congruence.
Qed.

Lemma log_only_refl (w : World) : log_only w w.
Proof. repeat split. Qed.

Lemma log_only_trans (w1 w2 w3 : World) :
  log_only w1 w2 -> log_only w2 w3 -> log_only w1 w3.
Proof.
  intros (Hd1 & Hr1 & Ht1) (Hd2 & Hr2 & Ht2).
  repeat split; congruence.
Qed.

Lemma log_only_add_log (m : LogMsg) (w : World) : log_only w (add_log m w).
Proof. repeat split. Qed.

Lemma log_only_no_write (w w' : World) : log_only w w' -> no_write w w'.
Proof. intros (Hd & Hr & Ht). repeat split; congruence. Qed.

Lemma no_write_add_event (e : Event) (w : World) :
  is_write_event e = false -> no_write w (add_event e w).
Proof.
  intros He. repeat split. cbn. unfold writes_of.
  rewrite filter_app. cbn. rewrite He. apply app_nil_r.
Qed.

Create HintDb world.

#[local] Hint Resolve no_write_refl log_only_refl log_only_add_log
  log_only_no_write : world.

(** ** The register accessor *)

Lemma GetCPUList_head (h : Host) :
  match GetCPUList h with [] => 0 | c :: _ => c end = 0.
Proof.
  unfold GetCPUList. destruct (GetNumCPUs h); reflexivity.
Qed.

Lemma msr_open_linux (h : Host) (cpu : Z) (fl : OpenFlag) (w : World) :
  linux h = true ->
  Msr.msr_open h cpu fl w
  = (if open_ok (device w) (opened_cpu cpu) fl
     then Some (opened_cpu cpu) else None,
     add_event (EvOpen (opened_cpu cpu) fl) w).
Proof.
  intros Hl. unfold Msr.msr_open, opened_cpu. rewrite Hl, GetCPUList_head.
  reflexivity.
Qed.

Lemma rdmsr_result (h : Host) (reg cpu : Z) (w : World) :
  fst (Msr.rdmsr h reg cpu w)
  = if rdmsr_ok h (device w) reg cpu
    then Some (regs w (opened_cpu cpu) reg) else None.
Proof.
  unfold Msr.rdmsr, rdmsr_ok.
  destruct (linux h) eqn:Hl; [| reflexivity].
  unfold bind. rewrite msr_open_linux by exact Hl. cbn [fst snd andb].
  destruct (open_ok (device w) (opened_cpu cpu) O_RDONLY); [| reflexivity].
  unfold Msr.pread. run_st. cbn.
  destruct (pread_ok (device w) (opened_cpu cpu) reg); reflexivity.
Qed.

Lemma rdmsr_no_write (h : Host) (reg cpu : Z) (w : World) :
  no_write w (snd (Msr.rdmsr h reg cpu w)).
Proof.
  unfold Msr.rdmsr.
  destruct (linux h) eqn:Hl; [| apply no_write_refl].
  unfold bind. rewrite msr_open_linux by exact Hl. cbn [fst snd].
  destruct (open_ok (device w) (opened_cpu cpu) O_RDONLY).
  - unfold Msr.pread. run_st.
    apply no_write_trans with (add_event (EvOpen (opened_cpu cpu) O_RDONLY) w).
    + now apply no_write_add_event.
    + destruct (pread_ok _ _ _); cbn [snd]; now apply no_write_add_event.
  - cbn [snd]. now apply no_write_add_event.
Qed.

Lemma Msr_read_item (h : Host) (m : Msr.t) (reg cpu : Z) (verbose : bool)
      (w : World) :
  fst (Msr.read h m reg cpu verbose w)
  = match fst (Msr.rdmsr h reg cpu w) with
    | Some v => MsrItem.make reg v
    | None => MsrItem.empty
    end.
Proof.
  unfold Msr.read, bind.
  destruct (fst (Msr.rdmsr h reg cpu w)); reflexivity.
Qed.

Lemma Msr_read_no_write (h : Host) (m : Msr.t) (reg cpu : Z) (verbose : bool)
      (w : World) :
  no_write w (snd (Msr.read h m reg cpu verbose w)).
Proof.
  unfold Msr.read, bind.
  pose proof (rdmsr_no_write h reg cpu w) as Hnw.
  destruct (fst (Msr.rdmsr h reg cpu w)); [| exact Hnw].
  destruct verbose; run_st; [| exact Hnw].
  eapply no_write_trans; [exact Hnw |]. auto with world.
Qed.

Lemma Msr_read_valid (h : Host) (m : Msr.t) (reg cpu : Z) (verbose : bool)
      (w : World) :
  MsrItem.isValid (fst (Msr.read h m reg cpu verbose w))
  = is_some (fst (Msr.rdmsr h reg cpu w)) && (0 <? reg).
Proof.
  rewrite Msr_read_item.
  destruct (fst (Msr.rdmsr h reg cpu w)); reflexivity.
Qed.

Lemma Msr_new_available (h : Host) (w : World) :
  Msr.isAvailable (fst (Msr.new h w))
  = linux h && (allow_writes_ok (device w) || modprobe_ok (device w)).
Proof.
  unfold Msr.new, Msr.MsrPrivate_new, Msr.msr_allow_writes, Msr.msr_modprobe.
  destruct (linux h); [| reflexivity]. run_st. cbn.
  destruct (allow_writes_ok (device w)); reflexivity.
Qed.

Ltac peel_no_write :=
  repeat match goal with
    | |- no_write ?w ?w => apply no_write_refl
    | |- no_write _ (add_log _ ?x) =>
        apply no_write_trans with x;
        [| apply log_only_no_write, log_only_add_log]
    | |- no_write _ (add_event _ ?x) =>
        apply no_write_trans with x;
        [| apply no_write_add_event; reflexivity]
    end.

Lemma Msr_new_no_write (h : Host) (w : World) :
  no_write w (snd (Msr.new h w)).
Proof.
  destruct w as [[o pr pw aw mp] rf tr lg].
  unfold Msr.new, Msr.MsrPrivate_new, Msr.msr_allow_writes, Msr.msr_modprobe.
  destruct (linux h), aw, mp; cbn; peel_no_write.
Qed.

Lemma Msr_get_available (h : Host) (p : Proc) :
  Msr.isAvailable (fst (Msr_get h p))
  = accessor_available h (fst p) (device (snd p)).
Proof.
  unfold Msr_get, accessor_available. run_st.
  destruct (msr_instance (fst p)); [reflexivity |].
  cbn [fst]. apply Msr_new_available.
Qed.

Lemma Msr_get_statics (h : Host) (p : Proc) :
  fst (snd (Msr_get h p))
  = set_msr_instance (Some (fst (Msr_get h p))) (fst p).
Proof.
  unfold Msr_get. run_st.
  destruct (msr_instance (fst p)) eqn:Hi; cbn [fst snd]; [| reflexivity].
  destruct (fst p); cbn in *. now subst.
Qed.

Lemma Msr_get_no_write (h : Host) (p : Proc) :
  no_write (snd p) (snd (snd (Msr_get h p))).
Proof.
  unfold Msr_get. run_st.
  destruct (msr_instance (fst p)); cbn [fst snd]; [apply no_write_refl |].
  apply Msr_new_no_write.
Qed.

(** ** The backup loop *)

Lemma backup_loop_cons (h : Host) (msr : Msr.t) (item : MsrItem.t)
      (rest : MsrItems) (p : Proc) :
  backup_loop h msr (item :: rest) p
  = let r := Msr.read h msr (MsrItem.reg item) (-1) true (snd p) in
    if MsrItem.isValid (fst r)
    then backup_loop h msr rest
           (set_original_msrs (original_msrs (fst p) ++ [fst r]) (fst p), snd r)
    else (false, (set_original_msrs [] (fst p),
                  add_log (LogBackupReadFailed (MsrItem.reg item)) (snd r))).
Proof.
  cbn [backup_loop]. run_st. cbv zeta.
  destruct (MsrItem.isValid (fst (Msr.read h msr (MsrItem.reg item) (-1) true (snd p))));
    reflexivity.
Qed.

Lemma backup_read_valid (h : Host) (msr : Msr.t) (item : MsrItem.t) (w : World) :
  MsrItem.isValid (fst (Msr.read h msr (MsrItem.reg item) (-1) true w))
  = backup_ok h (device w) item.
Proof.
  rewrite Msr_read_valid, rdmsr_result. unfold backup_ok.
  destruct (rdmsr_ok h (device w) (MsrItem.reg item) (-1)); reflexivity.
Qed.

Lemma backup_read_item (h : Host) (msr : Msr.t) (item : MsrItem.t) (w : World) :
  backup_ok h (device w) item = true ->
  fst (Msr.read h msr (MsrItem.reg item) (-1) true w) = backup_item (regs w) item.
Proof.
  unfold backup_ok. intros Hok. apply andb_prop in Hok as [Hrd _].
  rewrite Msr_read_item, rdmsr_result, Hrd. reflexivity.
Qed.

Lemma set_original_msrs_twice (a b : MsrItems) (s : Statics) :
  set_original_msrs a (set_original_msrs b s) = set_original_msrs a s.
Proof. reflexivity. Qed.

Lemma set_original_msrs_same (s : Statics) :
  set_original_msrs (original_msrs s) s = s.
Proof. now destruct s. Qed.

Lemma backup_loop_spec (h : Host) (msr : Msr.t) (preset : MsrItems) :
  forall p : Proc,
    let ok := forallb (backup_ok h (device (snd p))) preset in
    let r := backup_loop h msr preset p in
    fst r = ok
    /\ fst (snd r)
       = set_original_msrs
           (if ok
            then original_msrs (fst p) ++ map (backup_item (regs (snd p))) preset
            else [])
           (fst p)
    /\ no_write (snd p) (snd (snd r)).
Proof.
  induction preset as [| item rest IH]; intros p; cbv zeta.
  - cbn. rewrite app_nil_r, set_original_msrs_same. auto with world.
  - rewrite backup_loop_cons. cbv zeta.
    pose proof (Msr_read_no_write h msr (MsrItem.reg item) (-1) true (snd p))
      as Hnw.
    rewrite backup_read_valid. cbn [forallb].
    destruct (backup_ok h (device (snd p)) item) eqn:Hok; cbn [andb fst snd].
    + rewrite (backup_read_item h msr item (snd p) Hok).
      set (p1 := (set_original_msrs _ (fst p), _)).
      specialize (IH p1). cbv zeta in IH.
      destruct IH as (Hr & Hs & Hw).
      assert (Hd : device (snd p1) = device (snd p)) by apply Hnw.
      assert (Hg : regs (snd p1) = regs (snd p)) by apply Hnw.
      rewrite Hd, Hg in *.
      split; [exact Hr |]. split.
      * rewrite Hs. unfold p1. cbn [fst map].
        rewrite set_original_msrs_twice.
        destruct (forallb _ rest); [| reflexivity].
        cbn [original_msrs set_original_msrs]. now rewrite <- app_assoc.
      * eapply no_write_trans; [exact Hnw | exact Hw].
    + repeat split; apply Hnw.
Qed.

(** ** [ApplyMsrPreset] *)

Lemma ApplyMsrPreset_eq (h : Host) (preset : MsrItems) (aff : list Z)
      (qos : bool) (p : Proc) :
  ApplyMsrPreset h preset aff qos p
  = let g := Msr_get h p in
    if negb (Msr.isAvailable (fst g)) then (false, snd g)
    else
      let b := backup_loop h (fst g) preset
                 (set_original_msrs [] (fst (snd g)), snd (snd g)) in
      if negb (fst b) then (false, snd b)
      else apply_broadcast h (fst g) preset aff qos (snd b).
Proof.
  unfold ApplyMsrPreset, apply_broadcast. unfold bind at 1. cbv zeta.
  destruct (negb (Msr.isAvailable (fst (Msr_get h p)))); [reflexivity |].
  unfold bind at 1. unfold bind at 1. unfold modify at 1. cbv zeta.
  cbn [fst snd].
  destruct (negb (fst (backup_loop h _ preset _))); reflexivity.
Qed.

Lemma ApplyMsrPreset_unavailable (h : Host) (preset : MsrItems) (aff : list Z)
      (qos : bool) (p : Proc) :
  accessor_available h (fst p) (device (snd p)) = false ->
  ApplyMsrPreset h preset aff qos p = (false, snd (Msr_get h p)).
Proof.
  intros Hav. rewrite ApplyMsrPreset_eq. cbv zeta.
  now rewrite Msr_get_available, Hav.
Qed.

Lemma ApplyMsrPreset_backup (h : Host) (preset : MsrItems) (aff : list Z)
      (qos : bool) (p : Proc) :
  accessor_available h (fst p) (device (snd p)) = true ->
  let msr := fst (Msr_get h p) in
  let ok := forallb (backup_ok h (device (snd p))) preset in
  exists pb : Proc,
    fst pb = set_original_msrs
               (if ok then map (backup_item (regs (snd p))) preset else [])
               (set_msr_instance (Some msr) (fst p))
    /\ no_write (snd p) (snd pb)
    /\ ApplyMsrPreset h preset aff qos p
       = if ok then apply_broadcast h msr preset aff qos pb else (false, pb).
Proof.
  intros Hav. cbv zeta. rewrite ApplyMsrPreset_eq. cbv zeta.
  rewrite Msr_get_available, Hav. cbn [negb].
  set (msr := fst (Msr_get h p)).
  set (p2 := (set_original_msrs [] (fst (snd (Msr_get h p))),
              snd (snd (Msr_get h p)))).
  pose proof (Msr_get_no_write h p) as Hg.
  destruct (backup_loop_spec h msr preset p2) as (Hr & Hs & Hw).
  assert (Hd : device (snd p2) = device (snd p)) by apply Hg.
  assert (Hrg : regs (snd p2) = regs (snd p)) by apply Hg.
  rewrite Hd in Hr, Hs. rewrite Hrg in Hs.
  exists (snd (backup_loop h msr preset p2)). split; [| split].
  - rewrite Hs. unfold p2. cbn [fst]. rewrite Msr_get_statics.
    now destruct (forallb _ preset).
  - eapply no_write_trans; [exact Hg | exact Hw].
  - rewrite Hr. now destruct (forallb _ preset).
Qed.

(** ** [Init] *)

Lemma DetectMsrMod_result (h : Host) (w : World) :
  fst (DetectMsrMod h w) = detected_mod h.
Proof.
  unfold DetectMsrMod, detected_mod.
  destruct (DetectCPUVendor h); [reflexivity | | reflexivity].
  destruct (DetectAMDFamily h); reflexivity.
Qed.

Lemma DetectMsrMod_log_only (h : Host) (w : World) :
  log_only w (snd (DetectMsrMod h w)).
Proof.
  unfold DetectMsrMod.
  destruct (DetectCPUVendor h); [| destruct (DetectAMDFamily h) |];
    repeat split.
Qed.

Lemma m_cache_qos_set (b : bool) (s : Statics) :
  m_cache_qos (set_cache_qos b s) = b.
Proof. reflexivity. Qed.

Lemma m_enabled_set (b : bool) (s : Statics) : m_enabled (set_enabled b s) = b.
Proof. reflexivity. Qed.

Lemma Init_eq (h : Host) (aff : list Z) (qos : bool) (p : Proc) :
  RandomX_Msr.Init h aff qos p
  = if m_initialized (fst p) then (m_enabled (fst p), p)
    else
      let s1 := init_statics qos (fst p) in
      let d := DetectMsrMod h (snd p) in
      if mod_unusable (fst d) then (false, (s1, add_log LogNoPreset (snd d)))
      else if is_empty (preset_of (fst d))
      then (false, (s1, add_log LogPresetEmpty (snd d)))
      else
        let r := ApplyMsrPreset h (preset_of (fst d)) aff qos
                   (s1, init_announce (fst d) aff qos (snd d)) in
        (fst r, (set_enabled (fst r) (fst (snd r)),
                 init_report (fst d) aff qos (fst r) (snd (snd r)))).
Proof.
  unfold RandomX_Msr.Init. unfold bind at 1, ask at 1. cbv zeta. cbn [fst snd].
  destruct (m_initialized (fst p)); [reflexivity |].
  run_st. cbv zeta.
  destruct (mod_unusable (fst (DetectMsrMod h (snd p)))); [reflexivity |].
  destruct (is_empty (preset_of (fst (DetectMsrMod h (snd p)))));
    [reflexivity |].
  unfold init_announce, init_report, init_statics.
  cbv beta zeta. cbn [fst snd]. rewrite ?m_cache_qos_set.
  destruct (qos && is_empty aff); cbn [fst snd]; rewrite ?m_cache_qos_set;
    match goal with
    | |- context [ApplyMsrPreset ?a ?b ?c ?d ?e] =>
        set (r := ApplyMsrPreset a b c d e)
    end;
    clearbody r; destruct r as [[|] [s w]]; cbn [fst snd];
    rewrite ?m_enabled_set;
    destruct (qos && negb (is_empty aff)); reflexivity.
Qed.

Lemma Init_initialized (h : Host) (aff : list Z) (qos : bool) (p : Proc) :
  m_initialized (fst p) = true ->
  RandomX_Msr.Init h aff qos p = (m_enabled (fst p), p).
Proof. intros Hi. rewrite Init_eq. now rewrite Hi. Qed.

Lemma In_preset_usable (h : Host) (item : MsrItem.t) :
  In item (preset_of (detected_mod h)) ->
  mod_unusable (detected_mod h) = false
  /\ is_empty (preset_of (detected_mod h)) = false.
Proof.
  intros Hin. destruct (detected_mod h); cbn in Hin |- *;
    (contradiction || split; reflexivity).
Qed.

Lemma forallb_false_of_In {A : Type} (f : A -> bool) (l : list A) (x : A) :
  In x l -> f x = false -> forallb f l = false.
Proof.
  intros Hin Hfx. destruct (forallb f l) eqn:Hall; [| reflexivity].
  rewrite forallb_forall in Hall. specialize (Hall x Hin). congruence.
Qed.

Lemma init_announce_log_only (h : Host) (aff : list Z) (qos : bool) (w : World) :
  log_only w (init_announce (detected_mod h) aff qos (snd (DetectMsrMod h w))).
Proof.
  unfold init_announce.
  eapply log_only_trans; [apply (DetectMsrMod_log_only h w) |].
  destruct (qos && is_empty aff); repeat split.
Qed.

Lemma init_report_log_only (md : MsrMod) (aff : list Z) (qos applied : bool)
      (w : World) :
  log_only w (init_report md aff qos applied w).
Proof.
  unfold init_report.
  destruct applied; [destruct (qos && negb (is_empty aff)) |]; repeat split.
Qed.

(** What [Init] does once a backup read fails. *)
Lemma Init_backup_failure (h : Host) (aff : list Z) (qos : bool) (st : Statics)
      (w : World) :
  Uninitialized st ->
  accessor_available h st (device w) = true ->
  mod_unusable (detected_mod h) = false ->
  is_empty (preset_of (detected_mod h)) = false ->
  forallb (backup_ok h (device w)) (preset_of (detected_mod h)) = false ->
  let r := RandomX_Msr.Init h aff qos (st, w) in
  fst r = false
  /\ original_msrs (fst (snd r)) = []
  /\ m_initialized (fst (snd r)) = true
  /\ m_enabled (fst (snd r)) = false
  /\ no_write w (snd (snd r)).
Proof.
  intros Hun Hav Hu He Hfail. cbv zeta. rewrite Init_eq. cbn [fst snd].
  rewrite Hun. cbv zeta. rewrite DetectMsrMod_result, Hu, He.
  set (p1 := (init_statics qos st,
              init_announce (detected_mod h) aff qos (snd (DetectMsrMod h w)))).
  pose proof (init_announce_log_only h aff qos w) as Hlo.
  assert (Hdev : device (snd p1) = device w) by apply Hlo.
  destruct (ApplyMsrPreset_backup h (preset_of (detected_mod h)) aff qos p1)
    as (pb & Hs & Hnw & Heq).
  { rewrite Hdev. exact Hav. }
  rewrite Hdev, Hfail in Hs, Heq.
  rewrite Heq. cbn [fst snd]. rewrite Hs.
  split; [reflexivity |]. split; [reflexivity |]. split; [reflexivity |].
  split; [reflexivity |].
  apply no_write_trans with (snd pb).
  - eapply no_write_trans; [apply log_only_no_write, Hlo | exact Hnw].
  - apply log_only_no_write, init_report_log_only.
Qed.

Lemma Init_no_preset (h : Host) (aff : list Z) (qos : bool) (st : Statics)
      (w : World) :
  Uninitialized st ->
  mod_unusable (detected_mod h) || is_empty (preset_of (detected_mod h)) = true ->
  let r := RandomX_Msr.Init h aff qos (st, w) in
  fst r = false
  /\ fst (snd r) = init_statics qos st
  /\ log_only w (snd (snd r)).
Proof.
  intros Hun Hno. cbv zeta. rewrite Init_eq. cbn [fst snd].
  rewrite Hun. cbv zeta. rewrite DetectMsrMod_result.
  pose proof (DetectMsrMod_log_only h w) as Hlo.
  destruct (mod_unusable (detected_mod h)); cbn [orb] in Hno.
  - repeat split; apply Hlo.
  - rewrite Hno. repeat split; apply Hlo.
Qed.

Lemma Init_unavailable (h : Host) (aff : list Z) (qos : bool) (st : Statics)
      (w : World) :
  Uninitialized st ->
  mod_unusable (detected_mod h) = false ->
  is_empty (preset_of (detected_mod h)) = false ->
  accessor_available h st (device w) = false ->
  let r := RandomX_Msr.Init h aff qos (st, w) in
  fst r = false
  /\ original_msrs (fst (snd r)) = original_msrs st
  /\ m_initialized (fst (snd r)) = true
  /\ m_enabled (fst (snd r)) = false
  /\ no_write w (snd (snd r)).
Proof.
  intros Hun Hu He Hav. cbv zeta. rewrite Init_eq. cbn [fst snd].
  rewrite Hun. cbv zeta. rewrite DetectMsrMod_result, Hu, He.
  set (p1 := (init_statics qos st,
              init_announce (detected_mod h) aff qos (snd (DetectMsrMod h w)))).
  pose proof (init_announce_log_only h aff qos w) as Hlo.
  assert (Hdev : device (snd p1) = device w) by apply Hlo.
  rewrite ApplyMsrPreset_unavailable by (rewrite Hdev; exact Hav).
  cbn [fst snd]. rewrite Msr_get_statics.
  split; [reflexivity |]. split; [reflexivity |]. split; [reflexivity |].
  split; [reflexivity |].
  eapply no_write_trans; [apply log_only_no_write, Hlo |].
  eapply no_write_trans; [apply (Msr_get_no_write h p1) |].
  apply log_only_no_write, init_report_log_only.
Qed.

(** C6: when [Init] runs on an uninitialized controller with an available
    accessor and the backup read of some register of the preset fails, it
    returns false, the backup set is empty, the controller is initialized
    and not enabled (Disabled), the registers of every logical CPU are as
    before, and no device node was opened for writing and no positioned
    write was made. *)
Theorem Init_backup_read_failure_aborts (h : Host) (aff : list Z) (qos : bool)
        (st : Statics) (w : World) :
  Uninitialized st ->
  accessor_available h st (device w) = true ->
  (exists item, In item (preset_of (detected_mod h))
                /\ rdmsr_ok h (device w) (MsrItem.reg item) (-1) = false) ->
  let r := RandomX_Msr.Init h aff qos (st, w) in
  fst r = false
  /\ original_msrs (fst (snd r)) = []
  /\ Disabled (fst (snd r))
  /\ regs (snd (snd r)) = regs w
  /\ writes_of (trace (snd (snd r))) = writes_of (trace w).
Proof.
  intros Hun Hav (item & Hin & Hrd). cbv zeta.
  destruct (In_preset_usable h item Hin) as [Hu Hne].
  destruct (Init_backup_failure h aff qos st w Hun Hav Hu Hne)
    as (Hr & Ho & Hi & He & Hnw).
  { apply (forallb_false_of_In _ _ item Hin). unfold backup_ok. now rewrite Hrd. }
  unfold Disabled. repeat split; try assumption; apply Hnw.
Qed.

Lemma Init_backup_read_failure_aborts_witness :
  let r := RandomX_Msr.Init (host_intel 2) [0] true
             (initial_statics, fresh_world device_reads_fail regs_zero) in
  fst r = false
  /\ original_msrs (fst (snd r)) = []
  /\ Disabled (fst (snd r))
  /\ regs (snd (snd r)) = regs_zero
  /\ writes_of (trace (snd (snd r))) = [].
Proof.
  apply (Init_backup_read_failure_aborts (host_intel 2) [0] true
           initial_statics (fresh_world device_reads_fail regs_zero)).
  - reflexivity.
  - reflexivity.
  - exists (MsrItem.make 0x1a4 0xf). split; [left; reflexivity | reflexivity].
Defined.

(** ** [Destroy] *)

Lemma Destroy_eq (h : Host) (p : Proc) :
  RandomX_Msr.Destroy h p
  = if negb (m_initialized (fst p)) || is_empty (original_msrs (fst p))
    then (tt, p)
    else
      let g := Msr_get h (fst p, add_log LogRestoring (snd p)) in
      if negb (Msr.isAvailable (fst g))
      then (tt, (fst (snd g), add_log LogCannotRestore (snd (snd g))))
      else
        let r := Msr.write_each h
                   (restore_callback h (fst g) (original_msrs (fst p)))
                   (snd (snd g)) in
        (tt, (destroyed_statics (fst (snd g)),
              add_log (if fst r then LogRestored else LogRestoreFailed)
                      (snd r))).
Proof.
  unfold RandomX_Msr.Destroy, restore_callback, destroyed_statics.
  run_st. cbv beta zeta. cbn [fst snd].
  destruct (negb (m_initialized (fst p)) || is_empty (original_msrs (fst p)));
    [reflexivity |].
  destruct (negb (Msr.isAvailable _)); reflexivity.
Qed.

Lemma Destroy_noop (h : Host) (p : Proc) :
  m_initialized (fst p) = false \/ original_msrs (fst p) = [] ->
  RandomX_Msr.Destroy h p = (tt, p).
Proof.
  intros Hguard. rewrite Destroy_eq.
  destruct Hguard as [-> | ->]; [reflexivity |].
  now rewrite orb_true_r.
Qed.

(** C4 (as the code has it): after an [Init] that failed on a backup read
    the controller stays initialized and disabled with an empty backup set;
    every later [Init], whatever its arguments and whatever the device
    would then answer, returns false at once and changes neither the
    statics nor the world, and [Destroy] does not reset the controller
    either. *)
Theorem Init_after_backup_failure_is_not_retried (h : Host) (aff : list Z)
        (qos : bool) (st : Statics) (w : World) :
  Uninitialized st ->
  accessor_available h st (device w) = true ->
  (exists item, In item (preset_of (detected_mod h))
                /\ rdmsr_ok h (device w) (MsrItem.reg item) (-1) = false) ->
  let s1 := fst (snd (RandomX_Msr.Init h aff qos (st, w))) in
  forall (aff' : list Z) (qos' : bool) (w' : World),
    RandomX_Msr.Init h aff' qos' (s1, w') = (false, (s1, w'))
    /\ RandomX_Msr.Destroy h (s1, w') = (tt, (s1, w')).
Proof.
  intros Hun Hav (item & Hin & Hrd). cbv zeta. intros aff' qos' w'.
  destruct (In_preset_usable h item Hin) as [Hu Hne].
  destruct (Init_backup_failure h aff qos st w Hun Hav Hu Hne)
    as (_ & Ho & Hi & He & _).
  { apply (forallb_false_of_In _ _ item Hin). unfold backup_ok. now rewrite Hrd. }
  split.
  - rewrite Init_initialized by exact Hi. cbn [fst]. now rewrite He.
  - apply Destroy_noop. right. exact Ho.
Qed.

Lemma Init_after_backup_failure_is_not_retried_witness :
  let h := host_intel 2 in
  let w := fresh_world device_reads_fail regs_zero in
  let s1 := fst (snd (RandomX_Msr.Init h [0] true (initial_statics, w))) in
  let w' := fresh_world device_all_ok regs_zero in
  RandomX_Msr.Init h [0] true (s1, w') = (false, (s1, w'))
  /\ RandomX_Msr.Destroy h (s1, w') = (tt, (s1, w')).
Proof.
  cbv zeta.
  apply (Init_after_backup_failure_is_not_retried (host_intel 2) [0] true
           initial_statics (fresh_world device_reads_fail regs_zero)).
  - reflexivity.
  - reflexivity.
  - exists (MsrItem.make 0x1a4 0xf). split; [left; reflexivity | reflexivity].
Defined.

(** C4 (counterexample to the claim as stated): on a two-CPU Intel host the
    first [Init] fails on the backup read; the device then starts to answer
    every call successfully, and the second [Init] still returns false. *)
Lemma retry_recovers_counterexample :
  let h := host_intel 2 in
  let w := fresh_world device_reads_fail regs_zero in
  Uninitialized initial_statics
  /\ accessor_available h initial_statics (device w) = true
  /\ In (MsrItem.make 0x1a4 0xf) (preset_of (detected_mod h))
  /\ rdmsr_ok h (device w) 0x1a4 (-1) = false
  /\ fst (RandomX_Msr.Init h [0] true (initial_statics, w)) = false
  /\ all_reads_and_writes_succeed device_all_ok
  /\ ~ retry_recovers h [0] true initial_statics w device_all_ok.
Proof.
  cbv zeta. split; [reflexivity |]. split; [reflexivity |].
  split; [left; reflexivity |]. split; [reflexivity |].
  split; [reflexivity |]. split; [repeat split |].
  unfold retry_recovers. vm_compute. discriminate.
Qed.

Lemma events_since_same (w : World) : events_since w w = [].
Proof. unfold events_since. apply skipn_all. Qed.

Lemma Destroy_noop_writes_nothing (h : Host) (p : Proc) :
  m_initialized (fst p) = false \/ original_msrs (fst p) = [] ->
  RandomX_Msr.Destroy h p = (tt, p) /\ destroy_writes_nothing h p.
Proof.
  intros Hguard. pose proof (Destroy_noop h p Hguard) as Heq.
  split; [exact Heq |].
  unfold destroy_writes_nothing. rewrite Heq. cbn [snd].
  now rewrite events_since_same.
Qed.

Lemma Init_fails_before_broadcast (h : Host) (aff : list Z) (qos : bool)
      (st : Statics) (w : World) :
  Uninitialized st ->
  original_msrs st = [] ->
  mod_unusable (detected_mod h) || is_empty (preset_of (detected_mod h)) = true
  \/ accessor_available h st (device w) = false
  \/ forallb (backup_ok h (device w)) (preset_of (detected_mod h)) = false ->
  let r := RandomX_Msr.Init h aff qos (st, w) in
  fst r = false
  /\ original_msrs (fst (snd r)) = []
  /\ m_initialized (fst (snd r)) = true
  /\ m_enabled (fst (snd r)) = false
  /\ no_write w (snd (snd r)).
Proof.
  intros Hun Hempty Hcase. cbv zeta.
  destruct (mod_unusable (detected_mod h)
            || is_empty (preset_of (detected_mod h))) eqn:Hno.
  - destruct (Init_no_preset h aff qos st w Hun Hno) as (Hr & Hs & Hlo).
    rewrite Hr, Hs.
    split; [reflexivity |]. split; [exact Hempty |]. split; [reflexivity |].
    split; [reflexivity |]. apply log_only_no_write, Hlo.
  - apply orb_false_elim in Hno as [Hu He].
    destruct (accessor_available h st (device w)) eqn:Hav.
    + destruct Hcase as [Hc | [Hc | Hc]]; try discriminate.
      now apply Init_backup_failure.
    + destruct (Init_unavailable h aff qos st w Hun Hu He Hav)
        as (Hr & Ho & Hi & Hen & Hnw).
      rewrite Ho. auto.
Qed.

(** C3 (as the code has it): [Destroy] returns at once, with no device call
    and no change of state, whenever the controller is uninitialized or the
    backup set is empty.  That covers the uninitialized controller and the
    Disabled state reached when [Init] found no preset, found the accessor
    unavailable or failed a backup read: each of these leaves the backup
    set empty. *)
Theorem Destroy_is_noop_without_backup (h : Host) (aff : list Z) (qos : bool)
        (st : Statics) (w : World) :
  Uninitialized st ->
  original_msrs st = [] ->
  mod_unusable (detected_mod h) || is_empty (preset_of (detected_mod h)) = true
  \/ accessor_available h st (device w) = false
  \/ forallb (backup_ok h (device w)) (preset_of (detected_mod h)) = false ->
  let r := RandomX_Msr.Init h aff qos (st, w) in
  let s1 := fst (snd r) in
  (forall p, Uninitialized (fst p) \/ original_msrs (fst p) = [] ->
             RandomX_Msr.Destroy h p = (tt, p) /\ destroy_writes_nothing h p)
  /\ (forall w', RandomX_Msr.Destroy h (st, w') = (tt, (st, w'))
                 /\ destroy_writes_nothing h (st, w'))
  /\ fst r = false
  /\ Disabled s1
  /\ original_msrs s1 = []
  /\ (forall w', RandomX_Msr.Destroy h (s1, w') = (tt, (s1, w'))
                 /\ destroy_writes_nothing h (s1, w')).
Proof.
  intros Hun Hempty Hcase. cbv zeta.
  destruct (Init_fails_before_broadcast h aff qos st w Hun Hempty Hcase)
    as (Hr & Ho & Hi & He & _).
  split; [| split; [| split; [| split; [| split]]]].
  - intros p Hp. now apply Destroy_noop_writes_nothing.
  - intros w'. apply Destroy_noop_writes_nothing. now left.
  - exact Hr.
  - split; assumption.
  - exact Ho.
  - intros w'. apply Destroy_noop_writes_nothing. now right.
Qed.

Lemma Destroy_is_noop_without_backup_witness :
  let h := host_intel 2 in
  let w := fresh_world device_reads_fail regs_zero in
  let r := RandomX_Msr.Init h [0] true (initial_statics, w) in
  fst r = false
  /\ Disabled (fst (snd r))
  /\ RandomX_Msr.Destroy h (snd r) = (tt, snd r)
  /\ RandomX_Msr.Destroy h (initial_statics, w) = (tt, (initial_statics, w)).
Proof.
  cbv zeta.
  destruct (Destroy_is_noop_without_backup (host_intel 2) [0] true
              initial_statics (fresh_world device_reads_fail regs_zero))
    as (_ & Hun & Hr & Hd & _ & Hdis).
  - reflexivity.
  - reflexivity.
  - right. right. reflexivity.
  - split; [exact Hr |]. split; [exact Hd |]. split.
    + rewrite (surjective_pairing (snd (RandomX_Msr.Init _ _ _ _))).
      apply Hdis.
    + apply Hun.
Defined.

(** C3 (counterexample to the claim as stated): on a two-CPU Intel host on
    which only CPU 0 can be written, [Init] backs up register 0x1a4, writes
    CPU 0, fails on CPU 1 and returns false.  The controller is Disabled,
    the backup set is kept, and [Destroy] replays it: it writes CPU 0 back
    to 0 and tries CPU 1. *)
Lemma destroy_writes_nothing_counterexample :
  let h := host_intel 2 in
  let w := fresh_world device_cpu0_only regs_zero in
  let r := RandomX_Msr.Init h [] false (initial_statics, w) in
  let p2 := snd (RandomX_Msr.Destroy h (snd r)) in
  fst r = false
  /\ Disabled (fst (snd r))
  /\ original_msrs (fst (snd r)) = [MsrItem.make 0x1a4 0]
  /\ events_since (snd (snd r)) (snd p2)
     = [EvOpen 0 O_WRONLY; EvPwrite 0 0x1a4 0;
        EvOpen 1 O_WRONLY; EvPwrite 1 0x1a4 0]
  /\ regs (snd (snd r)) 0 0x1a4 = 0xf
  /\ regs (snd p2) 0 0x1a4 = 0
  /\ ~ destroy_writes_nothing h (snd r).
Proof.
  cbv zeta. split; [reflexivity |]. split; [split; reflexivity |].
  split; [reflexivity |]. split; [reflexivity |]. split; [reflexivity |].
  split; [reflexivity |].
  unfold destroy_writes_nothing. vm_compute. discriminate.
Qed.

(** ** Loops that stop at the first failure *)

Lemma all_st_app {S A : Type} (f : A -> St S bool) (l1 l2 : list A) (s : S) :
  all_st f (l1 ++ l2) s
  = if fst (all_st f l1 s) then all_st f l2 (snd (all_st f l1 s))
    else (false, snd (all_st f l1 s)).
Proof.
  revert s. induction l1 as [| x l1 IH]; intros s; [reflexivity |].
  cbn [all_st app]. unfold bind. cbv zeta.
  destruct (fst (f x s)); [apply IH | reflexivity].
Qed.

Lemma all_st_map {S A B : Type} (f : B -> St S bool) (g : A -> B) (l : list A)
      (s : S) :
  all_st f (map g l) s = all_st (fun x => f (g x)) l s.
Proof.
  revert s. induction l as [| x l IH]; intros s; [reflexivity |].
  cbn [all_st map]. unfold bind. cbv zeta.
  destruct (fst (f (g x) s)); [apply IH | reflexivity].
Qed.

(** The nested loops of a broadcast are one loop over the schedule. *)
Lemma all_st_nested {S A B : Type} (f : A -> B -> St S bool) (outer : list A)
      (inner : list B) (s : S) :
  all_st (fun a => all_st (f a) inner) outer s
  = all_st (fun ab => f (fst ab) (snd ab))
           (flat_map (fun a => map (pair a) inner) outer) s.
Proof.
  revert s. induction outer as [| a outer IH]; intros s; [reflexivity |].
  cbn [all_st flat_map]. rewrite all_st_app, all_st_map. cbn [fst snd].
  unfold bind. cbv zeta.
  change (fun x : B => f a x) with (f a).
  destruct (fst (all_st (f a) inner s)); [apply IH | reflexivity].
Qed.

Lemma all_st_stops {S A : Type} (f : A -> St S bool) (pre post : list A)
      (x : A) (s s1 s2 : S) :
  all_st f pre s = (true, s1) ->
  f x s1 = (false, s2) ->
  all_st f (pre ++ x :: post) s = (false, s2).
Proof.
  intros Hpre Hx. rewrite all_st_app, Hpre. cbn [fst snd all_st].
  unfold bind. cbv zeta. now rewrite Hx.
Qed.

(** C2 (as the code has it): [Destroy] on an initialized controller with an
    available accessor runs the restore writes in schedule order and stops
    at the first one that fails: when the writes of [pre] succeed and the
    write of [it] on CPU [c] fails, leaving the world [w2], [Destroy] ends
    in exactly [w2] plus the warning line, so that none of the writes of
    [post] (the remaining items of that CPU and all remaining CPUs) is
    attempted.  The failure is logged, the backup set is cleared and the
    controller is uninitialized again. *)
Theorem Destroy_stops_at_first_failed_write (h : Host) (p : Proc) (m : Msr.t)
        (pre post : list (Z * MsrItem.t)) (c : Z) (it : MsrItem.t)
        (w1 w2 : World) :
  m_initialized (fst p) = true ->
  msr_instance (fst p) = Some m ->
  Msr.isAvailable m = true ->
  restore_schedule h (original_msrs (fst p)) = pre ++ (c, it) :: post ->
  all_st (restore_step h m) pre (add_log LogRestoring (snd p)) = (true, w1) ->
  restore_step h m (c, it) w1 = (false, w2) ->
  RandomX_Msr.Destroy h p
  = (tt, (destroyed_statics (fst p), add_log LogRestoreFailed w2))
  /\ events_since (snd p) (snd (snd (RandomX_Msr.Destroy h p)))
     = events_since (snd p) w2
  /\ Uninitialized (fst (snd (RandomX_Msr.Destroy h p)))
  /\ original_msrs (fst (snd (RandomX_Msr.Destroy h p))) = [].
Proof.
  intros Hi Hm Hav Hsched Hpre Hfail.
  assert (Hne : is_empty (original_msrs (fst p)) = false).
  { destruct (original_msrs (fst p)) eqn:Ho; [| reflexivity].
    exfalso. unfold restore_schedule in Hsched.
    assert (Hnil : forall l : list Z,
               flat_map (fun cpu => map (pair cpu) (@nil MsrItem.t)) l = []).
    { induction l; [reflexivity | exact IHl]. }
    rewrite Hnil in Hsched. now destruct pre. }
  assert (Heq : RandomX_Msr.Destroy h p
                = (tt, (destroyed_statics (fst p), add_log LogRestoreFailed w2))).
  { rewrite Destroy_eq, Hi, Hne. cbn [negb orb]. cbv zeta.
    assert (Hg : Msr_get h (fst p, add_log LogRestoring (snd p))
                 = (m, (fst p, add_log LogRestoring (snd p)))).
    { unfold Msr_get. run_st. now rewrite Hm. }
    rewrite Hg. cbn [fst snd]. rewrite Hav. cbn [negb].
    unfold Msr.write_each, restore_callback.
    rewrite (all_st_nested (fun cpu item => Msr.write_item h m item cpu false)).
    fold (restore_schedule h (original_msrs (fst p))). rewrite Hsched.
    change (fun ab : Z * MsrItem.t => Msr.write_item h m (snd ab) (fst ab) false)
      with (restore_step h m).
    rewrite (all_st_stops _ pre post (c, it) _ w1 w2 Hpre Hfail).
    reflexivity. }
  rewrite Heq. cbn [fst snd]. repeat split.
Qed.

Lemma Destroy_stops_at_first_failed_write_witness :
  let h := host_intel 2 in
  let w := fresh_world device_cpu0_rejects regs_zero in
  let p := snd (RandomX_Msr.Init h [] false (initial_statics, w)) in
  events_since (snd p) (snd (snd (RandomX_Msr.Destroy h p)))
  = [EvOpen 0 O_WRONLY; EvPwrite 0 0x1a4 0]
  /\ Uninitialized (fst (snd (RandomX_Msr.Destroy h p)))
  /\ original_msrs (fst (snd (RandomX_Msr.Destroy h p))) = [].
Proof.
  cbv zeta.
  set (h := host_intel 2).
  set (p := snd (RandomX_Msr.Init h [] false
                   (initial_statics, fresh_world device_cpu0_rejects regs_zero))).
  set (m := Msr.Build true).
  set (w1 := add_log LogRestoring (snd p)).
  set (w2 := snd (restore_step h m (0, MsrItem.make 0x1a4 0) w1)).
  destruct (Destroy_stops_at_first_failed_write h p m []
              [(1, MsrItem.make 0x1a4 0)] 0 (MsrItem.make 0x1a4 0) w1 w2)
    as (_ & Hev & Hun & Ho).
  - reflexivity.
  - reflexivity.
  - reflexivity.
  - reflexivity.
  - reflexivity.
  - reflexivity.
  - split; [| split; assumption].
    rewrite Hev. reflexivity.
Defined.

(** C2 (counterexample to the claim as stated): on a two-CPU Intel host
    whose CPU 0 accepts no value but 0xf in register 0x1a4, [Init] succeeds
    on both CPUs.  [Destroy] then fails to write the original value 0 to
    CPU 0 and stops: the device node of CPU 1 is never opened and CPU 1
    keeps the preset value. *)
Lemma restore_is_best_effort_counterexample :
  let h := host_intel 2 in
  let w := fresh_world device_cpu0_rejects regs_zero in
  let r := RandomX_Msr.Init h [] false (initial_statics, w) in
  let p2 := snd (RandomX_Msr.Destroy h (snd r)) in
  fst r = true
  /\ Enabled (fst (snd r))
  /\ original_msrs (fst (snd r)) = [MsrItem.make 0x1a4 0]
  /\ GetCPUList h = [0; 1]
  /\ events_since (snd (snd r)) (snd p2) = [EvOpen 0 O_WRONLY; EvPwrite 0 0x1a4 0]
  /\ regs (snd p2) 1 0x1a4 = 0xf
  /\ log (snd p2) = log (snd (snd r)) ++ [LogRestoring; LogRestoreFailed]
  /\ ~ restore_is_best_effort h (snd r).
Proof.
  cbv zeta. split; [reflexivity |]. split; [split; reflexivity |].
  split; [reflexivity |]. split; [reflexivity |]. split; [reflexivity |].
  split; [reflexivity |]. split; [reflexivity |].
  intros Hclaim.
  specialize (Hclaim 1 (MsrItem.make 0x1a4 0)).
  assert (Hev : events_since
                  (snd (snd (RandomX_Msr.Init (host_intel 2) [] false
                     (initial_statics, fresh_world device_cpu0_rejects regs_zero))))
                  (snd (snd (RandomX_Msr.Destroy (host_intel 2)
                     (snd (RandomX_Msr.Init (host_intel 2) [] false
                        (initial_statics,
                         fresh_world device_cpu0_rejects regs_zero))))))
                = [EvOpen 0 O_WRONLY; EvPwrite 0 0x1a4 0]) by reflexivity.
  rewrite Hev in Hclaim.
  destruct Hclaim as [Hbad | [Hbad | []]].
  - right. left. reflexivity.
  - vm_compute. left. reflexivity.
  - discriminate.
  - discriminate.
Qed.

(** ** Validity of the item [Msr::read] returns *)

Lemma backup_loop_invalid_head (h : Host) (msr : Msr.t) (item : MsrItem.t)
      (rest : MsrItems) (p : Proc) :
  backup_ok h (device (snd p)) item = false ->
  fst (backup_loop h msr (item :: rest) p) = false
  /\ original_msrs (fst (snd (backup_loop h msr (item :: rest) p))) = [].
Proof.
  intros Hbad.
  destruct (backup_loop_spec h msr (item :: rest) p) as (Hr & Hs & _).
  cbn [forallb] in Hr, Hs. rewrite Hbad in Hr, Hs. cbn [andb] in Hr, Hs.
  rewrite Hr, Hs. split; reflexivity.
Qed.

(** C10: the item [Msr::read] returns is valid exactly when the device read
    succeeded and the register index is positive.  For register index 0 the
    item is therefore invalid whether or not the device read succeeded: on
    a device whose reads succeed and deliver 5, the read of register 0
    succeeds, the item returned is [(0, 5)], and it is invalid like the
    item a failed read gives.  The backup loop of [ApplyMsrPreset] sees
    only the validity: at an item with index 0 it clears the backup and
    gives up, whatever the device answered. *)
Theorem Msr_read_success_only_by_validity :
  (forall h m reg cpu verbose w,
      MsrItem.isValid (fst (Msr.read h m reg cpu verbose w))
      = is_some (fst (Msr.rdmsr h reg cpu w)) && (0 <? reg))
  /\ (forall h m cpu verbose w,
         MsrItem.isValid (fst (Msr.read h m 0 cpu verbose w)) = false)
  /\ (fst (Msr.rdmsr (host_intel 1) 0 (-1) (fresh_world device_all_ok regs_five))
      = Some 5
      /\ fst (Msr.read (host_intel 1) (Msr.Build true) 0 (-1) true
                       (fresh_world device_all_ok regs_five))
         = MsrItem.make 0 5
      /\ MsrItem.isValid MsrItem.empty = false)
  /\ (forall h msr value mask rest p,
         fst (backup_loop h msr (MsrItem.Build 0 value mask :: rest) p) = false
         /\ original_msrs
              (fst (snd (backup_loop h msr
                           (MsrItem.Build 0 value mask :: rest) p)))
            = []).
Proof.
  split; [| split; [| split]].
  - intros. apply Msr_read_valid.
  - intros. rewrite Msr_read_valid. cbn. apply andb_false_r.
  - split; [reflexivity |]. split; reflexivity.
  - intros h msr value mask rest p.
    apply backup_loop_invalid_head.
    unfold backup_ok. cbn. apply andb_false_r.
Qed.

(** ** The unavailable accessor *)

Lemma Msr_write_unavailable (h : Host) (m : Msr.t) (reg value cpu mask : Z)
      (verbose : bool) (w : World) :
  Msr.isAvailable m = false ->
  Msr.write h m reg value cpu mask verbose w = (false, w).
Proof. intros Ha. unfold Msr.write. now rewrite Ha. Qed.

Lemma Msr_write_item_unavailable (h : Host) (m : Msr.t) (item : MsrItem.t)
      (cpu : Z) (verbose : bool) (w : World) :
  Msr.isAvailable m = false ->
  Msr.write_item h m item cpu verbose w = (false, w).
Proof. intros Ha. unfold Msr.write_item. now apply Msr_write_unavailable. Qed.

(** C5 (the code at the failing input): on a device where neither
    access-enablement path succeeds the accessor is built unavailable, and
    every [write] on it returns false with no device call.  Its [read] does
    not look at the availability: it opens the device node of CPU 0, reads
    register 0x1a4 and returns a valid item holding the register's value. *)
Theorem Msr_read_ignores_availability :
  let h := host_intel 1 in
  let built := Msr.new h (fresh_world device_no_enablement regs_five) in
  let m := fst built in
  let w := snd built in
  Msr.isAvailable m = false
  /\ (forall reg value cpu mask verbose w',
         Msr.write h m reg value cpu mask verbose w' = (false, w'))
  /\ fst (Msr.read h m 0x1a4 (-1) true w) = MsrItem.make 0x1a4 5
  /\ MsrItem.isValid (fst (Msr.read h m 0x1a4 (-1) true w)) = true
  /\ events_since w (snd (Msr.read h m 0x1a4 (-1) true w))
     = [EvOpen 0 O_RDONLY; EvPread 0 0x1a4].
Proof.
  cbv zeta. split; [| split; [| split; [| split]]].
  - reflexivity.
  - intros. now apply Msr_write_unavailable.
  - reflexivity.
  - reflexivity.
  - reflexivity.
Qed.

(** ** The crash-recovery frame *)

Lemma Setup_keeps_thread_locals (h : Host) (tid : Z) (p : RandomX_Fix.FixProc) :
  RandomX_Fix.tls (snd (RandomX_Fix.SetupMainLoopExceptionFrame h tid p))
  = RandomX_Fix.tls p.
Proof.
  unfold RandomX_Fix.SetupMainLoopExceptionFrame, RandomX_Fix.sigaction.
  run_st.
  destruct (RandomX_Fix.fx_initialized p); [reflexivity |].
  destruct (linux h); [| reflexivity].
  destruct (RandomX_Fix.sigaction_ok p RandomX_Fix.SIGSEGV); cbn;
    [| reflexivity].
  destruct (RandomX_Fix.sigaction_ok p RandomX_Fix.SIGILL); reflexivity.
Qed.

Lemma Handler_inactive (tid : Z) (sig : RandomX_Fix.Signal)
      (p : RandomX_Fix.FixProc) :
  RandomX_Fix.exception_frame_active (RandomX_Fix.tls p tid) = false ->
  fst (RandomX_Fix.MainLoopHandler tid sig p) = RandomX_Fix.Reraised sig.
Proof.
  intros Hin. unfold RandomX_Fix.MainLoopHandler. run_st. now rewrite Hin.
Qed.

(** C1 (the code at the failing input): [SetupMainLoopExceptionFrame] never
    writes a thread-local: whatever the process state, the calling thread's
    [exception_frame_active] and [exception_env] are after the call what
    they were before.  In a fresh process on Linux where both [sigaction]
    calls succeed, the call on thread [tid] installs the handler for both
    signals, yet the thread's flag is still false and no execution point is
    captured, so the handler run on that thread for either signal takes the
    re-raise branch; the same holds from any state in which the thread's
    flag was false before the call. *)
Theorem Setup_leaves_frame_inactive :
  (forall h tid p,
      RandomX_Fix.tls (snd (RandomX_Fix.SetupMainLoopExceptionFrame h tid p))
      = RandomX_Fix.tls p)
  /\ (forall h tid sig p,
         RandomX_Fix.exception_frame_active (RandomX_Fix.tls p tid) = false ->
         fst (RandomX_Fix.MainLoopHandler tid sig
                (snd (RandomX_Fix.SetupMainLoopExceptionFrame h tid p)))
         = RandomX_Fix.Reraised sig)
  /\ (forall ncpus tid sig,
         let h := host_intel ncpus in
         let p := snd (RandomX_Fix.SetupMainLoopExceptionFrame h tid
                         (RandomX_Fix.initial (fun _ => true))) in
         RandomX_Fix.fx_initialized p = true
         /\ RandomX_Fix.disposition p sig = RandomX_Fix.SA_MainLoopHandler
         /\ RandomX_Fix.exception_frame_active (RandomX_Fix.tls p tid) = false
         /\ RandomX_Fix.exception_env (RandomX_Fix.tls p tid) = None
         /\ fst (RandomX_Fix.MainLoopHandler tid sig p)
            = RandomX_Fix.Reraised sig
         /\ RandomX_Fix.disposition
              (snd (RandomX_Fix.MainLoopHandler tid sig p)) sig
            = RandomX_Fix.SIG_DFL).
Proof.
  split; [| split].
  - apply Setup_keeps_thread_locals.
  - intros h tid sig p Hinactive. apply Handler_inactive.
    now rewrite Setup_keeps_thread_locals.
  - intros ncpus tid sig. cbv zeta.
    destruct sig; repeat split.
Qed.

(** ** Register writes *)

Lemma wrmsr_eq (h : Host) (reg value cpu : Z) (w : World) :
  Msr.wrmsr h reg value cpu w
  = if linux h then
      let c := opened_cpu cpu in
      let w1 := add_event (EvOpen c O_WRONLY) w in
      if open_ok (device w) c O_WRONLY then
        let w2 := add_event (EvPwrite c reg value) w1 in
        if pwrite_ok (device w) c reg value
        then (true, set_reg c reg value w2)
        else (false, w2)
      else (false, w1)
    else (false, w).
Proof.
  unfold Msr.wrmsr. destruct (linux h) eqn:Hl; [| reflexivity].
  unfold bind. rewrite msr_open_linux by exact Hl. cbv zeta. cbn [fst snd].
  destruct (open_ok (device w) (opened_cpu cpu) O_WRONLY); [| reflexivity].
  unfold Msr.pwrite. run_st. cbn [device add_event].
  destruct (pwrite_ok (device w) (opened_cpu cpu) reg value); reflexivity.
Qed.

Lemma wrmsr_device (h : Host) (reg value cpu : Z) (w : World) :
  device (snd (Msr.wrmsr h reg value cpu w)) = device w.
Proof.
  rewrite wrmsr_eq. cbv zeta.
  destruct (linux h); [| reflexivity].
  destruct (open_ok (device w) (opened_cpu cpu) O_WRONLY); [| reflexivity].
  destruct (pwrite_ok (device w) (opened_cpu cpu) reg value); reflexivity.
Qed.

Lemma Msr_write_device (h : Host) (m : Msr.t) (reg value cpu mask : Z)
      (verbose : bool) (w : World) :
  device (snd (Msr.write h m reg value cpu mask verbose w)) = device w.
Proof.
  unfold Msr.write.
  destruct (negb (Msr.isAvailable m)); [reflexivity |].
  destruct (negb (mask =? MsrItem.kNoMask)); [| apply wrmsr_device].
  unfold bind. cbv zeta.
  pose proof (rdmsr_no_write h reg cpu w) as (Hd & _).
  destruct (fst (Msr.rdmsr h reg cpu w)).
  - destruct verbose; run_st; rewrite wrmsr_device; exact Hd.
  - destruct verbose; run_st; exact Hd.
Qed.

Lemma all_st_device {A : Type} (f : A -> St World bool) (l : list A) :
  (forall x w, device (snd (f x w)) = device w) ->
  forall w, device (snd (all_st f l w)) = device w.
Proof.
  intros Hf. induction l as [| x l IH]; intros w; [reflexivity |].
  cbn [all_st]. unfold bind. cbv zeta.
  destruct (fst (f x w)).
  - rewrite IH. apply Hf.
  - apply Hf.
Qed.

Lemma apply_cache_qos_device (h : Host) (m : Msr.t) (enabled : list Z)
      (cpu : Z) (w : World) :
  device (snd (apply_cache_qos h m enabled cpu w)) = device w.
Proof.
  unfold apply_cache_qos.
  destruct (existsb (Z.eqb cpu) enabled).
  - unfold bind. cbv zeta.
    destruct (negb (fst (Msr.write h m 3215 0 cpu MsrItem.kNoMask false w)));
      apply Msr_write_device.
  - unfold bind at 1. cbv zeta.
    set (r0 := Msr.write h m 3217 0 cpu MsrItem.kNoMask false w).
    assert (H0 : device (snd r0) = device w) by apply Msr_write_device.
    unfold bind at 1. cbv zeta.
    set (r1 := (if negb (fst r0)
                then Msr.write h m 3217 1 cpu MsrItem.kNoMask false
                else ret true) (snd r0)).
    assert (H1 : device (snd r1) = device w).
    { unfold r1. destruct (negb (fst r0)); [| exact H0].
      rewrite Msr_write_device. exact H0. }
    destruct (negb (fst r1)); [exact H1 |].
    unfold bind. cbv zeta.
    destruct (negb (fst (Msr.write h m 3215 one_shl_32 cpu MsrItem.kNoMask
                                   false (snd r1))));
      cbn [snd ret]; rewrite Msr_write_device; exact H1.
Qed.

Lemma apply_callback_device (h : Host) (m : Msr.t) (preset : MsrItems)
      (enabled : list Z) (qos disabled : bool) (cpu : Z) (w : World) :
  device (snd (apply_callback h m preset enabled qos disabled cpu w)) = device w.
Proof.
  unfold apply_callback. unfold bind. cbv zeta.
  set (r := all_st (fun item => Msr.write_item h m item cpu false) preset w).
  assert (Hr : device (snd r) = device w).
  { apply all_st_device. intros. apply Msr_write_device. }
  destruct (negb (fst r)); [exact Hr |].
  destruct (qos && negb disabled); [| exact Hr].
  rewrite apply_cache_qos_device. exact Hr.
Qed.

Lemma apply_broadcast_frame (h : Host) (m : Msr.t) (preset : MsrItems)
      (aff : list Z) (qos : bool) (p : Proc) :
  fst (snd (apply_broadcast h m preset aff qos p)) = fst p
  /\ device (snd (snd (apply_broadcast h m preset aff qos p))) = device (snd p).
Proof.
  unfold apply_broadcast, Msr.write_each. run_st. cbv zeta.
  destruct (qos && negb (is_empty aff) && negb (HasCatL3 h)); cbn [fst snd];
    (split; [reflexivity |]);
    rewrite all_st_device by (intros; apply apply_callback_device);
    reflexivity.
Qed.

Lemma write_item_ok (h : Host) (m : Msr.t) (it : MsrItem.t) (c : Z) (w : World) :
  linux h = true ->
  Msr.isAvailable m = true ->
  MsrItem.mask it = MsrItem.kNoMask ->
  0 <= c ->
  all_reads_and_writes_succeed (device w) ->
  let r := Msr.write_item h m it c false w in
  fst r = true
  /\ device (snd r) = device w
  /\ (forall c' r',
         regs (snd r) c' r'
         = if (c' =? c) && (r' =? MsrItem.reg it) then MsrItem.value it
           else regs w c' r').
Proof.
  intros Hl Hav Hmask Hc (Hopen & _ & Hpw). cbv zeta.
  unfold Msr.write_item, Msr.write. rewrite Hav, Hmask, Z.eqb_refl.
  cbn [negb]. rewrite wrmsr_eq, Hl. cbv zeta.
  assert (Hoc : opened_cpu c = c).
  { unfold opened_cpu. destruct (Z.ltb_spec c 0); [lia | reflexivity]. }
  rewrite Hoc, Hopen, Hpw. repeat split.
Qed.

Section Restore.

Variables (h : Host) (m : Msr.t) (f : Z -> Z).
Hypothesis Hlinux : linux h = true.
Hypothesis Havail : Msr.isAvailable m = true.

Lemma restore_callback_ok (backup : MsrItems) (c : Z) :
  backup_holds f backup -> 0 <= c ->
  forall w, all_reads_and_writes_succeed (device w) ->
  let r := restore_callback h m backup c w in
  fst r = true
  /\ device (snd r) = device w
  /\ (forall it, In it backup -> regs (snd r) c (MsrItem.reg it) = f (MsrItem.reg it))
  /\ (forall c' r', regs w c' r' = f r' -> regs (snd r) c' r' = f r').
Proof.
  intros Hf Hc. unfold restore_callback.
  induction backup as [| it rest IH]; intros w Hok; cbv zeta.
  - cbn. repeat split; [contradiction | auto].
  - cbn [all_st]. unfold bind. cbv zeta.
    destruct (Hf it (or_introl eq_refl)) as [Hmask Hval].
    destruct (write_item_ok h m it c w Hlinux Havail Hmask Hc Hok)
      as (Hr & Hd & Hregs).
    rewrite Hr.
    set (w1 := snd (Msr.write_item h m it c false w)) in *.
    assert (Hok1 : all_reads_and_writes_succeed (device w1))
      by (rewrite Hd; exact Hok).
    destruct (IH (fun x Hx => Hf x (or_intror Hx)) w1 Hok1)
      as (Hr2 & Hd2 & Hset & Hkeep).
    assert (Hstep : forall c' r', regs w c' r' = f r' -> regs w1 c' r' = f r').
    { intros c' r' Hgood. rewrite Hregs.
      destruct ((c' =? c) && (r' =? MsrItem.reg it)) eqn:Hhit; [| exact Hgood].
      apply andb_prop in Hhit as [_ Hreg]. apply Z.eqb_eq in Hreg.
      now rewrite Hval, Hreg. }
    split; [exact Hr2 |]. split; [congruence |]. split.
    + intros it' [<- | Hin]; [| now apply Hset].
      apply Hkeep. rewrite Hregs, !Z.eqb_refl. exact Hval.
    + intros c' r' Hgood. apply Hkeep, Hstep, Hgood.
Qed.

Lemma restore_each_ok (backup : MsrItems) (cpus : list Z) :
  backup_holds f backup -> (forall c, In c cpus -> 0 <= c) ->
  forall w, all_reads_and_writes_succeed (device w) ->
  let r := all_st (restore_callback h m backup) cpus w in
  fst r = true
  /\ device (snd r) = device w
  /\ (forall c it, In c cpus -> In it backup ->
                   regs (snd r) c (MsrItem.reg it) = f (MsrItem.reg it))
  /\ (forall c' r', regs w c' r' = f r' -> regs (snd r) c' r' = f r').
Proof.
  intros Hf. induction cpus as [| c cpus IH]; intros Hpos w Hok; cbv zeta.
  - cbn. repeat split; [contradiction | auto].
  - cbn [all_st]. unfold bind. cbv zeta.
    destruct (restore_callback_ok backup c Hf (Hpos c (or_introl eq_refl)) w Hok)
      as (Hr & Hd & Hset & Hkeep).
    rewrite Hr.
    set (w1 := snd (restore_callback h m backup c w)) in *.
    assert (Hok1 : all_reads_and_writes_succeed (device w1))
      by (rewrite Hd; exact Hok).
    destruct (IH (fun x Hx => Hpos x (or_intror Hx)) w1 Hok1)
      as (Hr2 & Hd2 & Hset2 & Hkeep2).
    split; [exact Hr2 |]. split; [congruence |]. split.
    + intros c' it [<- | Hin] Hit; [| now apply Hset2].
      apply Hkeep2, Hset, Hit.
    + intros c' r' Hgood. apply Hkeep2, Hkeep, Hgood.
Qed.

End Restore.

(** ** Round trip *)

Lemma backup_items_hold (rf : Z -> Z -> Z) (preset : MsrItems) :
  backup_holds (rf 0) (map (backup_item rf) preset).
Proof.
  intros it Hin. apply in_map_iff in Hin as (src & <- & _).
  split; reflexivity.
Qed.

Lemma GetCPUList_nonneg (h : Host) (c : Z) : In c (GetCPUList h) -> 0 <= c.
Proof.
  unfold GetCPUList. intros Hin.
  apply in_map_iff in Hin as (n & <- & _). lia.
Qed.

Lemma GetCPUList_has_zero (h : Host) (c : Z) :
  In c (GetCPUList h) -> In 0 (GetCPUList h).
Proof.
  unfold GetCPUList. destruct (GetNumCPUs h); [intros [] |].
  intros _. left. reflexivity.
Qed.

Lemma backup_ok_linux (h : Host) (d : Device) (preset : MsrItems) :
  is_empty preset = false ->
  forallb (backup_ok h d) preset = true ->
  linux h = true.
Proof.
  destruct preset as [| it rest]; [discriminate |].
  intros _ Hall. cbn [forallb] in Hall.
  apply andb_prop in Hall as [Hit _].
  unfold backup_ok, rdmsr_ok in Hit.
  destruct (linux h); [reflexivity | discriminate].
Qed.

(** The state [Init] leaves once the backup is complete, whether or not
    the broadcast then succeeds. *)
Lemma Init_past_backup (h : Host) (aff : list Z) (qos : bool) (st : Statics)
      (w : World) :
  Uninitialized st ->
  mod_unusable (detected_mod h) = false ->
  is_empty (preset_of (detected_mod h)) = false ->
  accessor_available h st (device w) = true ->
  forallb (backup_ok h (device w)) (preset_of (detected_mod h)) = true ->
  let r := RandomX_Msr.Init h aff qos (st, w) in
  exists msr,
    Msr.isAvailable msr = true
    /\ msr_instance (fst (snd r)) = Some msr
    /\ m_initialized (fst (snd r)) = true
    /\ m_enabled (fst (snd r)) = fst r
    /\ original_msrs (fst (snd r))
       = map (backup_item (regs w)) (preset_of (detected_mod h))
    /\ device (snd (snd r)) = device w.
Proof.
  intros Hun Hu He Hav Hall. cbv zeta. rewrite Init_eq. cbn [fst snd].
  rewrite Hun. cbv zeta. rewrite DetectMsrMod_result, Hu, He.
  set (p1 := (init_statics qos st,
              init_announce (detected_mod h) aff qos (snd (DetectMsrMod h w)))).
  pose proof (init_announce_log_only h aff qos w) as Hlo.
  assert (Hdev : device (snd p1) = device w) by apply Hlo.
  assert (Hrg : regs (snd p1) = regs w) by apply Hlo.
  assert (Hav1 : accessor_available h (fst p1) (device (snd p1)) = true)
    by (rewrite Hdev; exact Hav).
  destruct (ApplyMsrPreset_backup h (preset_of (detected_mod h)) aff qos p1 Hav1)
    as (pb & Hs & Hnw & Heq).
  rewrite Hdev, Hall in Hs, Heq. rewrite Hrg in Hs.
  rewrite Heq. cbn [fst snd].
  destruct (apply_broadcast_frame h (fst (Msr_get h p1))
              (preset_of (detected_mod h)) aff qos pb) as (Hfs & Hfd).
  exists (fst (Msr_get h p1)).
  rewrite Hfs, Hs.
  split; [rewrite Msr_get_available; exact Hav1 |].
  split; [reflexivity |]. split; [reflexivity |]. split; [reflexivity |].
  split; [reflexivity |].
  destruct (init_report_log_only (detected_mod h) aff qos
              (fst (apply_broadcast h (fst (Msr_get h p1))
                      (preset_of (detected_mod h)) aff qos pb))
              (snd (snd (apply_broadcast h (fst (Msr_get h p1))
                      (preset_of (detected_mod h)) aff qos pb)))) as (Hrd & _).
  rewrite Hrd, Hfd.
  destruct Hnw as (Hnd & _). congruence.
Qed.

(** What a [Destroy] that runs on a device without failures restores. *)
Lemma Destroy_restores (h : Host) (p : Proc) (m : Msr.t) (f : Z -> Z) :
  linux h = true ->
  m_initialized (fst p) = true ->
  msr_instance (fst p) = Some m ->
  Msr.isAvailable m = true ->
  is_empty (original_msrs (fst p)) = false ->
  backup_holds f (original_msrs (fst p)) ->
  all_reads_and_writes_succeed (device (snd p)) ->
  forall c it,
    In c (GetCPUList h) -> In it (original_msrs (fst p)) ->
    regs (snd (snd (RandomX_Msr.Destroy h p))) c (MsrItem.reg it)
    = f (MsrItem.reg it).
Proof.
  intros Hl Hi Hm Hav Hne Hf Hok c it Hc Hit.
  rewrite Destroy_eq, Hi, Hne. cbn [negb orb]. cbv zeta.
  assert (Hg : Msr_get h (fst p, add_log LogRestoring (snd p))
               = (m, (fst p, add_log LogRestoring (snd p)))).
  { unfold Msr_get. run_st. now rewrite Hm. }
  rewrite Hg. cbn [fst snd]. rewrite Hav. cbn [negb snd regs add_log].
  unfold Msr.write_each.
  destruct (restore_each_ok h m f Hl Hav (original_msrs (fst p)) (GetCPUList h)
              Hf (GetCPUList_nonneg h) (add_log LogRestoring (snd p)) Hok)
    as (_ & _ & Hset & _).
  apply Hset; assumption.
Qed.

Lemma round_trip_regs (h : Host) (aff : list Z) (qos : bool) (st : Statics)
      (w : World) (cpu : Z) (item : MsrItem.t) :
  Uninitialized st ->
  original_msrs st = [] ->
  all_reads_and_writes_succeed (device w) ->
  In cpu (GetCPUList h) ->
  In item (preset_of (detected_mod h)) ->
  regs (after_round_trip h aff qos st w) cpu (MsrItem.reg item)
  = if accessor_available h st (device w)
       && forallb (backup_ok h (device w)) (preset_of (detected_mod h))
    then regs w 0 (MsrItem.reg item)
    else regs w cpu (MsrItem.reg item).
Proof.
  intros Hun Hempty Hok Hcpu Hitem. unfold after_round_trip.
  destruct (In_preset_usable h item Hitem) as [Hu He].
  destruct (accessor_available h st (device w)) eqn:Hav; cbn [andb].
  - destruct (forallb (backup_ok h (device w)) (preset_of (detected_mod h)))
      eqn:Hall.
    + destruct (Init_past_backup h aff qos st w Hun Hu He Hav Hall)
        as (msr & Hmav & Hinst & Hinit & _ & Horig & Hdev).
      set (p1 := snd (RandomX_Msr.Init h aff qos (st, w))) in *.
      assert (Hne : is_empty (original_msrs (fst p1)) = false).
      { rewrite Horig. destruct (preset_of (detected_mod h));
          [discriminate | reflexivity]. }
      assert (Hholds : backup_holds (regs w 0) (original_msrs (fst p1)))
        by (rewrite Horig; apply backup_items_hold).
      assert (Hok1 : all_reads_and_writes_succeed (device (snd p1)))
        by (rewrite Hdev; exact Hok).
      assert (Hin : In (backup_item (regs w) item) (original_msrs (fst p1)))
        by (rewrite Horig; now apply in_map).
      exact (Destroy_restores h p1 msr (regs w 0)
               (backup_ok_linux h (device w) _ He Hall) Hinit Hinst Hmav Hne
               Hholds Hok1 cpu (backup_item (regs w) item) Hcpu Hin).
    + destruct (Init_backup_failure h aff qos st w Hun Hav Hu He Hall)
        as (_ & Ho & _ & _ & Hnw).
      rewrite Destroy_noop by (right; exact Ho).
      cbn [snd]. destruct Hnw as (_ & Hregs & _). now rewrite Hregs.
  - destruct (Init_unavailable h aff qos st w Hun Hu He Hav)
      as (_ & Ho & _ & _ & Hnw).
    rewrite Destroy_noop by (right; congruence).
    cbn [snd]. destruct Hnw as (_ & Hregs & _). now rewrite Hregs.
Qed.

Lemma Init_true_past_backup (h : Host) (aff : list Z) (qos : bool)
      (st : Statics) (w : World) :
  Uninitialized st ->
  original_msrs st = [] ->
  fst (RandomX_Msr.Init h aff qos (st, w)) = true ->
  accessor_available h st (device w)
  && forallb (backup_ok h (device w)) (preset_of (detected_mod h)) = true.
Proof.
  intros Hun Hempty Htrue.
  destruct (accessor_available h st (device w)) eqn:Hav; cbn [andb].
  - destruct (forallb (backup_ok h (device w)) (preset_of (detected_mod h)))
      eqn:Hall; [reflexivity |].
    destruct (Init_fails_before_broadcast h aff qos st w Hun Hempty)
      as (Hr & _); [right; right; exact Hall | congruence].
  - destruct (Init_fails_before_broadcast h aff qos st w Hun Hempty)
      as (Hr & _); [right; left; exact Hav | congruence].
Qed.

(** C7 (as the code has it): on a device where every read and write
    succeeds, [Init] followed by [Destroy], from an uninitialized
    controller, leaves a register touched by the preset (a preset register
    of a logical CPU of the broadcast) equal to its value before [Init]
    whenever that value was the one logical CPU 0 held in the same
    register: the backup is read once, from CPU 0, and replayed to every
    CPU.  So the preset registers of CPU 0 always come back, and where
    [Init] returned true every touched register ends with CPU 0's value
    from before [Init]. *)
Theorem Init_Destroy_round_trip (h : Host) (aff : list Z) (qos : bool)
        (st : Statics) (w : World) (cpu : Z) (item : MsrItem.t) :
  Uninitialized st ->
  original_msrs st = [] ->
  all_reads_and_writes_succeed (device w) ->
  In cpu (GetCPUList h) ->
  In item (preset_of (detected_mod h)) ->
  let final := after_round_trip h aff qos st w in
  (regs w cpu (MsrItem.reg item) = regs w 0 (MsrItem.reg item) ->
   regs final cpu (MsrItem.reg item) = regs w cpu (MsrItem.reg item))
  /\ regs final 0 (MsrItem.reg item) = regs w 0 (MsrItem.reg item)
  /\ (fst (RandomX_Msr.Init h aff qos (st, w)) = true ->
      regs final cpu (MsrItem.reg item) = regs w 0 (MsrItem.reg item)).
Proof.
  intros Hun Hempty Hok Hcpu Hitem. cbv zeta.
  pose proof (round_trip_regs h aff qos st w cpu item Hun Hempty Hok Hcpu Hitem)
    as Hcpu_regs.
  pose proof (round_trip_regs h aff qos st w 0 item Hun Hempty Hok
                (GetCPUList_has_zero h cpu Hcpu) Hitem) as Hzero_regs.
  split; [| split].
  - intros Hsame. rewrite Hcpu_regs.
    destruct (_ && _); [now rewrite Hsame | reflexivity].
  - rewrite Hzero_regs. destruct (_ && _); reflexivity.
  - intros Htrue. rewrite Hcpu_regs.
    now rewrite (Init_true_past_backup h aff qos st w Hun Hempty Htrue).
Qed.

Lemma Init_Destroy_round_trip_witness :
  let h := host_intel 2 in
  let w := fresh_world device_all_ok regs_zero in
  regs (after_round_trip h [0] true initial_statics w) 1 0x1a4 = 0
  /\ regs (snd (snd (RandomX_Msr.Init h [0] true (initial_statics, w)))) 1 0x1a4
     = 0xf.
Proof.
  cbv zeta. split; [| reflexivity].
  destruct (Init_Destroy_round_trip (host_intel 2) [0] true initial_statics
              (fresh_world device_all_ok regs_zero) 1 (MsrItem.make 0x1a4 0xf))
    as (Hsame & _).
  - reflexivity.
  - reflexivity.
  - repeat split.
  - right. left. reflexivity.
  - left. reflexivity.
  - apply Hsame. reflexivity.
Defined.

(** C7 (counterexample to the claim as stated): on a two-CPU Intel host
    where every device call succeeds, register 0x1a4 holds 0 on CPU 0 and 7
    on CPU 1.  [Init] backs up the 0 of CPU 0 and writes 0xf to both CPUs;
    [Destroy] writes the 0 to both CPUs, so that CPU 1 ends with 0, not with
    its 7. *)
Lemma round_trip_exact_counterexample :
  let h := host_intel 2 in
  let w := fresh_world device_all_ok regs_cpu1_differs in
  all_reads_and_writes_succeed (device w)
  /\ fst (RandomX_Msr.Init h [] false (initial_statics, w)) = true
  /\ In 1 (GetCPUList h)
  /\ In (MsrItem.make 0x1a4 0xf) (preset_of (detected_mod h))
  /\ regs w 1 0x1a4 = 7
  /\ regs (after_round_trip h [] false initial_statics w) 1 0x1a4 = 0
  /\ ~ round_trip_exact h [] false w.
Proof.
  cbv zeta. split; [repeat split |]. split; [reflexivity |].
  split; [right; left; reflexivity |]. split; [left; reflexivity |].
  split; [reflexivity |]. split; [reflexivity |].
  intros Hclaim.
  specialize (Hclaim 1 (MsrItem.make 0x1a4 0xf)).
  assert (Hfinal : regs (after_round_trip (host_intel 2) [] false initial_statics
                           (fresh_world device_all_ok regs_cpu1_differs))
                        1 0x1a4 = 0) by reflexivity.
  cbn [MsrItem.reg MsrItem.make MsrItem.m_reg] in Hclaim.
  rewrite Hfinal in Hclaim.
  assert (Hbad : 0 = 7); [| discriminate].
  apply Hclaim; [right; left; reflexivity | left; reflexivity].
Qed.

(** ** The backup set of an uninitialized controller is empty *)

Lemma Init_sets_initialized (h : Host) (aff : list Z) (qos : bool)
      (st : Statics) (w : World) :
  Uninitialized st ->
  m_initialized (fst (snd (RandomX_Msr.Init h aff qos (st, w)))) = true.
Proof.
  intros Hun.
  destruct (mod_unusable (detected_mod h)
            || is_empty (preset_of (detected_mod h))) eqn:Hno.
  - destruct (Init_no_preset h aff qos st w Hun Hno) as (_ & Hs & _).
    now rewrite Hs.
  - apply orb_false_elim in Hno as [Hu He].
    destruct (accessor_available h st (device w)) eqn:Hav.
    + destruct (forallb (backup_ok h (device w)) (preset_of (detected_mod h)))
        eqn:Hall.
      * destruct (Init_past_backup h aff qos st w Hun Hu He Hav Hall)
          as (msr & _ & _ & Hi & _). exact Hi.
      * apply (Init_backup_failure h aff qos st w Hun Hav Hu He Hall).
    + apply (Init_unavailable h aff qos st w Hun Hu He Hav).
Qed.

Lemma backup_invariant_Init (h : Host) (aff : list Z) (qos : bool) (p : Proc) :
  backup_invariant (fst p) ->
  backup_invariant (fst (snd (RandomX_Msr.Init h aff qos p))).
Proof.
  intros Hinv. destruct (m_initialized (fst p)) eqn:Hi.
  - now rewrite Init_initialized by exact Hi.
  - intros Hfalse. destruct p as [st w]. cbn [fst] in *.
    rewrite (Init_sets_initialized h aff qos st w Hi) in Hfalse. discriminate.
Qed.

Lemma backup_invariant_Destroy (h : Host) (p : Proc) :
  backup_invariant (fst p) ->
  backup_invariant (fst (snd (RandomX_Msr.Destroy h p))).
Proof.
  intros Hinv. rewrite Destroy_eq.
  destruct (negb (m_initialized (fst p)) || is_empty (original_msrs (fst p)));
    [exact Hinv |].
  cbv zeta. rewrite Msr_get_statics. cbn [fst snd].
  destruct (negb (Msr.isAvailable _)); cbn [fst snd].
  - exact Hinv.
  - intros _. reflexivity.
Qed.


(** * Further properties of the code *)

(** ** [Init] called again *)

Lemma Init_result_is_enabled (h : Host) (aff : list Z) (qos : bool) (p : Proc) :
  m_enabled (fst (snd (RandomX_Msr.Init h aff qos p)))
  = fst (RandomX_Msr.Init h aff qos p).
Proof.
  rewrite Init_eq.
  destruct (m_initialized (fst p)); [reflexivity |]. cbv zeta.
  destruct (mod_unusable _); [reflexivity |].
  destruct (is_empty _); reflexivity.
Qed.

Lemma Init_leaves_initialized (h : Host) (aff : list Z) (qos : bool) (p : Proc) :
  m_initialized (fst (snd (RandomX_Msr.Init h aff qos p))) = true.
Proof.
  destruct (m_initialized (fst p)) eqn:Hi.
  - now rewrite Init_initialized by exact Hi.
  - destruct p as [st w]. now apply Init_sets_initialized.
Qed.

(** X1: whatever the state [Init] is first called in, a second call, with
    any arguments and whatever the device would answer by then, returns the
    boolean the first call returned and changes neither the statics nor
    the world: no detection, no device call, no log line. *)
Theorem Init_twice_returns_first_result (h : Host) (aff aff' : list Z)
        (qos qos' : bool) (p : Proc) (w' : World) :
  RandomX_Msr.Init h aff' qos' (snd (RandomX_Msr.Init h aff qos p))
  = (fst (RandomX_Msr.Init h aff qos p), snd (RandomX_Msr.Init h aff qos p))
  /\ RandomX_Msr.Init h aff' qos'
       (fst (snd (RandomX_Msr.Init h aff qos p)), w')
     = (fst (RandomX_Msr.Init h aff qos p),
        (fst (snd (RandomX_Msr.Init h aff qos p)), w'))
  /\ fst (RandomX_Msr.IsEnabled (snd (RandomX_Msr.Init h aff qos p)))
     = fst (RandomX_Msr.Init h aff qos p).
Proof.
  split; [| split].
  - rewrite (Init_initialized h aff' qos') by apply Init_leaves_initialized.
    now rewrite Init_result_is_enabled.
  - rewrite (Init_initialized h aff' qos') by apply Init_leaves_initialized.
    cbn [fst]. now rewrite Init_result_is_enabled.
  - unfold RandomX_Msr.IsEnabled, ask. cbn [fst]. apply Init_result_is_enabled.
Qed.

(** ** [Init] on a CPU without preset *)

Lemma detected_mod_none (h : Host) :
  x86_64 h = false
  \/ DetectCPUVendor h = CPU_VENDOR_UNKNOWN
  \/ (DetectCPUVendor h = CPU_VENDOR_AMD /\ DetectAMDFamily h = AMD_UNKNOWN) ->
  detected_mod h = MSR_MOD_NONE.
Proof.
  unfold detected_mod. intros [Hx | [Hv | [Hv Hf]]].
  - unfold DetectCPUVendor. now rewrite Hx.
  - now rewrite Hv.
  - now rewrite Hv, Hf.
Qed.

(** X2: on a build that is not x86-64, on a CPU whose vendor string is
    neither "AuthenticAMD" nor "GenuineIntel", and on an AMD CPU whose
    family is neither 0x17 nor 0x19, [Init] on an uninitialized controller
    returns false and leaves the controller Disabled without touching the
    device at all: no device call is made (not even the access-enablement
    attempt, the accessor is not constructed), registers and backup set are
    as before. *)
Theorem Init_without_preset_touches_nothing (h : Host) (aff : list Z)
        (qos : bool) (st : Statics) (w : World) :
  Uninitialized st ->
  x86_64 h = false
  \/ DetectCPUVendor h = CPU_VENDOR_UNKNOWN
  \/ (DetectCPUVendor h = CPU_VENDOR_AMD /\ DetectAMDFamily h = AMD_UNKNOWN) ->
  let r := RandomX_Msr.Init h aff qos (st, w) in
  fst r = false
  /\ Disabled (fst (snd r))
  /\ msr_instance (fst (snd r)) = msr_instance st
  /\ original_msrs (fst (snd r)) = original_msrs st
  /\ trace (snd (snd r)) = trace w
  /\ regs (snd (snd r)) = regs w.
Proof.
  intros Hun Hcpu. cbv zeta.
  pose proof (detected_mod_none h Hcpu) as Hmod.
  destruct (Init_no_preset h aff qos st w Hun) as (Hr & Hs & Hlo).
  { now rewrite Hmod. }
  rewrite Hr, Hs. destruct Hlo as (_ & Hregs & Htrace).
  repeat split; assumption.
Qed.

Lemma Init_without_preset_touches_nothing_witness :
  let r := RandomX_Msr.Init (host_other_arch 4) [0; 1] true
             (initial_statics, fresh_world device_all_ok regs_five) in
  fst r = false
  /\ Disabled (fst (snd r))
  /\ msr_instance (fst (snd r)) = None
  /\ original_msrs (fst (snd r)) = []
  /\ trace (snd (snd r)) = []
  /\ regs (snd (snd r)) = regs_five.
Proof.
  apply (Init_without_preset_touches_nothing (host_other_arch 4) [0; 1] true
           initial_statics (fresh_world device_all_ok regs_five)).
  - reflexivity.
  - left. reflexivity.
Defined.

(** ** A negative logical-CPU id *)

Lemma opened_cpu_negative (cpu : Z) : cpu < 0 -> opened_cpu cpu = opened_cpu 0.
Proof.
  intros Hneg. unfold opened_cpu.
  destruct (Z.ltb_spec cpu 0); [reflexivity | lia].
Qed.

Lemma msr_open_negative (h : Host) (cpu : Z) (fl : OpenFlag) (w : World) :
  cpu < 0 -> Msr.msr_open h cpu fl w = Msr.msr_open h 0 fl w.
Proof.
  intros Hneg. destruct (linux h) eqn:Hl.
  - rewrite !msr_open_linux by exact Hl. now rewrite opened_cpu_negative.
  - unfold Msr.msr_open. now rewrite Hl.
Qed.

Lemma rdmsr_negative (h : Host) (reg cpu : Z) (w : World) :
  cpu < 0 -> Msr.rdmsr h reg cpu w = Msr.rdmsr h reg 0 w.
Proof.
  intros Hneg. unfold Msr.rdmsr. destruct (linux h); [| reflexivity].
  unfold bind. cbv beta zeta. now rewrite (msr_open_negative h cpu) by exact Hneg.
Qed.

Lemma wrmsr_negative (h : Host) (reg value cpu : Z) (w : World) :
  cpu < 0 -> Msr.wrmsr h reg value cpu w = Msr.wrmsr h reg value 0 w.
Proof.
  intros Hneg. unfold Msr.wrmsr. destruct (linux h); [| reflexivity].
  unfold bind. cbv beta zeta. now rewrite (msr_open_negative h cpu) by exact Hneg.
Qed.

(** X3: a negative logical-CPU id (the default [cpu = -1] of [read] and
    [write]) addresses logical CPU 0 and nothing else: reading or writing
    with a negative id does, and returns, exactly what the same call with
    id 0 does, also when the host reports no logical CPU at all.  In
    particular a write with [cpu = -1] reaches one CPU, not every CPU. *)
Theorem negative_cpu_is_cpu_zero (h : Host) (m : Msr.t) (reg value cpu mask : Z)
        (verbose : bool) (w : World) :
  cpu < 0 ->
  Msr.read h m reg cpu verbose w = Msr.read h m reg 0 verbose w
  /\ Msr.write h m reg value cpu mask verbose w
     = Msr.write h m reg value 0 mask verbose w
  /\ (forall c r, c <> 0 ->
        regs (snd (Msr.write h m reg value cpu mask verbose w)) c r
        = regs w c r).
Proof.
  intros Hneg.
  assert (Hwr : Msr.write h m reg value cpu mask verbose w
                = Msr.write h m reg value 0 mask verbose w).
  { unfold Msr.write. destruct (negb (Msr.isAvailable m)); [reflexivity |].
    destruct (negb (mask =? MsrItem.kNoMask)).
    - unfold bind. rewrite (rdmsr_negative h reg cpu w Hneg). cbv zeta.
      destruct (fst (Msr.rdmsr h reg 0 w)); [| reflexivity].
      destruct verbose; run_st; now rewrite wrmsr_negative.
    - now apply wrmsr_negative. }
  split; [| split].
  - unfold Msr.read, bind. now rewrite rdmsr_negative.
  - exact Hwr.
  - intros c r Hc. rewrite Hwr. unfold Msr.write.
    destruct (negb (Msr.isAvailable m)); [reflexivity |].
    assert (Hw0 : forall v w0,
               regs (snd (Msr.wrmsr h reg v 0 w0)) c r = regs w0 c r).
    { intros v w0. rewrite wrmsr_eq. cbv zeta.
      destruct (linux h); [| reflexivity].
      destruct (open_ok _ _ _); [| reflexivity].
      destruct (pwrite_ok _ _ _ _); [| reflexivity].
      cbn. destruct (Z.eqb_spec c 0); [contradiction | reflexivity]. }
    destruct (negb (mask =? MsrItem.kNoMask)); [| apply Hw0].
    unfold bind. cbv zeta.
    pose proof (rdmsr_no_write h reg 0 w) as (_ & Hregs & _).
    destruct (fst (Msr.rdmsr h reg 0 w)).
    + destruct verbose; run_st; rewrite Hw0; cbn; now rewrite Hregs.
    + destruct verbose; run_st; cbn; now rewrite Hregs.
Qed.

Lemma negative_cpu_is_cpu_zero_witness :
  let h := host_intel 2 in
  let w := fresh_world device_all_ok regs_zero in
  let w' := snd (Msr.write h (Msr.Build true) 0x1a4 0xf (-1) MsrItem.kNoMask
                           false w) in
  regs w' 1 0x1a4 = 0 /\ regs w' 0 0x1a4 = 0xf.
Proof.
  cbv zeta. split; [| reflexivity].
  destruct (negative_cpu_is_cpu_zero (host_intel 2) (Msr.Build true) 0x1a4 0xf
              (-1) MsrItem.kNoMask false
              (fresh_world device_all_ok regs_zero)) as (_ & _ & Hother).
  - lia.
  - rewrite Hother by discriminate. reflexivity.
Defined.

(** ** The accessor singleton *)

Lemma events_since_app (w : World) (l : list Event) (w' : World) :
  trace w' = trace w ++ l -> events_since w w' = l.
Proof.
  intros Ht. unfold events_since. rewrite Ht.
  rewrite skipn_app, skipn_all, Nat.sub_diag. reflexivity.
Qed.

(** X4: the accessor is built once.  The first [Msr::get()] writes "on" to
    the allow_writes parameter and runs the modprobe helper only when that
    write failed (on a build that is not Linux it does neither); the
    accessor is available exactly when one of the two succeeded.  Every
    later [Msr::get()] returns the same accessor, with the availability
    decided then, without any device call and whatever the operating
    system would answer now. *)
Theorem accessor_is_built_once (h : Host) (p : Proc) (w' : World) :
  Msr_get h (fst (snd (Msr_get h p)), w')
  = (fst (Msr_get h p), (fst (snd (Msr_get h p)), w'))
  /\ (msr_instance (fst p) = None ->
      events_since (snd p) (snd (snd (Msr_get h p)))
      = (if linux h
         then if allow_writes_ok (device (snd p))
              then [EvAllowWrites] else [EvAllowWrites; EvModprobe]
         else [])
      /\ Msr.isAvailable (fst (Msr_get h p))
         = linux h && (allow_writes_ok (device (snd p))
                       || modprobe_ok (device (snd p)))).
Proof.
  split.
  - unfold Msr_get at 1. run_st. rewrite Msr_get_statics. reflexivity.
  - intros Hnone. split.
    + unfold Msr_get. run_st. rewrite Hnone. cbn [fst snd].
      destruct p as [st [[o pr pw aw mp] rf tr lg]].
      cbn [snd device allow_writes_ok].
      unfold Msr.new, Msr.MsrPrivate_new, Msr.msr_allow_writes,
        Msr.msr_modprobe.
      destruct (linux h), aw, mp; apply events_since_app; cbn;
        rewrite <- ?app_assoc, ?app_nil_r; reflexivity.
    + rewrite Msr_get_available. unfold accessor_available. now rewrite Hnone.
Qed.

Lemma accessor_is_built_once_witness :
  let h := host_intel 1 in
  let p := (initial_statics, fresh_world device_no_enablement regs_zero) in
  events_since (snd p) (snd (snd (Msr_get h p))) = [EvAllowWrites; EvModprobe]
  /\ Msr.isAvailable (fst (Msr_get h p)) = false.
Proof.
  cbv zeta.
  destruct (accessor_is_built_once (host_intel 1)
              (initial_statics, fresh_world device_no_enablement regs_zero)
              (fresh_world device_all_ok regs_zero)) as (_ & Hfirst).
  destruct (Hfirst eq_refl) as (Hev & Hav).
  split; [exact Hev | exact Hav].
Defined.

(** ** Masked writes *)

Lemma wrmsr_result (h : Host) (reg value cpu : Z) (w : World) :
  fst (Msr.wrmsr h reg value cpu w) = wrmsr_ok h (device w) reg value cpu.
Proof.
  rewrite wrmsr_eq. unfold wrmsr_ok. cbv zeta.
  destruct (linux h); [| reflexivity].
  destruct (open_ok _ _ _); [| reflexivity].
  destruct (pwrite_ok _ _ _ _); reflexivity.
Qed.

Lemma wrmsr_regs (h : Host) (reg value cpu : Z) (w : World) (c r : Z) :
  regs (snd (Msr.wrmsr h reg value cpu w)) c r
  = if wrmsr_ok h (device w) reg value cpu
       && ((c =? opened_cpu cpu) && (r =? reg))
    then value else regs w c r.
Proof.
  rewrite wrmsr_eq. unfold wrmsr_ok. cbv zeta.
  destruct (linux h); [| reflexivity].
  destruct (open_ok _ _ _); [| reflexivity].
  destruct (pwrite_ok _ _ _ _); reflexivity.
Qed.

(** The value [write] hands to [wrmsr]. *)
Lemma Msr_write_regs (h : Host) (m : Msr.t) (reg value cpu mask : Z)
      (verbose : bool) (w : World) (c r : Z) :
  Msr.isAvailable m = true ->
  let merged := if mask =? MsrItem.kNoMask then value
                else MsrItem.maskedValue (regs w (opened_cpu cpu) reg) value mask in
  let ok := ((mask =? MsrItem.kNoMask) || rdmsr_ok h (device w) reg cpu)
            && wrmsr_ok h (device w) reg merged cpu in
  fst (Msr.write h m reg value cpu mask verbose w) = ok
  /\ regs (snd (Msr.write h m reg value cpu mask verbose w)) c r
     = if ok && ((c =? opened_cpu cpu) && (r =? reg)) then merged
       else regs w c r.
Proof.
  intros Hav. cbv zeta. unfold Msr.write. rewrite Hav. cbn [negb].
  destruct (mask =? MsrItem.kNoMask); cbn [negb orb andb].
  - rewrite wrmsr_result, wrmsr_regs. split; reflexivity.
  - unfold bind. cbv zeta. rewrite rdmsr_result.
    pose proof (rdmsr_no_write h reg cpu w) as (Hd & Hregs & _).
    destruct (rdmsr_ok h (device w) reg cpu); cbn [andb].
    + destruct verbose; run_st; cbn [device regs add_log];
        rewrite wrmsr_result, wrmsr_regs; cbn [device regs add_log];
        rewrite Hd, Hregs; split; reflexivity.
    + destruct verbose; run_st; cbn [regs add_log]; rewrite Hregs;
        split; reflexivity.
Qed.

(** X5: a masked write ([mask] other than all-ones) on an available
    accessor first reads the register.  When that read fails the write
    fails and no write is attempted: no device node is opened for writing
    and no register changes.  When the read and the write succeed, the
    register of the addressed CPU afterwards has, bit by bit, the bit of
    the new value where the mask is set and the bit it had before where the
    mask is clear, and no other register changes. *)
Theorem masked_write_semantics (h : Host) (m : Msr.t) (reg value cpu mask : Z)
        (verbose : bool) (w : World) :
  Msr.isAvailable m = true ->
  mask <> MsrItem.kNoMask ->
  let r := Msr.write h m reg value cpu mask verbose w in
  let old := regs w (opened_cpu cpu) reg in
  (rdmsr_ok h (device w) reg cpu = false ->
   fst r = false
   /\ regs (snd r) = regs w
   /\ writes_of (trace (snd r)) = writes_of (trace w))
  /\ (fst r = true ->
      is_u64 old ->
      (forall i, 0 <= i ->
         Z.testbit (regs (snd r) (opened_cpu cpu) reg) i
         = if Z.testbit mask i then Z.testbit value i else Z.testbit old i)
      /\ (forall c r', (c <> opened_cpu cpu \/ r' <> reg) ->
            regs (snd r) c r' = regs w c r')).
Proof.
  intros Hav Hmask. cbv zeta.
  assert (Hm : (mask =? MsrItem.kNoMask) = false) by now apply Z.eqb_neq.
  split.
  - intros Hrd. unfold Msr.write. rewrite Hav, Hm. cbn [negb].
    unfold bind. cbv zeta. rewrite rdmsr_result, Hrd.
    pose proof (rdmsr_no_write h reg cpu w) as (_ & Hregs & Htr).
    destruct verbose; run_st; cbn [regs trace add_log]; repeat split;
      assumption.
  - intros Htrue Hold.
    assert (Hpt : forall c r',
               regs (snd (Msr.write h m reg value cpu mask verbose w)) c r'
               = if (c =? opened_cpu cpu) && (r' =? reg)
                 then MsrItem.maskedValue (regs w (opened_cpu cpu) reg) value mask
                 else regs w c r').
    { intros c r'.
      destruct (Msr_write_regs h m reg value cpu mask verbose w c r' Hav)
        as (Hr & Hregs).
      rewrite Hm in Hr, Hregs. rewrite Htrue in Hr. rewrite <- Hr in Hregs.
      exact Hregs. }
    split.
    + intros i Hi. rewrite Hpt, !Z.eqb_refl. cbn [andb].
      now apply maskedValue_bits.
    + intros c r' Hother. rewrite Hpt.
      destruct (Z.eqb_spec c (opened_cpu cpu)); [| reflexivity].
      destruct (Z.eqb_spec r' reg); [| reflexivity].
      destruct Hother; contradiction.
Qed.

Lemma masked_write_semantics_witness :
  let h := host_intel 1 in
  let w := fresh_world device_all_ok (fun _ _ => 0x20) in
  let r := Msr.write h (Msr.Build true) 0xC0011021 0x40 0 (not64 0x20) false w in
  fst r = true
  /\ Z.testbit (regs (snd r) (opened_cpu 0) 0xC0011021) 5 = true
  /\ Z.testbit (regs (snd r) (opened_cpu 0) 0xC0011021) 6 = true
  /\ regs (snd r) 0 0xC0011022 = 0x20.
Proof.
  cbv zeta.
  destruct (masked_write_semantics (host_intel 1) (Msr.Build true) 0xC0011021
              0x40 0 (not64 0x20) false
              (fresh_world device_all_ok (fun _ _ => 0x20)))
    as (_ & Hok).
  - reflexivity.
  - discriminate.
  - destruct (Hok eq_refl) as (Hbits & Hother).
    + unfold is_u64, u64_mod. cbn. lia.
    + split; [reflexivity |]. split; [| split].
      * pose proof (Hbits 5 ltac:(lia)) as H5.
        vm_compute in H5 |- *. exact H5.
      * pose proof (Hbits 6 ltac:(lia)) as H6.
        vm_compute in H6 |- *. exact H6.
      * assert (Hreg : 0xC0011022 <> 0xC0011021) by discriminate.
        pose proof (Hother 0 0xC0011022 (or_intror Hreg)) as Ho.
        vm_compute in Ho |- *. exact Ho.
Defined.

(** ** Installing and removing the signal handlers *)

(** X6: on Linux, when both [sigaction] calls succeed,
    [SetupMainLoopExceptionFrame] installs the handler for SIGSEGV and
    SIGILL and marks the frame initialized, a second call (from any thread)
    then changes nothing, and [RemoveMainLoopExceptionFrame] puts both
    signals back to their default disposition and clears the mark; no
    thread-local is touched on the way. *)
Theorem Setup_then_Remove_restores_defaults (h : Host) (tid tid' : Z)
        (p : RandomX_Fix.FixProc) :
  linux h = true ->
  RandomX_Fix.fx_initialized p = false ->
  RandomX_Fix.sigaction_ok p RandomX_Fix.SIGSEGV = true ->
  RandomX_Fix.sigaction_ok p RandomX_Fix.SIGILL = true ->
  let p1 := snd (RandomX_Fix.SetupMainLoopExceptionFrame h tid p) in
  let p2 := snd (RandomX_Fix.RemoveMainLoopExceptionFrame h p1) in
  RandomX_Fix.fx_initialized p1 = true
  /\ (forall sig, RandomX_Fix.disposition p1 sig = RandomX_Fix.SA_MainLoopHandler)
  /\ RandomX_Fix.SetupMainLoopExceptionFrame h tid' p1 = (tt, p1)
  /\ RandomX_Fix.fx_initialized p2 = false
  /\ (forall sig, RandomX_Fix.disposition p2 sig = RandomX_Fix.SIG_DFL)
  /\ RandomX_Fix.tls p2 = RandomX_Fix.tls p.
Proof.
  intros Hl Hinit Hsegv Hill. cbv zeta.
  unfold RandomX_Fix.RemoveMainLoopExceptionFrame,
    RandomX_Fix.SetupMainLoopExceptionFrame, RandomX_Fix.sigaction,
    RandomX_Fix.signal_dfl.
  run_st. rewrite Hl, Hinit. cbn [fst snd]. rewrite Hsegv. cbn. rewrite Hill.
  cbn.
  repeat split; intros sig; destruct sig; reflexivity.
Qed.

Lemma Setup_then_Remove_restores_defaults_witness :
  let h := host_intel 1 in
  let p := RandomX_Fix.initial (fun _ => true) in
  let p1 := snd (RandomX_Fix.SetupMainLoopExceptionFrame h 0 p) in
  let p2 := snd (RandomX_Fix.RemoveMainLoopExceptionFrame h p1) in
  RandomX_Fix.fx_initialized p1 = true
  /\ RandomX_Fix.fx_initialized p2 = false
  /\ RandomX_Fix.disposition p2 RandomX_Fix.SIGSEGV = RandomX_Fix.SIG_DFL.
Proof.
  cbv zeta.
  destruct (Setup_then_Remove_restores_defaults (host_intel 1) 0 0
              (RandomX_Fix.initial (fun _ => true)))
    as (H1 & _ & _ & H2 & H3 & _); try reflexivity.
  split; [exact H1 |]. split; [exact H2 | apply H3].
Defined.

(** X7: on Linux, when [sigaction] succeeds for SIGSEGV and fails for
    SIGILL, [SetupMainLoopExceptionFrame] leaves the handler installed for
    SIGSEGV while the frame is not marked initialized.
    [RemoveMainLoopExceptionFrame] then returns at once, so the SIGSEGV
    handler stays installed; a SIGILL disposition is as it was. *)
Theorem Setup_partial_install_is_not_removed (h : Host) (tid : Z)
        (p : RandomX_Fix.FixProc) :
  linux h = true ->
  RandomX_Fix.fx_initialized p = false ->
  RandomX_Fix.sigaction_ok p RandomX_Fix.SIGSEGV = true ->
  RandomX_Fix.sigaction_ok p RandomX_Fix.SIGILL = false ->
  let p1 := snd (RandomX_Fix.SetupMainLoopExceptionFrame h tid p) in
  RandomX_Fix.fx_initialized p1 = false
  /\ RandomX_Fix.disposition p1 RandomX_Fix.SIGSEGV
     = RandomX_Fix.SA_MainLoopHandler
  /\ RandomX_Fix.disposition p1 RandomX_Fix.SIGILL
     = RandomX_Fix.disposition p RandomX_Fix.SIGILL
  /\ RandomX_Fix.RemoveMainLoopExceptionFrame h p1 = (tt, p1).
Proof.
  intros Hl Hinit Hsegv Hill. cbv zeta.
  unfold RandomX_Fix.RemoveMainLoopExceptionFrame,
    RandomX_Fix.SetupMainLoopExceptionFrame, RandomX_Fix.sigaction.
  run_st. rewrite Hl, Hinit. cbn [fst snd]. rewrite Hsegv. cbn. rewrite Hill.
  cbn. rewrite Hinit. repeat split.
Qed.

Lemma Setup_partial_install_is_not_removed_witness :
  let h := host_intel 1 in
  let p := RandomX_Fix.initial
             (fun s => RandomX_Fix.Signal_eqb s RandomX_Fix.SIGSEGV) in
  let p1 := snd (RandomX_Fix.SetupMainLoopExceptionFrame h 0 p) in
  RandomX_Fix.disposition p1 RandomX_Fix.SIGSEGV = RandomX_Fix.SA_MainLoopHandler
  /\ RandomX_Fix.RemoveMainLoopExceptionFrame h p1 = (tt, p1).
Proof.
  cbv zeta.
  destruct (Setup_partial_install_is_not_removed (host_intel 1) 0
              (RandomX_Fix.initial
                 (fun s => RandomX_Fix.Signal_eqb s RandomX_Fix.SIGSEGV)))
    as (_ & H1 & _ & H2); try reflexivity.
  split; [exact H1 | exact H2].
Defined.

(** ** [Destroy] after a failed apply *)

(** X8: when [Init] completed its backup and then failed in the broadcast
    (some write failed), the controller is Disabled but keeps the backup.
    A [Destroy] made when the device accepts every read and write then
    replays it: every preset register of every logical CPU of the host ends
    with the value logical CPU 0 held before [Init], and the controller is
    uninitialized with an empty backup. *)
Theorem Destroy_undoes_failed_apply (h : Host) (aff : list Z) (qos : bool)
        (st : Statics) (w : World) (d' : Device) (item : MsrItem.t) (cpu : Z) :
  Uninitialized st ->
  accessor_available h st (device w) = true ->
  forallb (backup_ok h (device w)) (preset_of (detected_mod h)) = true ->
  fst (RandomX_Msr.Init h aff qos (st, w)) = false ->
  all_reads_and_writes_succeed d' ->
  In item (preset_of (detected_mod h)) ->
  In cpu (GetCPUList h) ->
  let p1 := snd (RandomX_Msr.Init h aff qos (st, w)) in
  let p2 := snd (RandomX_Msr.Destroy h (fst p1, set_device d' (snd p1))) in
  Disabled (fst p1)
  /\ original_msrs (fst p1)
     = map (backup_item (regs w)) (preset_of (detected_mod h))
  /\ regs (snd p2) cpu (MsrItem.reg item) = regs w 0 (MsrItem.reg item)
  /\ Uninitialized (fst p2)
  /\ original_msrs (fst p2) = [].
Proof.
  intros Hun Hav Hall Hfail Hok Hitem Hcpu. cbv zeta.
  destruct (In_preset_usable h item Hitem) as [Hu He].
  destruct (Init_past_backup h aff qos st w Hun Hu He Hav Hall)
    as (msr & Hmav & Hinst & Hinit & Hen & Horig & _).
  set (p1 := snd (RandomX_Msr.Init h aff qos (st, w))) in *.
  set (p := (fst p1, set_device d' (snd p1))).
  assert (Hne : is_empty (original_msrs (fst p)) = false).
  { cbn [fst p]. rewrite Horig.
    destruct (preset_of (detected_mod h)); [discriminate | reflexivity]. }
  split; [split; [exact Hinit | congruence] |].
  split; [exact Horig |]. split; [| split].
  - assert (Hholds : backup_holds (regs w 0) (original_msrs (fst p)))
      by (cbn [fst p]; rewrite Horig; apply backup_items_hold).
    assert (Hin : In (backup_item (regs w) item) (original_msrs (fst p)))
      by (cbn [fst p]; rewrite Horig; now apply in_map).
    exact (Destroy_restores h p msr (regs w 0)
             (backup_ok_linux h (device w) _ He Hall) Hinit Hinst Hmav Hne
             Hholds Hok cpu (backup_item (regs w) item) Hcpu Hin).
  - rewrite Destroy_eq. cbn [fst p] in Hne |- *. rewrite Hinit, Hne.
    cbn [negb orb]. cbv zeta. rewrite Msr_get_available.
    unfold accessor_available. cbn [fst snd]. rewrite Hinst, Hmav.
    reflexivity.
  - rewrite Destroy_eq. cbn [fst p] in Hne |- *. rewrite Hinit, Hne.
    cbn [negb orb]. cbv zeta. rewrite Msr_get_available.
    unfold accessor_available. cbn [fst snd]. rewrite Hinst, Hmav.
    reflexivity.
Qed.

Lemma Destroy_undoes_failed_apply_witness :
  let h := host_intel 2 in
  let w := fresh_world device_cpu0_only regs_zero in
  let p1 := snd (RandomX_Msr.Init h [] false (initial_statics, w)) in
  let p2 := snd (RandomX_Msr.Destroy h (fst p1, set_device device_all_ok (snd p1))) in
  regs (snd p1) 0 0x1a4 = 0xf
  /\ regs (snd p2) 0 0x1a4 = 0
  /\ Uninitialized (fst p2).
Proof.
  cbv zeta.
  destruct (Destroy_undoes_failed_apply (host_intel 2) [] false initial_statics
              (fresh_world device_cpu0_only regs_zero) device_all_ok
              (MsrItem.make 0x1a4 0xf) 0)
    as (_ & _ & Hregs & Hun & _).
  - reflexivity.
  - reflexivity.
  - reflexivity.
  - vm_compute. reflexivity.
  - repeat split.
  - left. reflexivity.
  - left. reflexivity.
  - split; [vm_compute; reflexivity |]. split; [exact Hregs | exact Hun].
Defined.

(** ** What a broadcast without failures writes *)

Lemma opened_cpu_nonneg (c : Z) : 0 <= c -> opened_cpu c = c.
Proof.
  intros Hc. unfold opened_cpu. destruct (Z.ltb_spec c 0); [lia | reflexivity].
Qed.

Lemma Msr_write_all_ok (h : Host) (m : Msr.t) (reg value c mask : Z)
      (verbose : bool) (w : World) :
  linux h = true ->
  Msr.isAvailable m = true ->
  0 <= c ->
  all_reads_and_writes_succeed (device w) ->
  let r := Msr.write h m reg value c mask verbose w in
  fst r = true
  /\ device (snd r) = device w
  /\ (forall c' r',
         regs (snd r) c' r'
         = if c' =? c
           then upd (regs w c) reg
                    (written_value (regs w c reg)
                                   (MsrItem.make_masked reg value mask)) r'
           else regs w c' r').
Proof.
  intros Hl Hav Hc (Hopen & Hrd & Hwr). cbv zeta.
  assert (Hok : forall v,
             ((mask =? MsrItem.kNoMask) || rdmsr_ok h (device w) reg c)
             && wrmsr_ok h (device w) reg v c = true).
  { intros v. unfold rdmsr_ok, wrmsr_ok.
    rewrite Hl, !Hopen, Hrd, Hwr. cbn [andb]. now rewrite orb_true_r. }
  split; [| split].
  - destruct (Msr_write_regs h m reg value c mask verbose w 0 0 Hav) as (Hr & _).
    rewrite Hr. apply Hok.
  - apply Msr_write_device.
  - intros c' r'.
    destruct (Msr_write_regs h m reg value c mask verbose w c' r' Hav)
      as (_ & Hregs).
    rewrite Hregs, Hok, (opened_cpu_nonneg c Hc). cbn [andb].
    unfold upd, written_value. cbn [MsrItem.mask MsrItem.value
      MsrItem.make_masked MsrItem.m_mask MsrItem.m_value].
    destruct (Z.eqb_spec c' c) as [-> | Hne]; cbn [andb]; [| reflexivity].
    destruct (r' =? reg); reflexivity.
Qed.

Lemma apply_items_row_ext (preset : MsrItems) :
  forall row1 row2 : Z -> Z,
    (forall r, row1 r = row2 r) ->
    forall r, apply_items_row preset row1 r = apply_items_row preset row2 r.
Proof.
  unfold apply_items_row.
  induction preset as [| it rest IH]; intros row1 row2 Hext r; [apply Hext |].
  cbn [fold_left]. apply IH. intros r0. unfold upd.
  rewrite (Hext (MsrItem.reg it)). destruct (r0 =? MsrItem.reg it);
    [reflexivity | apply Hext].
Qed.

Lemma all_st_cons_true {S A : Type} (f : A -> St S bool) (x : A) (l : list A)
      (s : S) :
  fst (f x s) = true -> all_st f (x :: l) s = all_st f l (snd (f x s)).
Proof. intros Hx. cbn [all_st]. unfold bind. cbv zeta. now rewrite Hx. Qed.

Lemma write_items_all_ok (h : Host) (m : Msr.t) (c : Z) (preset : MsrItems) :
  linux h = true ->
  Msr.isAvailable m = true ->
  0 <= c ->
  forall w,
    all_reads_and_writes_succeed (device w) ->
    let r := all_st (fun item => Msr.write_item h m item c false) preset w in
    fst r = true
    /\ device (snd r) = device w
    /\ (forall c' r',
           regs (snd r) c' r'
           = if c' =? c then apply_items_row preset (regs w c) r'
             else regs w c' r').
Proof.
  intros Hl Hav Hc.
  induction preset as [| it rest IH]; intros w Hok; cbv zeta.
  - cbn. repeat split. intros c' r'.
    destruct (Z.eqb_spec c' c) as [-> | Hne]; reflexivity.
  - destruct (Msr_write_all_ok h m (MsrItem.reg it) (MsrItem.value it) c
                (MsrItem.mask it) false w Hl Hav Hc Hok) as (Hr & Hd & Hregs).
    rewrite all_st_cons_true by exact Hr.
    change (Msr.write_item h m it c false w)
      with (Msr.write h m (MsrItem.reg it) (MsrItem.value it) c
                      (MsrItem.mask it) false w).
    set (w1 := snd (Msr.write h m (MsrItem.reg it) (MsrItem.value it) c
                      (MsrItem.mask it) false w)) in *.
    assert (Hok1 : all_reads_and_writes_succeed (device w1))
      by (rewrite Hd; exact Hok).
    destruct (IH w1 Hok1) as (Hr2 & Hd2 & Hregs2).
    split; [exact Hr2 |]. split; [congruence |].
    intros c' r'. rewrite Hregs2.
    destruct (c' =? c) eqn:He.
    + unfold apply_items_row at 2. cbn [fold_left].
      apply apply_items_row_ext. intros r0.
      rewrite Hregs, Z.eqb_refl. reflexivity.
    + rewrite Hregs, He. reflexivity.
Qed.

Lemma apply_cache_qos_all_ok (h : Host) (m : Msr.t) (aff : list Z) (c : Z)
      (w : World) :
  linux h = true ->
  Msr.isAvailable m = true ->
  0 <= c ->
  all_reads_and_writes_succeed (device w) ->
  let r := apply_cache_qos h m aff c w in
  fst r = true
  /\ (forall c' r',
         regs (snd r) c' r'
         = if c' =? c then qos_row (existsb (Z.eqb c) aff) (regs w c) r'
           else regs w c' r').
Proof.
  intros Hl Hav Hc Hok. cbv zeta. unfold apply_cache_qos, qos_row.
  destruct (existsb (Z.eqb c) aff).
  - destruct (Msr_write_all_ok h m 0xC8F 0 c MsrItem.kNoMask false w
                Hl Hav Hc Hok) as (Hr & _ & Hregs).
    unfold bind. cbv zeta. rewrite Hr. cbn [negb fst snd ret].
    split; [reflexivity | exact Hregs].
  - destruct (Msr_write_all_ok h m 0xC91 0 c MsrItem.kNoMask false w
                Hl Hav Hc Hok) as (Hr0 & Hd0 & Hregs0).
    set (w1 := snd (Msr.write h m 0xC91 0 c MsrItem.kNoMask false w)) in *.
    assert (Hok1 : all_reads_and_writes_succeed (device w1))
      by (rewrite Hd0; exact Hok).
    destruct (Msr_write_all_ok h m 0xC8F one_shl_32 c MsrItem.kNoMask false w1
                Hl Hav Hc Hok1) as (Hr1 & _ & Hregs1).
    unfold bind, ret. cbv zeta. rewrite Hr0. cbn [negb fst snd].
    fold w1. rewrite Hr1. cbn [negb fst snd].
    split; [reflexivity |].
    intros c' r'. rewrite Hregs1.
    destruct (Z.eqb_spec c' c) as [-> | Hne].
    + unfold upd. rewrite !Hregs0, !Z.eqb_refl. unfold upd. reflexivity.
    + rewrite Hregs0. destruct (Z.eqb_spec c' c); [contradiction | reflexivity].
Qed.

Lemma apply_callback_all_ok (h : Host) (m : Msr.t) (preset : MsrItems)
      (aff : list Z) (qos disabled : bool) (c : Z) (w : World) :
  linux h = true ->
  Msr.isAvailable m = true ->
  0 <= c ->
  all_reads_and_writes_succeed (device w) ->
  let r := apply_callback h m preset aff qos disabled c w in
  fst r = true
  /\ device (snd r) = device w
  /\ (forall c' r',
         regs (snd r) c' r'
         = if c' =? c
           then tuned_row preset aff (qos && negb disabled) c (regs w c) r'
           else regs w c' r').
Proof.
  intros Hl Hav Hc Hok. cbv zeta.
  split; [| split; [apply apply_callback_device |]].
  - unfold apply_callback, bind. cbv zeta.
    destruct (write_items_all_ok h m c preset Hl Hav Hc w Hok) as (Hr & Hd & _).
    rewrite Hr. cbn [negb].
    destruct (qos && negb disabled); [| reflexivity].
    apply apply_cache_qos_all_ok; try assumption. now rewrite Hd.
  - intros c' r'. unfold apply_callback, bind, tuned_row. cbv zeta.
    destruct (write_items_all_ok h m c preset Hl Hav Hc w Hok)
      as (Hr & Hd & Hregs).
    rewrite Hr. cbn [negb].
    destruct (qos && negb disabled); [| apply Hregs].
    set (w1 := snd (all_st (fun item => Msr.write_item h m item c false)
                           preset w)) in *.
    assert (Hok1 : all_reads_and_writes_succeed (device w1))
      by (rewrite Hd; exact Hok).
    destruct (apply_cache_qos_all_ok h m aff c w1 Hl Hav Hc Hok1) as (_ & Hq).
    rewrite Hq. destruct (Z.eqb_spec c' c) as [-> | Hne].
    + unfold qos_row. destruct (existsb (Z.eqb c) aff); unfold upd;
        rewrite !Hregs, !Z.eqb_refl; reflexivity.
    + rewrite Hregs. destruct (Z.eqb_spec c' c); [contradiction | reflexivity].
Qed.

Lemma tuned_row_ext (preset : MsrItems) (aff : list Z) (active : bool) (c : Z)
      (row1 row2 : Z -> Z) :
  (forall r, row1 r = row2 r) ->
  forall r, tuned_row preset aff active c row1 r
            = tuned_row preset aff active c row2 r.
Proof.
  intros Hext r. unfold tuned_row. cbv zeta.
  pose proof (apply_items_row_ext preset row1 row2 Hext) as Hrow.
  destruct active; [| apply Hrow].
  unfold qos_row, upd. destruct (existsb (Z.eqb c) aff); rewrite !Hrow;
    reflexivity.
Qed.

Lemma broadcast_all_ok (h : Host) (m : Msr.t) (preset : MsrItems)
      (aff : list Z) (qos disabled : bool) (cpus : list Z) :
  linux h = true ->
  Msr.isAvailable m = true ->
  (forall c, In c cpus -> 0 <= c) ->
  NoDup cpus ->
  forall w,
    all_reads_and_writes_succeed (device w) ->
    let r := all_st (apply_callback h m preset aff qos disabled) cpus w in
    fst r = true
    /\ (forall c r',
           regs (snd r) c r'
           = if existsb (Z.eqb c) cpus
             then tuned_row preset aff (qos && negb disabled) c (regs w c) r'
             else regs w c r').
Proof.
  intros Hl Hav. induction cpus as [| c0 cpus IH]; intros Hpos Hnd w Hok;
    cbv zeta.
  - cbn. split; reflexivity.
  - destruct (apply_callback_all_ok h m preset aff qos disabled c0 w Hl Hav
                (Hpos c0 (or_introl eq_refl)) Hok) as (Hr & Hd & Hregs).
    rewrite all_st_cons_true by exact Hr.
    set (w1 := snd (apply_callback h m preset aff qos disabled c0 w)) in *.
    assert (Hok1 : all_reads_and_writes_succeed (device w1))
      by (rewrite Hd; exact Hok).
    inversion Hnd as [| x l Hnotin Hnd' ]; subst.
    destruct (IH (fun x Hx => Hpos x (or_intror Hx)) Hnd' w1 Hok1)
      as (Hr2 & Hregs2).
    split; [exact Hr2 |].
    intros c r'. rewrite Hregs2. cbn [existsb].
    destruct (existsb (Z.eqb c) cpus) eqn:Hin.
    + rewrite orb_true_r.
      apply tuned_row_ext. intros r0. rewrite Hregs.
      destruct (Z.eqb_spec c c0) as [-> | Hne]; [| reflexivity].
      exfalso. apply Hnotin.
      apply existsb_exists in Hin as (x & Hx & Heq).
      apply Z.eqb_eq in Heq. now subst.
    + rewrite orb_false_r. rewrite Hregs.
      destruct (Z.eqb_spec c c0) as [-> | Hne]; reflexivity.
Qed.

Lemma Init_runs_broadcast (h : Host) (aff : list Z) (qos : bool) (st : Statics)
      (w : World) :
  Uninitialized st ->
  mod_unusable (detected_mod h) = false ->
  is_empty (preset_of (detected_mod h)) = false ->
  accessor_available h st (device w) = true ->
  forallb (backup_ok h (device w)) (preset_of (detected_mod h)) = true ->
  exists (msr : Msr.t) (pb : Proc),
    Msr.isAvailable msr = true
    /\ no_write w (snd pb)
    /\ fst (RandomX_Msr.Init h aff qos (st, w))
       = fst (apply_broadcast h msr (preset_of (detected_mod h)) aff qos pb)
    /\ log_only
         (snd (snd (apply_broadcast h msr (preset_of (detected_mod h)) aff qos pb)))
         (snd (snd (RandomX_Msr.Init h aff qos (st, w)))).
Proof.
  intros Hun Hu He Hav Hall. rewrite Init_eq. cbn [fst snd].
  rewrite Hun. cbv zeta. rewrite DetectMsrMod_result, Hu, He.
  set (p1 := (init_statics qos st,
              init_announce (detected_mod h) aff qos (snd (DetectMsrMod h w)))).
  pose proof (init_announce_log_only h aff qos w) as Hlo.
  assert (Hdev : device (snd p1) = device w) by apply Hlo.
  assert (Hav1 : accessor_available h (fst p1) (device (snd p1)) = true)
    by (rewrite Hdev; exact Hav).
  destruct (ApplyMsrPreset_backup h (preset_of (detected_mod h)) aff qos p1 Hav1)
    as (pb & _ & Hnw & Heq).
  rewrite Hdev, Hall in Heq. rewrite Heq. cbn [fst snd].
  exists (fst (Msr_get h p1)), pb.
  split; [rewrite Msr_get_available; exact Hav1 |].
  split; [eapply no_write_trans; [apply log_only_no_write, Hlo | exact Hnw] |].
  split; [reflexivity |]. apply init_report_log_only.
Qed.

Lemma GetCPUList_NoDup (h : Host) : NoDup (GetCPUList h).
Proof.
  unfold GetCPUList. generalize (GetNumCPUs h) as n. generalize 0%nat as a.
  intros a n. revert a. induction n as [| n IH]; intros a; cbn [seq map].
  - constructor.
  - constructor; [| apply IH].
    intros Hin. apply in_map_iff in Hin as (x & Heq & Hx).
    apply in_seq in Hx. apply Nat2Z.inj in Heq. lia.
Qed.

Lemma callback_flag_is_qos_active (h : Host) (aff : list Z) (qos : bool) :
  (if qos && negb (is_empty aff) && negb (HasCatL3 h) then false else qos)
  && negb (is_empty aff)
  = qos_active h aff qos.
Proof.
  unfold qos_active. destruct qos, (is_empty aff), (HasCatL3 h); reflexivity.
Qed.

Lemma apply_broadcast_all_ok (h : Host) (m : Msr.t) (preset : MsrItems)
      (aff : list Z) (qos : bool) (p : Proc) :
  linux h = true ->
  Msr.isAvailable m = true ->
  all_reads_and_writes_succeed (device (snd p)) ->
  let r := apply_broadcast h m preset aff qos p in
  fst r = true
  /\ (forall c r',
         regs (snd (snd r)) c r'
         = if existsb (Z.eqb c) (GetCPUList h)
           then tuned_row preset aff (qos_active h aff qos) c (regs (snd p) c) r'
           else regs (snd p) c r').
Proof.
  intros Hl Hav Hok. cbv zeta.
  rewrite <- callback_flag_is_qos_active.
  unfold apply_broadcast, Msr.write_each. run_st. cbv zeta.
  destruct (qos && negb (is_empty aff) && negb (HasCatL3 h)); cbn [fst snd].
  - apply (broadcast_all_ok h m preset aff false (is_empty aff) (GetCPUList h)
             Hl Hav (GetCPUList_nonneg h) (GetCPUList_NoDup h)
             (add_log LogNoCatL3 (snd p)) Hok).
  - apply (broadcast_all_ok h m preset aff qos (is_empty aff) (GetCPUList h)
             Hl Hav (GetCPUList_nonneg h) (GetCPUList_NoDup h) (snd p) Hok).
Qed.

Lemma preset_regs_valid (md : MsrMod) :
  forallb (fun it => 0 <? MsrItem.reg it) (preset_of md) = true.
Proof. destruct md; reflexivity. Qed.

Lemma preset_regs_distinct (md : MsrMod) : regs_distinct (preset_of md) = true.
Proof. destruct md; reflexivity. Qed.

Lemma preset_names_no_qos_reg (md : MsrMod) :
  names_reg (preset_of md) 0xC8F = false
  /\ names_reg (preset_of md) 0xC91 = false.
Proof. destruct md; split; reflexivity. Qed.

Lemma backup_ok_all (h : Host) (d : Device) (md : MsrMod) :
  linux h = true ->
  all_reads_and_writes_succeed d ->
  forallb (backup_ok h d) (preset_of md) = true.
Proof.
  intros Hl (Hopen & Hrd & _).
  pose proof (preset_regs_valid md) as Hvalid.
  rewrite forallb_forall in Hvalid |- *. intros it Hin.
  unfold backup_ok, rdmsr_ok. rewrite Hl, Hopen, Hrd. cbn [andb].
  now apply Hvalid.
Qed.

(** The whole effect of an [Init] on which nothing fails. *)
Lemma Init_all_ok (h : Host) (aff : list Z) (qos : bool) (st : Statics)
      (w : World) :
  Uninitialized st ->
  linux h = true ->
  accessor_available h st (device w) = true ->
  all_reads_and_writes_succeed (device w) ->
  mod_unusable (detected_mod h) = false ->
  is_empty (preset_of (detected_mod h)) = false ->
  let r := RandomX_Msr.Init h aff qos (st, w) in
  fst r = true
  /\ (forall c r',
         regs (snd (snd r)) c r'
         = if existsb (Z.eqb c) (GetCPUList h)
           then tuned_row (preset_of (detected_mod h)) aff (qos_active h aff qos)
                          c (regs w c) r'
           else regs w c r').
Proof.
  intros Hun Hl Hav Hok Hu He. cbv zeta.
  destruct (Init_runs_broadcast h aff qos st w Hun Hu He Hav
              (backup_ok_all h (device w) (detected_mod h) Hl Hok))
    as (msr & pb & Hmav & Hnw & Hres & Hlo).
  destruct Hnw as (Hd & Hregs & _).
  assert (Hokb : all_reads_and_writes_succeed (device (snd pb)))
    by (rewrite Hd; exact Hok).
  destruct (apply_broadcast_all_ok h msr (preset_of (detected_mod h)) aff qos pb
              Hl Hmav Hokb) as (Hb & Hbregs).
  split; [congruence |].
  intros c r'. destruct Hlo as (_ & Hlregs & _).
  rewrite Hlregs, Hbregs, Hregs. reflexivity.
Qed.

Lemma apply_items_row_other (preset : MsrItems) (r : Z) :
  names_reg preset r = false ->
  forall row, apply_items_row preset row r = row r.
Proof.
  unfold apply_items_row, names_reg.
  induction preset as [| it rest IH]; intros Hno row; [reflexivity |].
  cbn [existsb] in Hno. apply orb_false_elim in Hno as [Hit Hrest].
  cbn [fold_left]. rewrite IH by exact Hrest.
  unfold upd. now rewrite Z.eqb_sym, Hit.
Qed.

Lemma apply_items_row_at (preset : MsrItems) (it : MsrItem.t) :
  regs_distinct preset = true ->
  In it preset ->
  forall row,
    apply_items_row preset row (MsrItem.reg it)
    = written_value (row (MsrItem.reg it)) it.
Proof.
  induction preset as [| it0 rest IH]; intros Hdist Hin row; [contradiction |].
  cbn [regs_distinct] in Hdist. apply andb_prop in Hdist as [Hfresh Hdist].
  apply negb_true_iff in Hfresh.
  unfold apply_items_row. cbn [fold_left].
  fold (apply_items_row rest
          (upd row (MsrItem.reg it0)
               (written_value (row (MsrItem.reg it0)) it0))).
  destruct Hin as [<- | Hin].
  - rewrite apply_items_row_other by exact Hfresh.
    unfold upd. now rewrite Z.eqb_refl.
  - rewrite IH by assumption. unfold upd.
    assert (Hne : (MsrItem.reg it =? MsrItem.reg it0) = false).
    { destruct (MsrItem.reg it =? MsrItem.reg it0) eqn:He; [| reflexivity].
      assert (Hex : existsb (fun it' => MsrItem.reg it' =? MsrItem.reg it0) rest
                    = true)
        by (apply existsb_exists; exists it; split; assumption).
      congruence. }
    now rewrite Hne.
Qed.

Lemma existsb_eqb_In (c : Z) (l : list Z) :
  existsb (Z.eqb c) l = true <-> In c l.
Proof.
  rewrite existsb_exists. split.
  - intros (x & Hx & Heq). apply Z.eqb_eq in Heq. now subst.
  - intros Hin. exists c. split; [exact Hin | apply Z.eqb_refl].
Qed.

(** X9: on Linux with an available accessor and a device on which every
    read and write succeeds, [Init] on an uninitialized controller of a CPU
    with a preset returns true and leaves the controller Enabled, with the
    values of logical CPU 0 as backup.  Every preset register of every
    logical CPU of the host then holds the preset value, merged under the
    item's mask with what that same CPU held before where the item is
    masked; the registers of a CPU outside the host's list are as before. *)
Theorem Init_applies_preset_on_working_device (h : Host) (aff : list Z)
        (qos : bool) (st : Statics) (w : World) (cpu : Z) (item : MsrItem.t) :
  Uninitialized st ->
  linux h = true ->
  accessor_available h st (device w) = true ->
  all_reads_and_writes_succeed (device w) ->
  In cpu (GetCPUList h) ->
  In item (preset_of (detected_mod h)) ->
  let r := RandomX_Msr.Init h aff qos (st, w) in
  fst r = true
  /\ Enabled (fst (snd r))
  /\ original_msrs (fst (snd r))
     = map (backup_item (regs w)) (preset_of (detected_mod h))
  /\ regs (snd (snd r)) cpu (MsrItem.reg item)
     = written_value (regs w cpu (MsrItem.reg item)) item
  /\ (forall c r', ~ In c (GetCPUList h) ->
        regs (snd (snd r)) c r' = regs w c r').
Proof.
  intros Hun Hl Hav Hok Hcpu Hitem. cbv zeta.
  destruct (In_preset_usable h item Hitem) as [Hu He].
  destruct (Init_all_ok h aff qos st w Hun Hl Hav Hok Hu He) as (Hr & Hregs).
  destruct (Init_past_backup h aff qos st w Hun Hu He Hav
              (backup_ok_all h (device w) (detected_mod h) Hl Hok))
    as (msr & _ & _ & Hinit & Hen & Horig & _).
  split; [exact Hr |]. split; [split; [exact Hinit | congruence] |].
  split; [exact Horig |]. split.
  - rewrite Hregs. rewrite (proj2 (existsb_eqb_In cpu (GetCPUList h)) Hcpu).
    unfold tuned_row. cbv zeta.
    assert (Hrow : apply_items_row (preset_of (detected_mod h)) (regs w cpu)
                     (MsrItem.reg item)
                   = written_value (regs w cpu (MsrItem.reg item)) item)
      by (apply apply_items_row_at;
          [apply preset_regs_distinct | exact Hitem]).
    destruct (qos_active h aff qos); [| exact Hrow].
    destruct (preset_names_no_qos_reg (detected_mod h)) as [H8f H91].
    assert (Hn8f : (MsrItem.reg item =? 0xC8F) = false).
    { destruct (MsrItem.reg item =? 0xC8F) eqn:He8; [| reflexivity].
      assert (Hex : names_reg (preset_of (detected_mod h)) 0xC8F = true)
        by (apply existsb_exists; exists item; split; assumption).
      congruence. }
    assert (Hn91 : (MsrItem.reg item =? 0xC91) = false).
    { destruct (MsrItem.reg item =? 0xC91) eqn:He9; [| reflexivity].
      assert (Hex : names_reg (preset_of (detected_mod h)) 0xC91 = true)
        by (apply existsb_exists; exists item; split; assumption).
      congruence. }
    unfold qos_row, upd. destruct (existsb (Z.eqb cpu) aff);
      rewrite ?Hn8f, ?Hn91; exact Hrow.
  - intros c r' Hout. rewrite Hregs.
    destruct (existsb (Z.eqb c) (GetCPUList h)) eqn:Hin; [| reflexivity].
    apply existsb_eqb_In in Hin. contradiction.
Qed.

Lemma Init_applies_preset_on_working_device_witness :
  let h := host_intel 2 in
  let r := RandomX_Msr.Init h [0] true
             (initial_statics, fresh_world device_all_ok regs_five) in
  fst r = true /\ regs (snd (snd r)) 1 0x1a4 = 0xf.
Proof.
  cbv zeta.
  destruct (Init_applies_preset_on_working_device (host_intel 2) [0] true
              initial_statics (fresh_world device_all_ok regs_five) 1
              (MsrItem.make 0x1a4 0xf))
    as (Hr & _ & _ & Hreg & _).
  - reflexivity.
  - reflexivity.
  - reflexivity.
  - repeat split.
  - right. left. reflexivity.
  - left. reflexivity.
  - split; [exact Hr | exact Hreg].
Defined.

(** X10: under the same conditions the cache QoS registers get their
    partition.  When cache QoS is requested, the affinity list is not empty
    and the CPU reports L3 cache allocation, a logical CPU named in the
    affinity list gets class of service 0 (register 0xC8F set to 0, register
    0xC91 untouched) and every other logical CPU gets an empty capacity
    mask (0xC91 set to 0) and class of service 1 (0xC8F set to 2^32).
    Otherwise neither register is written on any CPU. *)
Theorem Init_partitions_cache_qos (h : Host) (aff : list Z) (qos : bool)
        (st : Statics) (w : World) (cpu : Z) :
  Uninitialized st ->
  linux h = true ->
  accessor_available h st (device w) = true ->
  all_reads_and_writes_succeed (device w) ->
  mod_unusable (detected_mod h) = false ->
  is_empty (preset_of (detected_mod h)) = false ->
  In cpu (GetCPUList h) ->
  let w' := snd (snd (RandomX_Msr.Init h aff qos (st, w))) in
  (qos = true -> aff <> [] -> HasCatL3 h = true ->
   (In cpu aff ->
    regs w' cpu 0xC8F = 0 /\ regs w' cpu 0xC91 = regs w cpu 0xC91)
   /\ (~ In cpu aff ->
       regs w' cpu 0xC91 = 0 /\ regs w' cpu 0xC8F = 2 ^ 32))
  /\ (qos = false \/ aff = [] \/ HasCatL3 h = false ->
      regs w' cpu 0xC8F = regs w cpu 0xC8F
      /\ regs w' cpu 0xC91 = regs w cpu 0xC91).
Proof.
  intros Hun Hl Hav Hok Hu He Hcpu. cbv zeta.
  destruct (Init_all_ok h aff qos st w Hun Hl Hav Hok Hu He) as (_ & Hregs).
  destruct (preset_names_no_qos_reg (detected_mod h)) as [H8f H91].
  pose proof (apply_items_row_other _ 0xC8F H8f (regs w cpu)) as Hrow8f.
  pose proof (apply_items_row_other _ 0xC91 H91 (regs w cpu)) as Hrow91.
  rewrite !Hregs, (proj2 (existsb_eqb_In cpu (GetCPUList h)) Hcpu).
  unfold tuned_row. cbv zeta. split.
  - intros -> Haff Hcat.
    assert (Hact : qos_active h aff true = true).
    { unfold qos_active. rewrite Hcat. destruct aff; [contradiction | reflexivity]. }
    rewrite Hact. unfold qos_row. split.
    + intros Hin. rewrite (proj2 (existsb_eqb_In cpu aff) Hin).
      unfold upd. cbn. split; [reflexivity | exact Hrow91].
    + intros Hout.
      destruct (existsb (Z.eqb cpu) aff) eqn:Hex;
        [apply existsb_eqb_In in Hex; contradiction |].
      unfold upd. cbn. split; reflexivity.
  - intros Hoff.
    assert (Hact : qos_active h aff qos = false).
    { unfold qos_active. destruct Hoff as [-> | [-> | ->]].
      - reflexivity.
      - cbn. now rewrite andb_false_r.
      - apply andb_false_r. }
    rewrite Hact. split; assumption.
Qed.

Lemma Init_partitions_cache_qos_witness :
  let h := MkHost true true
             (fun leaf _ =>
                if leaf =? 0 then MkCpuid 0 0x756E6547 0x6C65746E 0x49656E69
                else MkCpuid 0 2 0 0) 4 in
  let w' := snd (snd (RandomX_Msr.Init h [0; 2] true
                        (initial_statics, fresh_world device_all_ok regs_five))) in
  (regs w' 2 0xC8F = 0 /\ regs w' 2 0xC91 = 5)
  /\ (regs w' 3 0xC91 = 0 /\ regs w' 3 0xC8F = 2 ^ 32).
Proof.
  cbv zeta.
  set (h := MkHost true true
              (fun leaf _ =>
                 if leaf =? 0 then MkCpuid 0 0x756E6547 0x6C65746E 0x49656E69
                 else MkCpuid 0 2 0 0) 4).
  assert (Hall : all_reads_and_writes_succeed device_all_ok) by (repeat split).
  assert (Haff : [0; 2] <> @nil Z) by discriminate.
  split.
  - destruct (Init_partitions_cache_qos h [0; 2] true initial_statics
                (fresh_world device_all_ok regs_five) 2
                eq_refl eq_refl eq_refl Hall eq_refl eq_refl
                (or_intror (or_intror (or_introl eq_refl)))) as (Hon & _).
    destruct (Hon eq_refl Haff eq_refl) as (Hin & _).
    apply Hin. right. left. reflexivity.
  - destruct (Init_partitions_cache_qos h [0; 2] true initial_statics
                (fresh_world device_all_ok regs_five) 3
                eq_refl eq_refl eq_refl Hall eq_refl eq_refl
                (or_intror (or_intror (or_intror (or_introl eq_refl)))))
      as (Hon & _).
    destruct (Hon eq_refl Haff eq_refl) as (_ & Hout).
    apply Hout. intros [H0 | [H2 | []]]; discriminate.
Defined.

(** ** A host that reports no logical CPU *)

(** X11: when [hardware_concurrency()] is 0 the broadcast has nothing to
    visit and reports success: with an available accessor and backup reads
    that succeed, [Init] returns true and leaves the controller Enabled
    although no register write was attempted and no register changed. *)
Theorem Init_with_no_logical_cpu_enables_without_writing (h : Host)
        (aff : list Z) (qos : bool) (st : Statics) (w : World) :
  hardware_concurrency h = 0%nat ->
  Uninitialized st ->
  accessor_available h st (device w) = true ->
  mod_unusable (detected_mod h) = false ->
  is_empty (preset_of (detected_mod h)) = false ->
  forallb (backup_ok h (device w)) (preset_of (detected_mod h)) = true ->
  let r := RandomX_Msr.Init h aff qos (st, w) in
  fst r = true
  /\ Enabled (fst (snd r))
  /\ regs (snd (snd r)) = regs w
  /\ writes_of (trace (snd (snd r))) = writes_of (trace w).
Proof.
  intros Hzero Hun Hav Hu He Hall. cbv zeta.
  destruct (Init_runs_broadcast h aff qos st w Hun Hu He Hav Hall)
    as (msr & pb & _ & Hnw & Hres & Hlo).
  assert (Hcpus : GetCPUList h = []).
  { unfold GetCPUList, GetNumCPUs. now rewrite Hzero. }
  assert (Hb : fst (apply_broadcast h msr (preset_of (detected_mod h)) aff qos pb)
               = true
               /\ log_only (snd pb)
                    (snd (snd (apply_broadcast h msr
                                 (preset_of (detected_mod h)) aff qos pb)))).
  { unfold apply_broadcast, Msr.write_each. rewrite Hcpus. run_st. cbv zeta.
    destruct (qos && negb (is_empty aff) && negb (HasCatL3 h)); cbn;
      repeat split. }
  destruct Hb as (Hbt & Hblo).
  assert (Hfinal : no_write w (snd (snd (RandomX_Msr.Init h aff qos (st, w))))).
  { eapply no_write_trans; [exact Hnw |].
    eapply no_write_trans; apply log_only_no_write; eassumption. }
  split; [congruence |]. split.
  - split; [apply Init_leaves_initialized |].
    rewrite Init_result_is_enabled. congruence.
  - split; apply Hfinal.
Qed.

Lemma Init_with_no_logical_cpu_enables_without_writing_witness :
  let r := RandomX_Msr.Init (host_intel 0) [] false
             (initial_statics, fresh_world device_all_ok regs_five) in
  fst r = true /\ regs (snd (snd r)) = regs_five
  /\ writes_of (trace (snd (snd r))) = [].
Proof.
  cbv zeta.
  destruct (Init_with_no_logical_cpu_enables_without_writing (host_intel 0) []
              false initial_statics (fresh_world device_all_ok regs_five))
    as (Hr & _ & Hregs & Htr); try reflexivity.
  split; [exact Hr |]. split; [exact Hregs | exact Htr].
Defined.

(** ** The capacity mask the hardware refuses *)

Lemma Msr_write_unmasked (h : Host) (m : Msr.t) (reg value c : Z) (w : World) :
  Msr.isAvailable m = true ->
  0 <= c ->
  fst (Msr.write h m reg value c MsrItem.kNoMask false w)
  = wrmsr_ok h (device w) reg value c
  /\ device (snd (Msr.write h m reg value c MsrItem.kNoMask false w)) = device w
  /\ (forall c' r',
         regs (snd (Msr.write h m reg value c MsrItem.kNoMask false w)) c' r'
         = if wrmsr_ok h (device w) reg value c && ((c' =? c) && (r' =? reg))
           then value else regs w c' r').
Proof.
  intros Hav Hc. split; [| split].
  - destruct (Msr_write_regs h m reg value c MsrItem.kNoMask false w 0 0 Hav)
      as (Hr & _). exact Hr.
  - apply Msr_write_device.
  - intros c' r'.
    destruct (Msr_write_regs h m reg value c MsrItem.kNoMask false w c' r' Hav)
      as (_ & Hregs).
    rewrite Hregs, (opened_cpu_nonneg c Hc). reflexivity.
Qed.

(** X12: for a logical CPU outside the affinity list the callback first
    tries the capacity mask 0 in register 0xC91.  When the device refuses
    that write and accepts the value 1 instead, and accepts the class
    assignment, the cache QoS step succeeds with 0xC91 = 1 and
    0xC8F = 2^32.  When the device refuses both 0 and 1, the step fails and
    the class-of-service register 0xC8F is not written. *)
Theorem cache_qos_retries_capacity_mask_one (h : Host) (m : Msr.t)
        (aff : list Z) (c : Z) (w : World) :
  Msr.isAvailable m = true ->
  0 <= c ->
  ~ In c aff ->
  wrmsr_ok h (device w) 0xC91 0 c = false ->
  let r := apply_cache_qos h m aff c w in
  (wrmsr_ok h (device w) 0xC91 1 c = true ->
   wrmsr_ok h (device w) 0xC8F (2 ^ 32) c = true ->
   fst r = true
   /\ regs (snd r) c 0xC91 = 1
   /\ regs (snd r) c 0xC8F = 2 ^ 32)
  /\ (wrmsr_ok h (device w) 0xC91 1 c = false ->
      fst r = false
      /\ regs (snd r) = regs w).
Proof.
  intros Hav Hc Hout Hzero. cbv zeta.
  assert (Hex : existsb (Z.eqb c) aff = false).
  { destruct (existsb (Z.eqb c) aff) eqn:He; [| reflexivity].
    apply existsb_eqb_In in He. contradiction. }
  unfold apply_cache_qos. rewrite Hex.
  destruct (Msr_write_unmasked h m 0xC91 0 c w Hav Hc) as (Hr0 & Hd0 & Hregs0).
  set (w0 := snd (Msr.write h m 0xC91 0 c MsrItem.kNoMask false w)) in *.
  destruct (Msr_write_unmasked h m 0xC91 1 c w0 Hav Hc) as (Hr1 & Hd1 & Hregs1).
  set (w1 := snd (Msr.write h m 0xC91 1 c MsrItem.kNoMask false w0)) in *.
  destruct (Msr_write_unmasked h m 0xC8F one_shl_32 c w1 Hav Hc)
    as (Hr2 & _ & Hregs2).
  rewrite Hd0 in Hr1, Hregs1. rewrite Hd1, Hd0 in Hr2, Hregs2.
  rewrite Hzero in Hr0, Hregs0.
  assert (Hw0 : forall c' r', regs w0 c' r' = regs w c' r')
    by (intros; now rewrite Hregs0).
  split.
  - intros Hone Hclass.
    change (2 ^ 32) with one_shl_32 in *.
    rewrite Hone in Hr1, Hregs1. rewrite Hclass in Hr2, Hregs2.
    unfold bind, ret. cbv zeta. rewrite Hr0. cbn [negb fst snd].
    fold w0. rewrite Hr1. cbn [negb fst snd]. fold w1. rewrite Hr2.
    cbn [negb fst snd].
    split; [reflexivity |]. split.
    + rewrite Hregs2, Hregs1, !Z.eqb_refl. reflexivity.
    + rewrite Hregs2, !Z.eqb_refl. reflexivity.
  - intros Hone. rewrite Hone in Hr1, Hregs1.
    unfold bind, ret. cbv zeta. rewrite Hr0. cbn [negb fst snd].
    fold w0. rewrite Hr1. cbn [negb fst snd]. fold w1.
    split; [reflexivity |].
    assert (Hw1 : regs w1 = regs w0).
    { unfold w1, Msr.write. rewrite Hav. cbn [negb].
      rewrite Z.eqb_refl. cbn [negb]. rewrite wrmsr_eq. cbv zeta.
      unfold wrmsr_ok in Hone. rewrite (opened_cpu_nonneg c Hc) in *.
      rewrite Hd0.
      destruct (linux h); [| reflexivity].
      destruct (open_ok (device w) c O_WRONLY); [| reflexivity].
      cbn [andb] in Hone. rewrite Hone. reflexivity. }
    assert (Hw0' : regs w0 = regs w).
    { unfold w0, Msr.write. rewrite Hav. cbn [negb].
      rewrite Z.eqb_refl. cbn [negb]. rewrite wrmsr_eq. cbv zeta.
      unfold wrmsr_ok in Hzero. rewrite (opened_cpu_nonneg c Hc) in *.
      destruct (linux h); [| reflexivity].
      destruct (open_ok (device w) c O_WRONLY); [| reflexivity].
      cbn [andb] in Hzero. rewrite Hzero. reflexivity. }
    congruence.
Qed.

Lemma cache_qos_retries_capacity_mask_one_witness :
  let r := apply_cache_qos (host_intel 2) (Msr.Build true) [0] 1
             (fresh_world device_rejects_zero_mask regs_five) in
  fst r = true /\ regs (snd r) 1 0xC91 = 1 /\ regs (snd r) 1 0xC8F = 2 ^ 32.
Proof.
  cbv zeta.
  destruct (cache_qos_retries_capacity_mask_one (host_intel 2) (Msr.Build true)
              [0] 1 (fresh_world device_rejects_zero_mask regs_five))
    as (Hretry & _).
  - reflexivity.
  - lia.
  - intros [H0 | []]. discriminate.
  - reflexivity.
  - apply Hretry; reflexivity.
Defined.

(** ** Vendor detection *)

Lemma le_bytes4_value (x : Z) :
  is_u32 x ->
  x = of_le_bytes4 (x mod 256) ((x / 2 ^ 8) mod 256) ((x / 2 ^ 16) mod 256)
                   ((x / 2 ^ 24) mod 256).
Proof.
  unfold is_u32, u32_mod, of_le_bytes4. intros Hx.
  change (2 ^ 16) with (2 ^ 8 * 2 ^ 8).
  change (2 ^ 24) with (2 ^ 8 * 2 ^ 8 * 2 ^ 8).
  rewrite <- !Z.div_div by lia.
  change (2 ^ 8) with 256.
  pose proof (Z.div_mod x 256 ltac:(lia)) as H0.
  pose proof (Z.div_mod (x / 256) 256 ltac:(lia)) as H1.
  pose proof (Z.div_mod (x / 256 / 256) 256 ltac:(lia)) as H2.
  assert (H3 : (x / 256 / 256 / 256) mod 256 = x / 256 / 256 / 256).
  { apply Z.mod_small. split.
    - repeat apply Z.div_pos; lia.
    - rewrite !Z.div_div by lia. apply Z.div_lt_upper_bound; lia. }
  lia.
Qed.

Lemma le_bytes4_inj (x y : Z) :
  is_u32 x -> is_u32 y -> le_bytes4 x = le_bytes4 y -> x = y.
Proof.
  intros Hx Hy Heq.
  set (back := fun l : list Z =>
                 match l with
                 | [a; b; c; d] => of_le_bytes4 a b c d
                 | _ => 0
                 end).
  assert (Hback : forall z, is_u32 z -> z = back (le_bytes4 z))
    by (intros z Hz; exact (le_bytes4_value z Hz)).
  rewrite (Hback x Hx), (Hback y Hy). now rewrite Heq.
Qed.

Lemma c_str_no_zero (s : list Z) :
  Forall (fun c => c <> 0) s -> forall t, c_str (s ++ 0 :: t) = s.
Proof.
  induction 1 as [| c s Hc _ IH]; intros t; cbn [c_str app].
  - reflexivity.
  - destruct (Z.eqb_spec c 0); [contradiction |]. now rewrite IH.
Qed.

(** Twelve bytes followed by NUL compare equal to a NUL-terminated string
    of twelve non-zero bytes exactly when they are those bytes. *)
Lemma c_str_eq_same_length (l s : list Z) (t : list Z) :
  Forall (fun c => c <> 0) s ->
  length l = length s ->
  c_str (l ++ [0]) = c_str (s ++ 0 :: t) <-> l = s.
Proof.
  intros Hs Hlen. rewrite (c_str_no_zero s Hs). split.
  - revert s Hs Hlen. induction l as [| c l IH]; intros s Hs Hlen Heq.
    + destruct s; [reflexivity | discriminate].
    + destruct s as [| c' s]; [discriminate |].
      cbn [c_str app] in Heq. destruct (c =? 0); [discriminate |].
      injection Heq as -> Heq. f_equal.
      apply IH; [now inversion Hs | now injection Hlen | exact Heq].
  - intros ->. apply (c_str_no_zero s Hs []).
Qed.

Lemma vendor_bytes_eq (ebx edx ecx b d c : Z) :
  is_u32 ebx -> is_u32 edx -> is_u32 ecx ->
  is_u32 b -> is_u32 d -> is_u32 c ->
  le_bytes4 ebx ++ le_bytes4 edx ++ le_bytes4 ecx
  = le_bytes4 b ++ le_bytes4 d ++ le_bytes4 c
  <-> ebx = b /\ edx = d /\ ecx = c.
Proof.
  intros Hb Hd Hc Hb' Hd' Hc'. split.
  - intros Heq.
    pose proof (f_equal (firstn 4) Heq) as H1.
    pose proof (f_equal (fun l => firstn 4 (skipn 4 l)) Heq) as H2.
    pose proof (f_equal (skipn 8) Heq) as H3.
    repeat split; apply le_bytes4_inj; assumption.
  - intros (-> & -> & ->). reflexivity.
Qed.

Lemma strcmp_eq_vendor (ebx edx ecx b d c : Z) (str : list Z) :
  is_u32 ebx -> is_u32 edx -> is_u32 ecx ->
  is_u32 b -> is_u32 d -> is_u32 c ->
  str = (le_bytes4 b ++ le_bytes4 d ++ le_bytes4 c) ++ [0] ->
  Forall (fun x => x <> 0) (le_bytes4 b ++ le_bytes4 d ++ le_bytes4 c) ->
  strcmp_eq (le_bytes4 ebx ++ le_bytes4 edx ++ le_bytes4 ecx ++ [0]) str = true
  <-> ebx = b /\ edx = d /\ ecx = c.
Proof.
  intros Hb Hd Hc Hb' Hd' Hc' -> Hnz.
  rewrite <- (vendor_bytes_eq ebx edx ecx b d c) by assumption.
  rewrite <- (c_str_eq_same_length
                (le_bytes4 ebx ++ le_bytes4 edx ++ le_bytes4 ecx)
                (le_bytes4 b ++ le_bytes4 d ++ le_bytes4 c) [] Hnz)
    by reflexivity.
  rewrite <- !app_assoc. unfold strcmp_eq.
  destruct (list_eq_dec Z.eq_dec _ _) as [Heq | Hne];
    split; intros H; congruence.
Qed.

(** X13: on an x86-64 build, with the registers of leaf 0 being 32-bit
    values, [DetectCPUVendor] answers AMD exactly when EBX, EDX, ECX hold
    the twelve characters "AuthenticAMD" in this order (EBX = 0x68747541,
    EDX = 0x69746E65, ECX = 0x444D4163), Intel exactly when they hold
    "GenuineIntel" (EBX = 0x756E6547, EDX = 0x49656E69, ECX = 0x6C65746E),
    and unknown in every other case. *)
Theorem DetectCPUVendor_spec (h : Host) :
  x86_64 h = true ->
  let r := cpuid h 0 0 in
  is_u32 (r_ebx r) -> is_u32 (r_edx r) -> is_u32 (r_ecx r) ->
  (DetectCPUVendor h = CPU_VENDOR_AMD
   <-> r_ebx r = 0x68747541 /\ r_edx r = 0x69746E65 /\ r_ecx r = 0x444D4163)
  /\ (DetectCPUVendor h = CPU_VENDOR_INTEL
      <-> r_ebx r = 0x756E6547 /\ r_edx r = 0x49656E69 /\ r_ecx r = 0x6C65746E).
Proof.
  intros Hx r Hb Hd Hc.
  assert (Hamd : strcmp_eq (le_bytes4 (r_ebx r) ++ le_bytes4 (r_edx r)
                            ++ le_bytes4 (r_ecx r) ++ [0]) str_AuthenticAMD
                 = true
                 <-> r_ebx r = 0x68747541 /\ r_edx r = 0x69746E65
                     /\ r_ecx r = 0x444D4163).
  { apply strcmp_eq_vendor; try assumption;
      try (unfold is_u32, u32_mod; lia); [reflexivity |].
    repeat constructor; discriminate. }
  assert (Hintel : strcmp_eq (le_bytes4 (r_ebx r) ++ le_bytes4 (r_edx r)
                              ++ le_bytes4 (r_ecx r) ++ [0]) str_GenuineIntel
                   = true
                   <-> r_ebx r = 0x756E6547 /\ r_edx r = 0x49656E69
                       /\ r_ecx r = 0x6C65746E).
  { apply strcmp_eq_vendor; try assumption;
      try (unfold is_u32, u32_mod; lia); [reflexivity |].
    repeat constructor; discriminate. }
  unfold DetectCPUVendor. rewrite Hx. fold r. cbv zeta.
  destruct (strcmp_eq _ str_AuthenticAMD).
  - split.
    + split; [intros _; now apply Hamd | reflexivity].
    + split; [discriminate |].
      intros (Hb' & _). destruct (proj1 Hamd eq_refl) as (Hb'' & _).
      rewrite Hb' in Hb''. discriminate.
  - destruct (strcmp_eq _ str_GenuineIntel).
    + split.
      * split; [discriminate |]. intros Hregs. apply Hamd in Hregs.
        discriminate.
      * split; [intros _; now apply Hintel | reflexivity].
    + split.
      * split; [discriminate |]. intros Hregs. apply Hamd in Hregs.
        discriminate.
      * split; [discriminate |]. intros Hregs. apply Hintel in Hregs.
        discriminate.
Qed.

Lemma DetectCPUVendor_spec_witness :
  DetectCPUVendor (host_amd 0x00A20F10 1) = CPU_VENDOR_AMD
  /\ DetectCPUVendor (host_intel 1) = CPU_VENDOR_INTEL.
Proof.
  assert (H32 : forall x, 0 <= x < 2 ^ 32 -> is_u32 x) by (intros; assumption).
  split.
  - apply (DetectCPUVendor_spec (host_amd 0x00A20F10 1) eq_refl);
      try (apply H32; cbn; lia). cbn. repeat split.
  - apply (DetectCPUVendor_spec (host_intel 1) eq_refl);
      try (apply H32; cbn; lia). cbn. repeat split.
Defined.

(** ** CPU feature detection *)

Lemma has_bit_testbit (x n : Z) :
  0 <= n -> CPUFeatures.has_bit x n = Z.testbit x n.
Proof.
  intros Hn. unfold CPUFeatures.has_bit.
  rewrite Z.shiftl_1_l.
  assert (Hland : Z.land x (2 ^ n) = if Z.testbit x n then 2 ^ n else 0).
  { apply Z.bits_inj'. intros i Hi. rewrite Z.land_spec, Z.pow2_bits_eqb by lia.
    destruct (Z.eqb_spec n i) as [<- | Hne].
    - destruct (Z.testbit x n); [| now rewrite Z.bits_0].
      rewrite Z.pow2_bits_true by lia. reflexivity.
    - rewrite andb_false_r.
      destruct (Z.testbit x n); [| now rewrite Z.bits_0].
      rewrite Z.pow2_bits_false by lia. reflexivity. }
  rewrite Hland. destruct (Z.testbit x n); [| reflexivity].
  destruct (Z.eqb_spec (2 ^ n) 0) as [H0 | _]; [| reflexivity].
  pose proof (Z.pow_pos_nonneg 2 n ltac:(lia) Hn). lia.
Qed.

(** X14: on an x86-64 build the first query of a feature runs the
    detection and reports the bit of the identification leaf: AES-NI is
    bit 25 of ECX of leaf 1, AVX2, BMI2 and AVX-512F are bits 5, 8 and 16 of
    EBX of leaf 7 (sub-leaf 0).  On any other build nothing is detected and
    every feature reads false. *)
Theorem feature_queries_report_cpuid_bits (h : Host) :
  (x86_64 h = true ->
   fst (CPUFeatures.HasAES h CPUFeatures.initial)
   = Z.testbit (r_ecx (cpuid h 1 0)) 25
   /\ fst (CPUFeatures.HasAVX2 h CPUFeatures.initial)
      = Z.testbit (r_ebx (cpuid h 7 0)) 5
   /\ fst (CPUFeatures.HasBMI2 h CPUFeatures.initial)
      = Z.testbit (r_ebx (cpuid h 7 0)) 8
   /\ fst (CPUFeatures.HasAVX512F h CPUFeatures.initial)
      = Z.testbit (r_ebx (cpuid h 7 0)) 16)
  /\ (x86_64 h = false ->
      fst (CPUFeatures.HasAES h CPUFeatures.initial) = false
      /\ fst (CPUFeatures.HasAVX2 h CPUFeatures.initial) = false
      /\ fst (CPUFeatures.HasBMI2 h CPUFeatures.initial) = false
      /\ fst (CPUFeatures.HasAVX512F h CPUFeatures.initial) = false).
Proof.
  unfold CPUFeatures.HasAES, CPUFeatures.HasAVX2, CPUFeatures.HasBMI2,
    CPUFeatures.HasAVX512F, CPUFeatures.ensure_detected, CPUFeatures.Detect.
  run_st. cbn [CPUFeatures.m_detected CPUFeatures.initial negb].
  split; intros Hx; rewrite Hx; cbn [fst snd CPUFeatures.m_has_aes
    CPUFeatures.m_has_avx2 CPUFeatures.m_has_bmi2 CPUFeatures.m_has_avx512f].
  - rewrite !has_bit_testbit by lia. repeat split.
  - repeat split.
Qed.

Lemma feature_queries_report_cpuid_bits_witness :
  fst (CPUFeatures.HasAES host_with_brand CPUFeatures.initial) = true
  /\ fst (CPUFeatures.HasBMI2 host_with_brand CPUFeatures.initial) = false.
Proof.
  destruct (feature_queries_report_cpuid_bits host_with_brand) as (Hx86 & _).
  destruct (Hx86 eq_refl) as (Haes & _ & Hbmi & _).
  split; [rewrite Haes | rewrite Hbmi]; reflexivity.
Defined.

Lemma Detect_sets_detected (h : Host) (s : CPUFeatures.t) :
  CPUFeatures.m_detected (snd (CPUFeatures.Detect h s)) = true.
Proof.
  unfold CPUFeatures.Detect.
  destruct (CPUFeatures.m_detected s) eqn:Hd; [exact Hd |].
  destruct (x86_64 h); reflexivity.
Qed.

(** X15: detection runs once.  After any first [Detect], a further
    [Detect] and every query ([HasAES], [HasAVX2], [HasAVX512F], [HasBMI2],
    [GetBrand]) leave the statics and the log as they are and return what
    was stored, whatever the identification instruction would answer at
    that time. *)
Theorem detection_runs_once (h h' : Host) (s : CPUFeatures.t) :
  let s1 := snd (CPUFeatures.Detect h s) in
  CPUFeatures.Detect h' s1 = (tt, s1)
  /\ CPUFeatures.HasAES h' s1 = (CPUFeatures.m_has_aes s1, s1)
  /\ CPUFeatures.HasAVX2 h' s1 = (CPUFeatures.m_has_avx2 s1, s1)
  /\ CPUFeatures.HasAVX512F h' s1 = (CPUFeatures.m_has_avx512f s1, s1)
  /\ CPUFeatures.HasBMI2 h' s1 = (CPUFeatures.m_has_bmi2 s1, s1)
  /\ CPUFeatures.GetBrand h' s1 = (CPUFeatures.m_brand s1, s1).
Proof.
  cbv zeta. pose proof (Detect_sets_detected h s) as Hd.
  unfold CPUFeatures.HasAES, CPUFeatures.HasAVX2, CPUFeatures.HasAVX512F,
    CPUFeatures.HasBMI2, CPUFeatures.GetBrand, CPUFeatures.ensure_detected.
  run_st. rewrite Hd. cbn [negb fst snd].
  split; [unfold CPUFeatures.Detect at 1; now rewrite Hd |].
  repeat split.
Qed.

(** ** The brand string *)

Lemma c_str_app_zero (l t : list Z) : c_str (l ++ 0 :: t) = c_str (l ++ [0]).
Proof.
  induction l as [| c l IH]; cbn [c_str app]; [reflexivity |].
  destruct (c =? 0); [reflexivity | now rewrite IH].
Qed.

Lemma c_str_skip_spaces (l : list Z) :
  c_str (CPUFeatures.skip_spaces l) = CPUFeatures.skip_spaces (c_str l).
Proof.
  induction l as [| c l IH]; [reflexivity |].
  cbn [CPUFeatures.skip_spaces].
  destruct (Z.eqb_spec c 32) as [-> | Hne].
  - cbn [c_str]. cbn [Z.eqb CPUFeatures.skip_spaces]. exact IH.
  - cbn [c_str]. destruct (c =? 0) eqn:Hz; [reflexivity |].
    cbn [CPUFeatures.skip_spaces].
    destruct (Z.eqb_spec c 32); [contradiction | reflexivity].
Qed.

Lemma c_str_prefix (l : list Z) :
  In 0 l -> firstn (length (c_str l) + 1) l = c_str l ++ [0].
Proof.
  induction l as [| c l IH]; intros Hin; [contradiction |].
  cbn [c_str]. destruct (Z.eqb_spec c 0) as [-> | Hne]; [reflexivity |].
  cbn [length Nat.add firstn app]. f_equal. apply IH.
  destruct Hin as [Heq | Hin]; [congruence | exact Hin].
Qed.

Lemma c_str_idem_zero (l t : list Z) : c_str (c_str l ++ 0 :: t) = c_str l.
Proof.
  induction l as [| c l IH]; [reflexivity |].
  cbn [c_str]. destruct (c =? 0) eqn:Hz; [reflexivity |].
  cbn [app c_str]. now rewrite Hz, IH.
Qed.

Lemma skip_spaces_keeps_zero (l t : list Z) :
  In 0 (CPUFeatures.skip_spaces (l ++ 0 :: t)).
Proof.
  induction l as [| c l IH]; cbn [app CPUFeatures.skip_spaces].
  - left. reflexivity.
  - destruct (c =? 32); [exact IH |].
    right. apply in_or_app. right. left. reflexivity.
Qed.

Lemma skip_spaces_length (l : list Z) :
  (length (CPUFeatures.skip_spaces l) <= length l)%nat.
Proof.
  induction l as [| c l IH]; [apply Nat.le_refl |].
  cbn [CPUFeatures.skip_spaces]. destruct (c =? 32); cbn [length]; lia.
Qed.

Lemma skip_spaces_same_length (l : list Z) :
  length (CPUFeatures.skip_spaces l) = length l ->
  CPUFeatures.skip_spaces l = l.
Proof.
  destruct l as [| c l]; [reflexivity |].
  cbn [CPUFeatures.skip_spaces]. destruct (c =? 32); [| reflexivity].
  intros Hlen. pose proof (skip_spaces_length l). cbn [length] in Hlen. lia.
Qed.

Lemma skip_spaces_no_leading_space (l : list Z) (c : Z) (rest : list Z) :
  CPUFeatures.skip_spaces l = c :: rest -> c <> 32.
Proof.
  induction l as [| c0 l IH]; [discriminate |].
  cbn [CPUFeatures.skip_spaces]. destruct (Z.eqb_spec c0 32) as [-> | Hne].
  - exact IH.
  - intros Heq. injection Heq as <- _. exact Hne.
Qed.

(** What the trimming part of [Detect] leaves in a buffer that ends the
    string somewhere. *)
Lemma trimmed_c_str (l t : list Z) :
  let buf := l ++ 0 :: t in
  let p := CPUFeatures.skip_spaces buf in
  c_str (if negb (length p =? length buf)%nat
         then CPUFeatures.write_front (firstn (CPUFeatures.strlen p + 1) p) buf
         else buf)
  = CPUFeatures.skip_spaces (c_str (l ++ [0])).
Proof.
  cbv zeta. rewrite <- (c_str_app_zero l t), <- c_str_skip_spaces.
  destruct (Nat.eqb_spec (length (CPUFeatures.skip_spaces (l ++ 0 :: t)))
                         (length (l ++ 0 :: t))) as [Heq | Hne]; cbn [negb].
  - now rewrite (skip_spaces_same_length _ Heq).
  - unfold CPUFeatures.write_front, CPUFeatures.strlen.
    rewrite c_str_prefix by apply skip_spaces_keeps_zero.
    rewrite <- app_assoc. cbn [app]. apply c_str_idem_zero.
Qed.

Lemma leaf_bytes_length (r : CpuidRegs) :
  length (CPUFeatures.leaf_bytes r) = 16%nat.
Proof. reflexivity. Qed.

Lemma raw_brand_length (h : Host) : length (raw_brand h) = 48%nat.
Proof.
  unfold raw_brand. rewrite !length_app, !leaf_bytes_length. reflexivity.
Qed.

(** X16: the string [GetBrand] returns after the first detection.  On an
    x86-64 build whose highest extended leaf is at least 0x80000004 it is
    the 48-byte brand string of leaves 0x80000002..0x80000004, cut at its
    first NUL, without its leading spaces, so it never starts with a
    space; with a lower highest extended leaf it is "Unknown CPU"; on any
    other build it is "Non-x86_64 CPU". *)
Theorem GetBrand_is_trimmed_brand_string (h : Host) :
  let brand := c_str (fst (CPUFeatures.GetBrand h CPUFeatures.initial)) in
  (x86_64 h = true ->
   0x80000004 <= r_eax (cpuid h 0x80000000 0) ->
   brand = CPUFeatures.skip_spaces (c_str (raw_brand h ++ [0]))
   /\ (forall c rest, brand = c :: rest -> c <> 32))
  /\ (x86_64 h = true ->
      r_eax (cpuid h 0x80000000 0) < 0x80000004 ->
      brand = c_str CPUFeatures.str_Unknown_CPU)
  /\ (x86_64 h = false -> brand = c_str CPUFeatures.str_Non_x86_64_CPU).
Proof.
  cbv zeta.
  unfold CPUFeatures.GetBrand, CPUFeatures.ensure_detected, CPUFeatures.Detect.
  run_st. cbn [CPUFeatures.m_detected CPUFeatures.initial negb].
  split; [| split].
  - intros Hx Hext. rewrite Hx. cbn [fst snd CPUFeatures.m_brand].
    unfold CPUFeatures.detect_brand.
    destruct (Z.leb_spec 0x80000004 (r_eax (cpuid h 0x80000000 0))); [| lia].
    cbv zeta. fold (raw_brand h).
    assert (Hbuf : CPUFeatures.set_byte 63 0
                     (CPUFeatures.write_front (raw_brand h)
                        (CPUFeatures.m_brand CPUFeatures.initial))
                   = raw_brand h ++ 0 :: repeat 0 15).
    { reflexivity. }
    rewrite Hbuf.
    pose proof (trimmed_c_str (raw_brand h) (repeat 0 15)) as Htrim.
    cbv zeta in Htrim. rewrite Htrim.
    split; [reflexivity |].
    intros c rest Heq. exact (skip_spaces_no_leading_space _ c rest Heq).
  - intros Hx Hext. rewrite Hx. cbn [fst snd CPUFeatures.m_brand].
    unfold CPUFeatures.detect_brand.
    destruct (Z.leb_spec 0x80000004 (r_eax (cpuid h 0x80000000 0))); [lia |].
    reflexivity.
  - intros Hx. rewrite Hx. reflexivity.
Qed.

Lemma GetBrand_is_trimmed_brand_string_witness :
  c_str (fst (CPUFeatures.GetBrand host_with_brand CPUFeatures.initial))
  = [65; 98].
Proof.
  destruct (GetBrand_is_trimmed_brand_string host_with_brand) as (Hbrand & _).
  destruct Hbrand as (Heq & _); [reflexivity | cbn; lia |].
  rewrite Heq. vm_compute. reflexivity.
Defined.
